(** * Math Adventures: the adaptive difficulty controller

    A shallow embedding of [src/adaptive_engine.py], [src/tracker.py] and
    [src/ml_model.py], and the properties of the controller proved on it.

    Numbers.  Python's [int] counters are [nat]; Python's [float] values
    (percentages, response times, probabilities) are exact rationals [Q]:
    every finite float is a rational, the comparisons the code makes are
    exact on them, and the rounding of float arithmetic is not modelled,
    except for the response-time trend, which [Binary64] gives on doubles.
    Strings that the code compares ([current_difficulty], [mode]) stay
    strings; the three action literals and the three trend literals are
    enumerations. *)

From Stdlib Require Import String List ZArith QArith Bool Arith Lia Lqa.
From Stdlib Require Import DecimalString Qabs.
From Stdlib Require PrimFloat Uint63.
Import ListNotations.

Local Open Scope Q_scope.

(** ** Numeric helpers *)

(** A Python [int] used in float arithmetic. *)
Definition Qnat (n : nat) : Q := inject_Z (Z.of_nat n).

(** [x < y] on floats, as a boolean. *)
Definition Qlt_bool (x y : Q) : bool := negb (Qle_bool y x).

(** Python's [sum(xs)]: starts from [0] and adds from the left. *)
Definition sum (xs : list Q) : Q := fold_left Qplus xs 0.

(** Python's [xs[-n:]]: the last [n] items, all of them when shorter. *)
Definition last_n {A} (n : nat) (xs : list A) : list A :=
  skipn (length xs - n) xs.

(** Python's [xs[:-n]]: all but the last [n] items. *)
Definition but_last_n {A} (n : nat) (xs : list A) : list A :=
  firstn (length xs - n) xs.

(** Python's [sum(1 for x in xs if p(x))]. *)
Definition count {A} (p : A -> bool) (xs : list A) : nat :=
  length (filter p xs).

(** ** The metrics dictionary of [PerformanceTracker.get_current_metrics] *)

Inductive Trend := improving | stable | slowing.

Module Metrics.

Record t := {
  total_questions : nat;
  correct_count : nat;
  incorrect_count : nat;
  accuracy : Q;
  avg_response_time : Q;
  consecutive_correct : nat;
  max_streak : nat;
  recent_accuracy : Q;
  response_time_trend : Trend
}.

End Metrics.

(** ** [src/adaptive_engine.py] *)

Inductive Action := increase | maintain | decrease.

Definition Action_eqb (a b : Action) : bool :=
  match a, b with
  | increase, increase | maintain, maintain | decrease, decrease => true
  | _, _ => false
  end.

(** A loaded model, seen through the one call the engine makes:
    [model.predict_proba(features)[0][1]], the probability of the positive
    class, or [None] when the call raises. *)
Definition Classifier := list Q -> option Q.

Module AdaptiveEngine.

(** [RULE_BASED_THRESHOLDS]. *)
Definition min_accuracy : Q := 80.
Definition max_avg_time : Q := 5.
Definition min_consecutive : nat := 2.
Definition max_accuracy : Q := 60.
Definition min_avg_time : Q := 8.

(** The instance attributes. [model] is [None] after a failed load and in
    every mode other than ["ml_based"]. *)
Record t := {
  mode : string;
  model : option Classifier;
  is_trained : bool
}.

Definition increase_conditions (m : Metrics.t) : bool :=
  Qle_bool min_accuracy (Metrics.accuracy m)
  && Qle_bool (Metrics.avg_response_time m) max_avg_time
  && (min_consecutive <=? Metrics.consecutive_correct m)%nat.

Definition decrease_conditions (m : Metrics.t) : bool :=
  Qlt_bool (Metrics.accuracy m) max_accuracy
  || Qle_bool min_avg_time (Metrics.avg_response_time m).

Definition _get_action_rule_based
    (performance_metrics : Metrics.t) (current_difficulty : string) : Action :=
  (* Check decrease conditions, then default to maintain *)
  let check_decrease :=
    if decrease_conditions performance_metrics
    then if negb (current_difficulty =? "Easy")%string
         then decrease
         else maintain
    else maintain in
  (* Check increase conditions; a guard that fails falls through *)
  if increase_conditions performance_metrics
  then if negb (current_difficulty =? "Hard")%string
       then increase
       else check_decrease
  else check_decrease.

(** The row the engine hands to the classifier. *)
Definition features (performance_metrics : Metrics.t) : list Q :=
  [ Metrics.accuracy performance_metrics;
    Metrics.avg_response_time performance_metrics;
    Qnat (Metrics.consecutive_correct performance_metrics);
    Metrics.recent_accuracy performance_metrics ].

(** [self.model.predict_proba(features)[0][1]] inside the [try]: a missing
    model raises on the attribute access, a present one may raise itself. *)
Definition predict_proba (self : t) (row : list Q) : option Q :=
  match model self with
  | None => None
  | Some clf => clf row
  end.

(** The cut points are the literals [0.6] and [0.4].  The double nearest to
    0.6 lies below 6/10 and the one nearest to 0.4 above 4/10, with no
    double in between, so for every double [probability] the comparisons
    with the literals and with the exact fractions agree. *)
Definition _get_action_ml_based
    (self : t) (performance_metrics : Metrics.t) (current_difficulty : string)
    : Action :=
  match predict_proba self (features performance_metrics) with
  | None => _get_action_rule_based performance_metrics current_difficulty
  | Some probability =>
      if Qlt_bool (Metrics.accuracy performance_metrics) 50
         && negb (current_difficulty =? "Easy")%string
      then decrease
      else if Qlt_bool (6 # 10) probability
              && negb (current_difficulty =? "Hard")%string
      then increase
      else if Qlt_bool probability (4 # 10)
              && negb (current_difficulty =? "Easy")%string
      then decrease
      else maintain
  end.

Definition get_next_action
    (self : t) (performance_metrics : Metrics.t) (current_difficulty : string)
    : Action :=
  if (mode self =? "rule_based")%string
  then _get_action_rule_based performance_metrics current_difficulty
  else if (mode self =? "ml_based")%string && is_trained self
  then _get_action_ml_based self performance_metrics current_difficulty
  else _get_action_rule_based performance_metrics current_difficulty.

End AdaptiveEngine.

Module HybridAdaptiveEngine.
Import AdaptiveEngine.

Definition get_next_action
    (self : t) (performance_metrics : Metrics.t) (current_difficulty : string)
    : Action :=
  let rule_action :=
    _get_action_rule_based performance_metrics current_difficulty in
  let ml_action :=
    if is_trained self
    then _get_action_ml_based self performance_metrics current_difficulty
    else rule_action in
  (* If both agree, use that action *)
  if Action_eqb rule_action ml_action then rule_action
  else
    (* If they disagree, only trust ML for edge cases *)
    if is_trained self
    then
      let accuracy := Metrics.accuracy performance_metrics in
      if Action_eqb rule_action maintain
         && (Qle_bool 70 accuracy && Qle_bool accuracy 85)
      then ml_action
      else rule_action
    else rule_action.

End HybridAdaptiveEngine.

(** ** [src/tracker.py] *)

(** The puzzle dictionary built by [PuzzleGenerator.generate_puzzle]. *)
Module Puzzle.

Record t := {
  question : string;
  operand1 : Z;
  operand2 : Z;
  operation : string;
  answer : Z;
  difficulty : string
}.

End Puzzle.

(** One stored response record.  The session logs read by the trainer hold
    records of the same shape; the trainer reads only [is_correct] and
    [response_time]. *)
Record Response := {
  puzzle : Puzzle.t;
  user_answer : Q;
  correct_answer : Z;
  is_correct : bool;
  response_time : Q;
  difficulty : string;
  question_number : nat
}.

(** The arguments of one call of [record_response]. *)
Record AnswerEvent := {
  ev_puzzle : Puzzle.t;
  ev_user_answer : Q;
  ev_is_correct : bool;
  ev_response_time : Q;
  ev_difficulty : string
}.

Definition event_of (r : Response) : AnswerEvent :=
  {| ev_puzzle := puzzle r;
     ev_user_answer := user_answer r;
     ev_is_correct := is_correct r;
     ev_response_time := response_time r;
     ev_difficulty := difficulty r |}.

(** One example of [export_for_ml_training]. *)
Record ExportedFeatures := {
  f_accuracy : Q;
  f_response_time : Q;
  f_consecutive_correct : Z;
  f_recent_accuracy : Q
}.

Record ExportedExample := {
  features : ExportedFeatures;
  target : Z;
  current_difficulty : string
}.

(** [d['features'].values()], in the order the keys were inserted. *)
Definition values (f : ExportedFeatures) : list Q :=
  [ f_accuracy f; f_response_time f;
    inject_Z (f_consecutive_correct f); f_recent_accuracy f ].

Module PerformanceTracker.

Record t := {
  user_name : string;
  session_mode : string;
  responses : list Response;
  correct_count : nat;
  incorrect_count : nat;
  consecutive_correct : nat;
  max_consecutive_correct : nat;
  total_response_time : Q
}.

Definition __init__ (user_name session_mode : string) : t :=
  {| user_name := user_name;
     session_mode := session_mode;
     responses := [];
     correct_count := 0;
     incorrect_count := 0;
     consecutive_correct := 0;
     max_consecutive_correct := 0;
     total_response_time := 0 |}.

Definition record_response (self : t) (puzzle : Puzzle.t) (user_answer : Q)
    (is_correct : bool) (response_time : Q) (difficulty : string) : t :=
  (* Update counts *)
  let correct_count' :=
    if is_correct then (correct_count self + 1)%nat else correct_count self in
  let incorrect_count' :=
    if is_correct then incorrect_count self
    else (incorrect_count self + 1)%nat in
  let consecutive_correct' :=
    if is_correct then (consecutive_correct self + 1)%nat else 0%nat in
  let max_consecutive_correct' :=
    if is_correct
    then Nat.max (max_consecutive_correct self) consecutive_correct'
    else max_consecutive_correct self in
  (* Update timing *)
  let total_response_time' := total_response_time self + response_time in
  (* Store full response record *)
  let response_record :=
    {| puzzle := puzzle;
       user_answer := user_answer;
       correct_answer := Puzzle.answer puzzle;
       is_correct := is_correct;
       response_time := response_time;
       difficulty := difficulty;
       question_number := (length (responses self) + 1)%nat |} in
  {| user_name := user_name self;
     session_mode := session_mode self;
     responses := responses self ++ [response_record];
     correct_count := correct_count';
     incorrect_count := incorrect_count';
     consecutive_correct := consecutive_correct';
     max_consecutive_correct := max_consecutive_correct';
     total_response_time := total_response_time' |}.

(** The response-time trend of [get_current_metrics]; the factors [1.2]
    and [0.8] are taken at their decimal value. *)
Definition trend_of (responses : list Response) : Trend :=
  if (3 <=? length responses)%nat
  then
    let recent_times := map response_time (last_n 3 responses) in
    let older_times := map response_time (but_last_n 3 responses) in
    match older_times with
    | _ :: _ =>
        let recent_avg := sum recent_times / Qnat (length recent_times) in
        let older_avg := sum older_times / Qnat (length older_times) in
        if Qlt_bool (older_avg * (12 # 10)) recent_avg then slowing
        else if Qlt_bool recent_avg (older_avg * (8 # 10)) then improving
        else stable
    | [] => stable
    end
  else stable.

Definition get_current_metrics (self : t) : Metrics.t :=
  let total := length (responses self) in
  if (total =? 0)%nat
  then
    {| Metrics.total_questions := 0;
       Metrics.correct_count := 0;
       Metrics.incorrect_count := 0;
       Metrics.accuracy := 0;
       Metrics.avg_response_time := 0;
       Metrics.consecutive_correct := 0;
       Metrics.max_streak := 0;
       Metrics.recent_accuracy := 0;
       Metrics.response_time_trend := stable |}
  else
    let accuracy := (Qnat (correct_count self) / Qnat total) * 100 in
    let avg_response_time := total_response_time self / Qnat total in
    (* Calculate recent accuracy (last 3 questions) *)
    let recent_responses :=
      if (3 <=? length (responses self))%nat
      then last_n 3 (responses self)
      else responses self in
    let recent_correct := count is_correct recent_responses in
    let recent_accuracy :=
      match recent_responses with
      | _ :: _ =>
          (Qnat recent_correct / Qnat (length recent_responses)) * 100
      | [] => 0
      end in
    (* Detect response time trend *)
    let trend := trend_of (responses self) in
    {| Metrics.total_questions := total;
       Metrics.correct_count := correct_count self;
       Metrics.incorrect_count := incorrect_count self;
       Metrics.accuracy := accuracy;
       Metrics.avg_response_time := avg_response_time;
       Metrics.consecutive_correct := consecutive_correct self;
       Metrics.max_streak := max_consecutive_correct self;
       Metrics.recent_accuracy := recent_accuracy;
       Metrics.response_time_trend := trend |}.

(** One pass of the loop of [export_for_ml_training], for index [i] and the
    response stored there. *)
Definition export_example (responses : list Response) (i : nat)
    (response : Response) : ExportedExample :=
  let prior_responses := firstn i responses in
  let prior_correct := count is_correct prior_responses in
  let prior_total := length prior_responses in
  let recent_correct := count is_correct (last_n 3 prior_responses) in
  let recent_total := Nat.min 3 (length prior_responses) in
  let features :=
    {| f_accuracy :=
         if (0 <? prior_total)%nat
         then Qnat prior_correct / Qnat prior_total * 100 else 0;
       f_response_time :=
         match prior_responses with
         | _ :: _ =>
             sum (map response_time (last_n 3 prior_responses))
             / Qnat (Nat.min 3 (length prior_responses))
         | [] => 0
         end;
       f_consecutive_correct :=
         (Z.of_nat (count is_correct prior_responses)
          - Z.of_nat (count (fun r => negb (is_correct r)) prior_responses))%Z;
       f_recent_accuracy :=
         if (0 <? recent_total)%nat
         then Qnat recent_correct / Qnat recent_total * 100 else 0 |} in
  let target :=
    if is_correct response
       && Qlt_bool (8 # 10) (Qnat prior_correct / Qnat prior_total)
    then 1%Z else 0%Z in
  {| features := features;
     target := target;
     current_difficulty := difficulty response |}.

(** Python's [enumerate]. *)
Definition enumerate {A} (xs : list A) : list (nat * A) :=
  combine (seq 0 (length xs)) xs.

Definition export_for_ml_training (self : t) : list ExportedExample :=
  fold_left
    (fun training_data '(i, response) =>
       if (i <? 2)%nat then training_data
       else training_data ++ [export_example (responses self) i response])
    (enumerate (responses self)) [].

(** [record_response] called with the fields of one answer event. *)
Definition record_event (self : t) (e : AnswerEvent) : t :=
  record_response self (ev_puzzle e) (ev_user_answer e) (ev_is_correct e)
    (ev_response_time e) (ev_difficulty e).

(** A session replayed from its answer events. *)
Definition replay (self : t) (events : list AnswerEvent) : t :=
  fold_left record_event events self.

(** One value of the [breakdown] dictionary of [get_difficulty_breakdown]
    (keys [correct], [total], [total_time]) and one value of its result
    (keys [accuracy], [count], [avg_time]). *)
Record Tally := {
  tally_correct : nat;
  tally_total : nat;
  tally_total_time : Q
}.

Record LevelStats := {
  level_accuracy : Q;
  level_count : nat;
  level_avg_time : Q
}.

(** The body of the first loop: [breakdown[difficulty]] is created with
    zeros when the key is new (at the end: dictionaries keep insertion
    order) and updated in place. *)
Definition tally_one (stats : Tally) (response : Response) : Tally :=
  {| tally_correct :=
       if is_correct response
       then (tally_correct stats + 1)%nat else tally_correct stats;
     tally_total := (tally_total stats + 1)%nat;
     tally_total_time := tally_total_time stats + response_time response |}.

Fixpoint tally_response (response : Response)
    (breakdown : list (string * Tally)) : list (string * Tally) :=
  match breakdown with
  | [] =>
      [(difficulty response,
        tally_one {| tally_correct := 0;
                     tally_total := 0;
                     tally_total_time := 0 |} response)]
  | (key, stats) :: rest =>
      if (key =? difficulty response)%string
      then (key, tally_one stats response) :: rest
      else (key, stats) :: tally_response response rest
  end.

Definition get_difficulty_breakdown (self : t)
    : list (string * LevelStats) :=
  let breakdown :=
    fold_left (fun breakdown response => tally_response response breakdown)
      (responses self) [] in
  (* Convert to percentages and averages *)
  map (fun '(difficulty, stats) =>
         let total := tally_total stats in
         let accuracy :=
           if (0 <? total)%nat
           then (Qnat (tally_correct stats) / Qnat total) * 100 else 0 in
         let avg_time :=
           if (0 <? total)%nat
           then tally_total_time stats / Qnat total else 0 in
         (difficulty,
          {| level_accuracy := accuracy;
             level_count := total;
             level_avg_time := avg_time |}))
      breakdown.

(** The dictionary of [get_session_summary]: the metrics, and two more
    keys. *)
Record Summary := {
  summary_metrics : Metrics.t;
  difficulty_breakdown : list (string * LevelStats);
  response_history_length : nat
}.

Definition get_session_summary (self : t) : Summary :=
  let metrics := get_current_metrics self in
  let difficulty_breakdown := get_difficulty_breakdown self in
  {| summary_metrics := metrics;
     difficulty_breakdown := difficulty_breakdown;
     response_history_length := length (responses self) |}.

End PerformanceTracker.

(** ** The response-time trend in double precision

    The numbers of the tracker are Python floats, that is binary64.  The
    rest of this file takes them as exact rationals.  The trend compares a
    mean with products by [1.2] and [0.8], and there the rounding decides
    the result, so the same lines of [get_current_metrics] are given here
    on doubles. *)
Module Binary64.

Import PrimFloat.

(** A Python [int] used in float arithmetic. *)
Definition float_of_nat (n : nat) : float :=
  of_uint63 (Uint63.of_Z (Z.of_nat n)).

(** Python's [sum(xs)]: starts from [0] and adds from the left. *)
Definition sum (xs : list float) : float := fold_left add xs 0%float.

(** The literals [1.2] and [0.8] denote the doubles nearest to them. *)
Definition literal_1_2 : float := 0x1.3333333333333p+0%float.

Definition literal_0_8 : float := 0x1.999999999999ap-1%float.

(** The trend of [get_current_metrics], from
    [[r['response_time'] for r in self.responses]]. *)
Definition trend_of (response_times : list float) : Trend :=
  if (3 <=? length response_times)%nat
  then
    let recent_times := last_n 3 response_times in
    let older_times := but_last_n 3 response_times in
    match older_times with
    | _ :: _ =>
        let recent_avg :=
          div (sum recent_times) (float_of_nat (length recent_times)) in
        let older_avg :=
          div (sum older_times) (float_of_nat (length older_times)) in
        if ltb (mul older_avg literal_1_2) recent_avg then slowing
        else if ltb recent_avg (mul older_avg literal_0_8) then improving
        else stable
    | [] => stable
    end
  else stable.

(** The mean of a list of doubles, as the tracker computes it. *)
Definition mean (xs : list float) : float :=
  div (sum xs) (float_of_nat (length xs)).

End Binary64.

(** ** scikit-learn and numpy, as far as the trainers call them

    The library is not part of the repository: its calls are fields of a
    record the trainers are given.  A call that raises returns [None].
    [Model] is the fitted estimator. *)

(** What [np.array] builds from the rows it is given: a two-dimensional
    float array from lists of numbers, an array of objects from dictionary
    views. *)
Inductive ndarray :=
| FloatArray (rows : list (list Q))
| ObjectArray (views : list (list Q)).

Record EvaluationMetrics := {
  train_accuracy : Q;
  test_accuracy : Q;
  precision : Q;
  recall : Q;
  f1 : Q
}.

Module Sklearn.

Record Library (Model : Type) := {
  (* train_test_split(X, y, test_size=0.2, random_state=42):
     ((X_train, X_test), (y_train, y_test)) *)
  train_test_split :
    list (list Q) -> list Z ->
    option ((list (list Q) * list (list Q)) * (list Z * list Z));
  (* LogisticRegression(random_state=42, max_iter=1000).fit(X, y) *)
  fit : ndarray -> list Z -> option Model;
  (* model.predict(X) *)
  predict : Model -> list (list Q) -> list Z;
  (* model.score(X, y) *)
  score : Model -> ndarray -> list Z -> Q;
  accuracy_score : list Z -> list Z -> Q;
  precision_score : list Z -> list Z -> Q;
  recall_score : list Z -> list Z -> Q;
  f1_score : list Z -> list Z -> Q
}.

Arguments train_test_split {Model}.
Arguments fit {Model}.
Arguments predict {Model}.
Arguments score {Model}.
Arguments accuracy_score {Model}.
Arguments precision_score {Model}.
Arguments recall_score {Model}.
Arguments f1_score {Model}.

End Sklearn.

(** What a call leaves behind: the value it returns, or an exception that
    leaves the function. *)
Inductive Outcome (A : Type) :=
| Returned (a : A)
| Raised.

Arguments Returned {A}.
Arguments Raised {A}.

(** The pickled models on disk, by path. *)
Definition Disk (Model : Type) := string -> option Model.

Definition write_file {Model} (disk : Disk Model) (path : string) (m : Model)
    : Disk Model :=
  fun p => if (p =? path)%string then Some m else disk p.

(** The estimator object held in [self.model]. *)
Inductive Estimator (Model : Type) :=
| Unfitted
| Fitted (m : Model).

Arguments Unfitted {Model}.
Arguments Fitted {Model}.

(** ** [src/ml_model.py] *)

(** A logged session; [responses] is [None] when the key is missing. *)
Record Session := {
  timestamp : string;
  session_user_name : string;
  adaptation_mode : string;
  session_responses : option (list Response)
}.

(** [session.get('responses', [])]. *)
Definition responses_of (session : Session) : list Response :=
  match session_responses session with
  | Some rs => rs
  | None => []
  end.

Module MLModelManager.

Record t (Model : Type) := {
  model_path : string;
  model : option (Estimator Model);
  is_trained : bool;
  metrics : option EvaluationMetrics
}.

Arguments model_path {Model}.
Arguments model {Model}.
Arguments is_trained {Model}.
Arguments metrics {Model}.

Definition __init__ {Model} (model_path : string) : t Model :=
  {| model_path := model_path;
     model := None;
     is_trained := false;
     metrics := None |}.

(** The streak loop over [reversed(prior_responses)]: counts until the
    first incorrect response. *)
Fixpoint count_until_incorrect (reversed : list Response) : nat :=
  match reversed with
  | [] => 0
  | r :: rest => if is_correct r then S (count_until_incorrect rest) else 0
  end.

(** The feature row built from [prior_responses] in the body of the inner
    loop of [extract_features]. *)
Definition features_of_prior (prior_responses : list Response) : list Q :=
  let prior_correct := count is_correct prior_responses in
  let prior_total := length prior_responses in
  (* Recent performance (last 3) *)
  let recent_responses := last_n 3 prior_responses in
  let recent_correct := count is_correct recent_responses in
  let recent_total := length recent_responses in
  (* Response times *)
  let response_times := map response_time recent_responses in
  let avg_recent_time :=
    match response_times with
    | _ :: _ => sum response_times / Qnat (length response_times)
    | [] => 0
    end in
  (* Calculate consecutive correct (streak) *)
  let consecutive := count_until_incorrect (rev prior_responses) in
  (* Features *)
  let accuracy :=
    if (0 <? prior_total)%nat
    then Qnat prior_correct / Qnat prior_total * 100 else 0 in
  let recent_accuracy :=
    if (0 <? recent_total)%nat
    then Qnat recent_correct / Qnat recent_total * 100 else 0 in
  [ accuracy; avg_recent_time; Qnat consecutive; recent_accuracy ].

(** The inner loop, [for i in range(2, len(responses))], appending to [X]
    and [y]. *)
Definition extract_session (responses : list Response)
    (Xy : list (list Q) * list Z) : list (list Q) * list Z :=
  fold_left
    (fun '(X, y) i =>
       match nth_error responses i with
       | Some response_i =>
           let features := features_of_prior (firstn i responses) in
           (* Target: Is current response correct? *)
           let target := if is_correct response_i then 1%Z else 0%Z in
           (X ++ [features], y ++ [target])
       | None => (X, y)
       end)
    (seq 2 (length responses - 2)) Xy.

Definition extract_features (data : list Session)
    : list (list Q) * list Z :=
  fold_left
    (fun Xy session =>
       let responses := responses_of session in
       if (length responses <? 3)%nat then Xy
       else extract_session responses Xy)
    data ([], []).

Section Training.

Context {Model : Type} (lib : Sklearn.Library Model).

Definition train (self : t Model) (X : list (list Q)) (y : list Z)
    : t Model * Outcome bool :=
  if (length X =? 0)%nat then (self, Returned false)
  else
    (* Split data *)
    match Sklearn.train_test_split lib X y with
    | None => (self, Raised)
    | Some ((X_train, X_test), (y_train, y_test)) =>
        (* Train model *)
        let self1 :=
          {| model_path := model_path self;
             model := Some Unfitted;
             is_trained := is_trained self;
             metrics := metrics self |} in
        match Sklearn.fit lib (FloatArray X_train) y_train with
        | None => (self1, Raised)
        | Some m =>
            (* Evaluate *)
            let y_pred := Sklearn.predict lib m X_test in
            let y_pred_train := Sklearn.predict lib m X_train in
            ({| model_path := model_path self;
                model := Some (Fitted m);
                is_trained := true;
                metrics :=
                  Some
                    {| train_accuracy :=
                         Sklearn.accuracy_score lib y_train y_pred_train;
                       test_accuracy :=
                         Sklearn.accuracy_score lib y_test y_pred;
                       precision := Sklearn.precision_score lib y_test y_pred;
                       recall := Sklearn.recall_score lib y_test y_pred;
                       f1 := Sklearn.f1_score lib y_test y_pred |} |},
             Returned true)
        end
    end.

End Training.

End MLModelManager.

(** ** [AdaptiveEngine.train_model] *)

Module Trainer.

Section Training.

Context {Model : Type} (lib : Sklearn.Library Model).

(** The result of one call: the disk afterwards, the training accuracy it
    printed, if it got that far, and how the call ended. *)
Record Run := {
  disk_after : Disk Model;
  printed_training_accuracy : option Q;
  outcome : Outcome bool
}.

Definition train_model (disk : Disk Model)
    (training_data : list ExportedExample) (save_path : string) : Run :=
  match training_data with
  | [] =>
      {| disk_after := disk;
         printed_training_accuracy := None;
         outcome := Returned false |}
  | _ :: _ =>
      (* Extract features and targets *)
      let X := ObjectArray (map (fun d => values (features d)) training_data) in
      let y := map target training_data in
      (* Train model *)
      match Sklearn.fit lib X y with
      | None =>
          {| disk_after := disk;
             printed_training_accuracy := None;
             outcome := Raised |}
      | Some m =>
          (* Save model *)
          {| disk_after := write_file disk save_path m;
             printed_training_accuracy := Some (Sklearn.score lib m X y);
             outcome := Returned true |}
      end
  end.

End Training.

End Trainer.

(** ** The definitions the properties below are stated with *)

(** A fresh tracker fed an event log, and its snapshot. *)
Definition tracker_after (user_name session_mode : string)
    (events : list AnswerEvent) : PerformanceTracker.t :=
  PerformanceTracker.replay
    (PerformanceTracker.__init__ user_name session_mode) events.

Definition snapshot (events : list AnswerEvent) : Metrics.t :=
  PerformanceTracker.get_current_metrics (tracker_after "" "" events).


(** The mean of a list of numbers. *)
Definition mean (xs : list Q) : Q := sum xs / Qnat (length xs).

(** The row the engine passes to the classifier after an event log, and the
    row the trainer builds for the same log. *)
Definition inference_features (events : list AnswerEvent) : list Q :=
  AdaptiveEngine.features (snapshot events).

Definition training_features (events : list AnswerEvent) : list Q :=
  MLModelManager.features_of_prior
    (PerformanceTracker.responses (tracker_after "" "" events)).

(** The feature vector of the trainer as the specification words it: from
    the events before a position, the Metrics Aggregator's accuracy, the
    mean response time of the last [min 3 N] events, the Aggregator's
    current streak and its recent accuracy. *)
Definition spec_feature_vector (prefix : list Response) : list Q :=
  let s := snapshot (map event_of prefix) in
  [ Metrics.accuracy s;
    mean (map response_time (last_n (Nat.min 3 (length prefix)) prefix));
    Qnat (Metrics.consecutive_correct s);
    Metrics.recent_accuracy s ].

Definition spec_label (event : Response) : Z :=
  if is_correct event then 1%Z else 0%Z.

(** The examples of one session and of a collection, as pairs. *)
Definition examples_of (Xy : list (list Q) * list Z) : list (list Q * Z) :=
  combine (fst Xy) (snd Xy).

Definition session_of (responses : list Response) : Session :=
  {| timestamp := "";
     session_user_name := "";
     adaptation_mode := "";
     session_responses := Some responses |}.

(** The examples the trainer extracts from one session. *)
Definition session_examples (responses : list Response)
    : list (list Q * Z) :=
  examples_of (MLModelManager.extract_features [session_of responses]).

(** The example the specification asks for at position [i] of a session:
    features from the events before [i], label from the event at [i]. *)
Definition spec_example_at (responses : list Response) (i : nat)
    : option (list Q * Z) :=
  match nth_error responses i with
  | Some event => Some (spec_feature_vector (firstn i responses),
                        spec_label event)
  | None => None
  end.

(** The examples of a list of positions, one for each position that lies
    inside the session. *)
Definition examples_at (responses : list Response) (positions : list nat)
    : list (list Q * Z) :=
  flat_map
    (fun i => match spec_example_at responses i with
              | Some example => [example]
              | None => []
              end)
    positions.

(** The examples of one session, by its length. *)
Definition per_session (responses : list Response) : list (list Q * Z) :=
  if (length responses <? 3)%nat then []
  else examples_at responses (seq 2 (length responses - 2)).

(** ** A library that checks its inputs

    Modelled from scikit-learn's documented input validation, which is not
    part of the repository: [train_test_split] with [test_size=0.2] puts a
    fifth of the samples, rounded up, in the test set and raises when the
    training set would be empty; [LogisticRegression.fit] raises on an
    array of dictionary views and on labels of fewer than two classes.  The
    shuffle, the rounding of the float product and the numerical fit are
    not modelled: the split keeps the order and the fitted model is a
    token. *)
Module CheckedLibrary.

Definition n_test (n_samples : nat) : nat := (n_samples + 4) / 5.

Definition train_test_split (X : list (list Q)) (y : list Z)
    : option ((list (list Q) * list (list Q)) * (list Z * list Z)) :=
  let n_train := (length X - n_test (length X))%nat in
  if (n_train =? 0)%nat then None
  else Some ((firstn n_train X, skipn n_train X),
             (firstn n_train y, skipn n_train y)).

Definition two_classes (y : list Z) : bool :=
  match y with
  | [] => false
  | c :: rest => existsb (fun c' => negb (c' =? c)%Z) rest
  end.

Definition fit (X : ndarray) (y : list Z) : option unit :=
  match X with
  | ObjectArray _ => None
  | FloatArray _ => if two_classes y then Some tt else None
  end.

Definition library : Sklearn.Library unit :=
  {| Sklearn.train_test_split := train_test_split;
     Sklearn.fit := fit;
     Sklearn.predict := fun _ X => map (fun _ => 1%Z) X;
     Sklearn.score := fun _ _ _ => 0;
     Sklearn.accuracy_score := fun _ _ => 0;
     Sklearn.precision_score := fun _ _ => 0;
     Sklearn.recall_score := fun _ _ => 0;
     Sklearn.f1_score := fun _ _ => 0 |}.

End CheckedLibrary.

(** ** Sample inputs *)

(** A snapshot with 40% accuracy, otherwise that of a strong learner. *)
Definition low_accuracy_snapshot : Metrics.t :=
  {| Metrics.total_questions := 10;
     Metrics.correct_count := 4;
     Metrics.incorrect_count := 6;
     Metrics.accuracy := 40;
     Metrics.avg_response_time := 2;
     Metrics.consecutive_correct := 3;
     Metrics.max_streak := 3;
     Metrics.recent_accuracy := 100;
     Metrics.response_time_trend := stable |}.

(** A trained engine whose classifier is stubbed to a high probability. *)
Definition optimistic_engine : AdaptiveEngine.t :=
  {| AdaptiveEngine.mode := "ml_based";
     AdaptiveEngine.model := Some (fun _ => Some (95 # 100));
     AdaptiveEngine.is_trained := true |}.

(** A snapshot with 70% accuracy. *)
Definition middling_snapshot : Metrics.t :=
  {| Metrics.total_questions := 10;
     Metrics.correct_count := 7;
     Metrics.incorrect_count := 3;
     Metrics.accuracy := 70;
     Metrics.avg_response_time := 6;
     Metrics.consecutive_correct := 1;
     Metrics.max_streak := 4;
     Metrics.recent_accuracy := (200 # 3);
     Metrics.response_time_trend := stable |}.

(** Four correct answers, the first one slow. *)
Definition slow_start_log : list AnswerEvent :=
  let puzzle :=
    {| Puzzle.question := "2 + 2 = ?";
       Puzzle.operand1 := 2;
       Puzzle.operand2 := 2;
       Puzzle.operation := "+";
       Puzzle.answer := 4;
       Puzzle.difficulty := "Easy" |} in
  map (fun time =>
         {| ev_puzzle := puzzle;
            ev_user_answer := 4;
            ev_is_correct := true;
            ev_response_time := time;
            ev_difficulty := "Easy" |})
      [10; 1; 1; 1].

(** Three answers at Easy: one wrong, then two right. *)
Definition recovering_log : list AnswerEvent :=
  let puzzle :=
    {| Puzzle.question := "3 + 4 = ?";
       Puzzle.operand1 := 3;
       Puzzle.operand2 := 4;
       Puzzle.operation := "+";
       Puzzle.answer := 7;
       Puzzle.difficulty := "Easy" |} in
  map (fun '(answer, correct) =>
         {| ev_puzzle := puzzle;
            ev_user_answer := answer;
            ev_is_correct := correct;
            ev_response_time := 2;
            ev_difficulty := "Easy" |})
      [(8, false); (7, true); (7, true)].

(** One training example: a learner with a perfect record who answered
    correctly again. *)
Definition single_example_X : list (list Q) := [[100; 2; 2; 100]].
Definition single_example_y : list Z := [1%Z].

(** * The rest of the code: puzzles, sessions, reports and the pipeline *)

(** ** [random], as far as the generator calls it

    The generator's source of randomness is a stream of raw numbers and a
    count of how many were drawn; [_randbelow(n)] is the next raw number
    reduced below [n], so every value below [n] can come out and no
    other. *)
Module Random.

Record t := {
  source : nat -> nat;
  drawn : nat
}.

Definition _randbelow (n : nat) (g : t) : nat * t :=
  (source g (drawn g) mod n,
   {| source := source g; drawn := S (drawn g) |}).

(** [random.choice(seq)]: raises [IndexError] on an empty sequence. *)
Definition choice {A} (seq : list A) (g : t) : Outcome (A * t) :=
  let '(i, g') := _randbelow (length seq) g in
  match nth_error seq i with
  | Some x => Returned (x, g')
  | None => Raised
  end.

(** [random.randint(a, b)]: raises [ValueError] on an empty range. *)
Definition randint (a b : Z) (g : t) : Outcome (Z * t) :=
  if (b <? a)%Z then Raised
  else
    let '(k, g') := _randbelow (Z.to_nat (b - a + 1)) g in
    Returned ((a + Z.of_nat k)%Z, g').

End Random.

(** A call that may raise, followed by the rest of the function. *)
Definition and_then {A B} (c : Outcome A) (k : A -> Outcome B) : Outcome B :=
  match c with
  | Returned a => k a
  | Raised => Raised
  end.

Notation "x <- c ;; k" := (and_then c (fun x => k))
  (at level 61, c at next level, right associativity).
Notation "' p <- c ;; k" := (and_then c (fun p => k))
  (at level 61, p pattern, c at next level, right associativity).

(** Python's [str] of an [int]. *)
Definition str (n : Z) : string := NilZero.string_of_int (Z.to_int n).

(** ** [src/puzzle_generator.py] *)

Module Config.

Record t := {
  min : Z;
  max : Z;
  operations : list string;
  description : string
}.

End Config.

Module PuzzleGenerator.

Definition OPERATIONS : list string := ["+"; "-"; "×"; "÷"]%string.

(** [DIFFICULTY_RANGES[difficulty]]; [None] is the [KeyError]. *)
Definition DIFFICULTY_RANGES (difficulty : string) : option Config.t :=
  if (difficulty =? "Easy")%string then
    Some {| Config.min := 1;
            Config.max := 9;
            Config.operations := ["+"; "-"; "×"]%string;
            Config.description := "Single-digit operations" |}
  else if (difficulty =? "Medium")%string then
    Some {| Config.min := 10;
            Config.max := 50;
            Config.operations := ["+"; "-"; "×"; "÷"]%string;
            Config.description := "Double-digit operations" |}
  else if (difficulty =? "Hard")%string then
    Some {| Config.min := 50;
            Config.max := 100;
            Config.operations := ["+"; "-"; "×"; "÷"]%string;
            Config.description := "Multi-digit operations" |}
  else None.

Definition generate_puzzle (difficulty : string) (g : Random.t)
    : Outcome (Puzzle.t * Random.t) :=
  match DIFFICULTY_RANGES difficulty with
  | None => Raised
  | Some config =>
      (* Randomly select operation *)
      '(operation, g) <- Random.choice (Config.operations config) g ;;
      (* Generate operands based on difficulty *)
      '(operand1, g) <-
        Random.randint (Config.min config) (Config.max config) g ;;
      '(operand2, g) <-
        Random.randint (Config.min config) (Config.max config) g ;;
      (* Calculate answer based on operation *)
      '(operand1, operand2, answer, g) <-
        (if (operation =? "+")%string then
           Returned (operand1, operand2, (operand1 + operand2)%Z, g)
         else if (operation =? "-")%string then
           (* Ensure positive result for subtraction *)
           let '(operand1, operand2) :=
             (Z.max operand1 operand2, Z.min operand1 operand2) in
           Returned (operand1, operand2, (operand1 - operand2)%Z, g)
         else if (operation =? "×")%string then
           Returned (operand1, operand2, (operand1 * operand2)%Z, g)
         else if (operation =? "÷")%string then
           (* Ensure whole number division *)
           '(answer, g) <-
             Random.randint (Config.min config) (Config.max config) g ;;
           Returned ((answer * operand2)%Z, operand2, answer, g)
         else Raised) ;;
      (* Format question *)
      let question :=
        (str operand1 ++ " " ++ operation ++ " " ++ str operand2
         ++ " = ?")%string in
      Returned
        ({| Puzzle.question := question;
            Puzzle.operand1 := operand1;
            Puzzle.operand2 := operand2;
            Puzzle.operation := operation;
            Puzzle.answer := answer;
            Puzzle.difficulty := difficulty |}, g)
  end.

(** [[self.generate_puzzle(difficulty) for _ in range(count)]]. *)
Fixpoint generate_n (difficulty : string) (n : nat) (g : Random.t)
    : Outcome (list Puzzle.t * Random.t) :=
  match n with
  | O => Returned ([], g)
  | S n' =>
      '(p, g) <- generate_puzzle difficulty g ;;
      '(ps, g) <- generate_n difficulty n' g ;;
      Returned (p :: ps, g)
  end.

Definition generate_multiple (difficulty : string) (count : Z)
    (g : Random.t) : Outcome (list Puzzle.t * Random.t) :=
  generate_n difficulty (Z.to_nat count) g.

End PuzzleGenerator.

(** ** The model file and [AdaptiveEngine.__init__] *)

(** What [models/difficulty_predictor.pkl] holds when it exists: bytes that
    do not unpickle, or a pickled object ([None] or an estimator). *)
Inductive ModelFile (Model : Type) :=
| Unreadable
| Pickled (obj : option (Estimator Model)).

Arguments Unreadable {Model}.
Arguments Pickled {Model}.

Module AdaptiveEngineInit.

Section Init.

Context {Model : Type}.

(** [model.predict_proba(features)[0][1]] of a fitted model. *)
Variable predict_proba_of : Model -> Classifier.

(** The engine's view of the object in [self.model]: a missing object
    raises on the attribute access, an unfitted estimator on the call. *)
Definition classifier_of (obj : option (Estimator Model))
    : option Classifier :=
  match obj with
  | None => None
  | Some Unfitted => Some (fun _ => None)
  | Some (Fitted m) => Some (predict_proba_of m)
  end.

Definition model_path : string := "models/difficulty_predictor.pkl".

(** Returns [(self.model, self.is_trained)]. *)
Definition _load_or_initialize_model (disk : Disk (ModelFile Model))
    : option Classifier * bool :=
  match disk model_path with
  | Some file =>
      match file with
      | Pickled obj => (classifier_of obj, true)
      | Unreadable => (None, false)
      end
  | None =>
      (* Initialize untrained model *)
      (classifier_of (Some Unfitted), false)
  end.

Definition __init__ (disk : Disk (ModelFile Model)) (mode : string)
    : AdaptiveEngine.t :=
  if (mode =? "ml_based")%string
  then
    let '(model, is_trained) := _load_or_initialize_model disk in
    {| AdaptiveEngine.mode := mode;
       AdaptiveEngine.model := model;
       AdaptiveEngine.is_trained := is_trained |}
  else
    {| AdaptiveEngine.mode := mode;
       AdaptiveEngine.model := None;
       AdaptiveEngine.is_trained := false |}.

End Init.

End AdaptiveEngineInit.

(** ** The files of [MLModelManager] and its pipeline *)

(** What [data/performance_logs.json] holds when it exists: text that is
    not JSON, or the list of logged sessions. *)
Inductive LogFile :=
| InvalidJson
| Json (data : list Session).

Module MLModelManagerFiles.

Section Files.

Context {Model : Type} (lib : Sklearn.Library Model).

Definition load_performance_data (logs : Disk LogFile) (data_path : string)
    : Outcome (list Session) :=
  match logs data_path with
  | None => Returned []
  | Some InvalidJson => Raised
  | Some (Json data) => Returned data
  end.

(** [save]: returns the disk afterwards and the boolean. *)
Definition save (self : MLModelManager.t Model)
    (models : Disk (ModelFile Model)) : Disk (ModelFile Model) * bool :=
  if negb (MLModelManager.is_trained self) then (models, false)
  else
    (write_file models (MLModelManager.model_path self)
       (Pickled (MLModelManager.model self)),
     true).

(** [load]: no [try] around the unpickling. *)
Definition load (self : MLModelManager.t Model)
    (models : Disk (ModelFile Model))
    : Outcome (MLModelManager.t Model * bool) :=
  match models (MLModelManager.model_path self) with
  | None => Returned (self, false)
  | Some Unreadable => Raised
  | Some (Pickled obj) =>
      Returned
        ({| MLModelManager.model_path := MLModelManager.model_path self;
            MLModelManager.model := obj;
            MLModelManager.is_trained := true;
            MLModelManager.metrics := MLModelManager.metrics self |},
         true)
  end.

(** The end of a run of [full_pipeline]: the manager, the model files and
    how the call ended. *)
Record Run := {
  manager : MLModelManager.t Model;
  models_after : Disk (ModelFile Model);
  outcome : Outcome bool
}.

Definition full_pipeline (self : MLModelManager.t Model)
    (logs : Disk LogFile) (models : Disk (ModelFile Model))
    (data_path : string) : Run :=
  (* Load data *)
  match load_performance_data logs data_path with
  | Raised =>
      {| manager := self; models_after := models; outcome := Raised |}
  | Returned [] =>
      {| manager := self; models_after := models;
         outcome := Returned false |}
  | Returned ((_ :: _) as data) =>
      (* Extract features *)
      let '(X, y) := MLModelManager.extract_features data in
      if (length X <? 10)%nat
      then {| manager := self; models_after := models;
              outcome := Returned false |}
      else
        (* Train model *)
        match MLModelManager.train lib self X y with
        | (self, Raised) =>
            {| manager := self; models_after := models; outcome := Raised |}
        | (self, Returned false) =>
            {| manager := self; models_after := models;
               outcome := Returned false |}
        | (self, Returned true) =>
            (* Evaluate: reads the five scores *)
            match MLModelManager.metrics self with
            | None =>
                {| manager := self; models_after := models;
                   outcome := Raised |}
            | Some _ =>
                (* Save model *)
                let '(models, saved) := save self models in
                {| manager := self; models_after := models;
                   outcome := Returned saved |}
            end
        end
  end.

End Files.

End MLModelManagerFiles.

(** ** [src/main.py] *)

(** Python's [list.index]: the first position of an equal item. *)
Fixpoint index_of {A} (eqb : A -> A -> bool) (x : A) (xs : list A)
    : option nat :=
  match xs with
  | [] => None
  | y :: rest =>
      if eqb y x then Some 0%nat
      else match index_of eqb x rest with
           | Some i => Some (S i)
           | None => None
           end
  end.

(** Python's [xs[i]] for an integer [i]: negative indices count from the
    end; [None] is the [IndexError]. *)
Definition item {A} (xs : list A) (i : Z) : option A :=
  if (i <? 0)%Z
  then if (i <? - Z.of_nat (length xs))%Z then None
       else nth_error xs (Z.to_nat (Z.of_nat (length xs) + i))
  else nth_error xs (Z.to_nat i).

Definition raise_if_missing {A} (x : option A) : Outcome A :=
  match x with
  | Some a => Returned a
  | None => Raised
  end.

Definition difficulty_order : list string := ["Easy"; "Medium"; "Hard"]%string.

(** [abs(user_answer - puzzle['answer']) < 0.01]; the tolerance is taken at
    its decimal value. *)
Definition check_answer (user_answer : Q) (puzzle : Puzzle.t) : bool :=
  Qlt_bool (Qabs (user_answer - inject_Z (Puzzle.answer puzzle))) (1 # 100).

(** One entry of [self.responses]. *)
Record SessionResponse := {
  r_puzzle : Puzzle.t;
  r_user_answer : Q;
  r_is_correct : bool;
  r_response_time : Q
}.

(** What [input("Your answer: ")] gives a turn: the end of the input (the
    [EOFError], which nothing catches), or a line, which [float] reads as a
    number or rejects ([None]: the [ValueError]). *)
Inductive Input :=
| EndOfInput
| Line (typed : option Q).

Module AdaptiveLearningSession.

Record t := {
  user_name : string;
  current_difficulty : string;
  adaptation_mode : string;
  tracker : PerformanceTracker.t;
  adaptive_engine : AdaptiveEngine.t;
  question_count : nat;
  responses : list SessionResponse;
  difficulty_history : list string;
  running : bool
}.

(** [adaptive_engine] is the engine [AdaptiveEngine(mode=adaptation_mode)]
    built. *)
Definition __init__ (adaptive_engine : AdaptiveEngine.t)
    (user_name initial_difficulty adaptation_mode : string) : t :=
  {| user_name := user_name;
     current_difficulty := initial_difficulty;
     adaptation_mode := adaptation_mode;
     tracker := PerformanceTracker.__init__ user_name adaptation_mode;
     adaptive_engine := adaptive_engine;
     question_count := 0;
     responses := [];
     difficulty_history := [initial_difficulty];
     running := true |}.

Definition _increase_difficulty (self : t) : Outcome string :=
  current_index <-
    raise_if_missing
      (index_of String.eqb (current_difficulty self) difficulty_order) ;;
  raise_if_missing
    (item difficulty_order
       (Z.min (Z.of_nat current_index + 1)
              (Z.of_nat (length difficulty_order) - 1))).

Definition _decrease_difficulty (self : t) : Outcome string :=
  current_index <-
    raise_if_missing
      (index_of String.eqb (current_difficulty self) difficulty_order) ;;
  raise_if_missing
    (item difficulty_order (Z.max (Z.of_nat current_index - 1) 0)).

Definition set_difficulty (self : t) (level : string) : t :=
  {| user_name := user_name self;
     current_difficulty := level;
     adaptation_mode := adaptation_mode self;
     tracker := tracker self;
     adaptive_engine := adaptive_engine self;
     question_count := question_count self;
     responses := responses self;
     difficulty_history := difficulty_history self ++ [level];
     running := running self |}.

(** The last block of [_present_puzzle]: adapt the difficulty. *)
Definition adapt (self : t) : Outcome t :=
  if (2 <=? question_count self)%nat
  then
    let old_difficulty := current_difficulty self in
    let performance_metrics :=
      PerformanceTracker.get_current_metrics (tracker self) in
    (* Get adaptation recommendation *)
    let action :=
      AdaptiveEngine.get_next_action (adaptive_engine self)
        performance_metrics old_difficulty in
    if Action_eqb action increase
       && negb (old_difficulty =? "Hard")%string
    then
      level <- _increase_difficulty self ;;
      Returned (set_difficulty self level)
    else if Action_eqb action decrease
            && negb (old_difficulty =? "Easy")%string
    then
      level <- _decrease_difficulty self ;;
      Returned (set_difficulty self level)
    else Returned self
  else Returned self.

(** [_present_puzzle], given the random draws, what [input()] gives and
    the time measured. *)
Definition _present_puzzle (self : t) (g : Random.t) (typed : Input)
    (response_time : Q) : Outcome (t * Random.t) :=
  (* Generate puzzle at current difficulty *)
  '(puzzle, g) <-
    PuzzleGenerator.generate_puzzle (current_difficulty self) g ;;
  let question_count' := (question_count self + 1)%nat in
  match typed with
  | EndOfInput => Raised
  | Line None =>
      Returned
        ({| user_name := user_name self;
            current_difficulty := current_difficulty self;
            adaptation_mode := adaptation_mode self;
            tracker := tracker self;
            adaptive_engine := adaptive_engine self;
            question_count := question_count';
            responses := responses self;
            difficulty_history := difficulty_history self;
            running := running self |}, g)
  | Line (Some user_answer) =>
      (* Check correctness *)
      let is_correct := check_answer user_answer puzzle in
      (* Track performance *)
      let tracker' :=
        PerformanceTracker.record_response (tracker self) puzzle user_answer
          is_correct response_time (current_difficulty self) in
      let responses' :=
        responses self
        ++ [ {| r_puzzle := puzzle;
                r_user_answer := user_answer;
                r_is_correct := is_correct;
                r_response_time := response_time |} ] in
      self' <-
        adapt
          {| user_name := user_name self;
             current_difficulty := current_difficulty self;
             adaptation_mode := adaptation_mode self;
             tracker := tracker';
             adaptive_engine := adaptive_engine self;
             question_count := question_count';
             responses := responses';
             difficulty_history := difficulty_history self;
             running := running self |} ;;
      Returned (self', g)
  end.

End AdaptiveLearningSession.

(** ** [AdaptiveLearningSession._save_session] and [run] *)

(** One logged response and one record of [data/performance_logs.json], as
    [_save_session] writes them. *)
Record LoggedResponse := {
  log_puzzle : Puzzle.t;
  log_user_answer : Q;
  log_is_correct : bool;
  log_response_time : Q;
  log_difficulty : string
}.

Record SessionRecord := {
  rec_timestamp : string;
  rec_user_name : string;
  rec_adaptation_mode : string;
  rec_initial_difficulty : string;
  rec_final_difficulty : string;
  rec_total_questions : nat;
  rec_responses : list LoggedResponse
}.

(** An item of the list in the log file: the record of a session, or any
    other JSON value, kept as it is. *)
Inductive LogItem :=
| Logged (record : SessionRecord)
| Foreign (json : string).

(** What the log file holds when it exists: text that [json.load] rejects,
    a JSON value that is not a list (an object, a string, a number, ...),
    or a list. *)
Inductive SessionLog :=
| NotJson
| NotAList
| JsonLog (items : list LogItem).

(** Python's [==] on puzzle and response dictionaries: numbers are compared
    by value. *)
Definition Puzzle_eqb (p q : Puzzle.t) : bool :=
  (Puzzle.question p =? Puzzle.question q)%string
  && (Puzzle.operand1 p =? Puzzle.operand1 q)%Z
  && (Puzzle.operand2 p =? Puzzle.operand2 q)%Z
  && (Puzzle.operation p =? Puzzle.operation q)%string
  && (Puzzle.answer p =? Puzzle.answer q)%Z
  && (Puzzle.difficulty p =? Puzzle.difficulty q)%string.

Definition SessionResponse_eqb (r s : SessionResponse) : bool :=
  Puzzle_eqb (r_puzzle r) (r_puzzle s)
  && Qeq_bool (r_user_answer r) (r_user_answer s)
  && Bool.eqb (r_is_correct r) (r_is_correct s)
  && Qeq_bool (r_response_time r) (r_response_time s).

Module SessionLogging.

Import AdaptiveLearningSession.

Definition log_file : string := "data/performance_logs.json".

(** One entry of the ['responses'] list comprehension. *)
Definition logged (self : t) (r : SessionResponse)
    : Outcome LoggedResponse :=
  let position :=
    match index_of SessionResponse_eqb r (responses self) with
    | Some i => Z.of_nat i
    | None => 0%Z
    end in
  level <-
    raise_if_missing
      (item (difficulty_history self)
         (Z.min (Z.of_nat (length (difficulty_history self)) - 1)
                position)) ;;
  Returned
    {| log_puzzle := r_puzzle r;
       log_user_answer := r_user_answer r;
       log_is_correct := r_is_correct r;
       log_response_time := r_response_time r;
       log_difficulty := level |}.

Fixpoint logged_all (self : t) (rs : list SessionResponse)
    : Outcome (list LoggedResponse) :=
  match rs with
  | [] => Returned []
  | r :: rest =>
      entry <- logged self r ;;
      entries <- logged_all self rest ;;
      Returned (entry :: entries)
  end.

(** The dictionary [session_record]; [timestamp] is the start time in ISO
    format. *)
Definition session_record (self : t) (timestamp : string)
    : Outcome SessionRecord :=
  initial <- raise_if_missing (item (difficulty_history self) 0) ;;
  final <- raise_if_missing (item (difficulty_history self) (-1)) ;;
  entries <- logged_all self (responses self) ;;
  Returned
    {| rec_timestamp := timestamp;
       rec_user_name := user_name self;
       rec_adaptation_mode := adaptation_mode self;
       rec_initial_difficulty := initial;
       rec_final_difficulty := final;
       rec_total_questions := question_count self;
       rec_responses := entries |}.

Definition _save_session (self : t) (timestamp : string)
    (files : Disk SessionLog) : Outcome (Disk SessionLog) :=
  record <- session_record self timestamp ;;
  (* Append to performance logs *)
  logs <-
    match files log_file with
    | None => Returned (JsonLog [])
    | Some NotJson => Raised
    | Some value => Returned value
    end ;;
  (* [logs.append]: only a list has it *)
  logs <-
    match logs with
    | JsonLog items => Returned (items ++ [Logged record])
    | _ => Raised
    end ;;
  Returned (write_file files log_file (JsonLog logs)).

(** One pass of the loop of [run] for which there is input: the line typed
    as the answer ([None] when it is not a number), the time measured, and
    whether the answer to "Continue?" was "y". *)
Record Turn := {
  typed : option Q;
  response_time : Q;
  continue : bool
}.

Definition stop (self : t) : t :=
  {| user_name := user_name self;
     current_difficulty := current_difficulty self;
     adaptation_mode := adaptation_mode self;
     tracker := tracker self;
     adaptive_engine := adaptive_engine self;
     question_count := question_count self;
     responses := responses self;
     difficulty_history := difficulty_history self;
     running := false |}.

(** The [while] loop of [run]: each pass reads one turn; running out of
    turns is the end of input, which raises. *)
Fixpoint run_loop (self : t) (g : Random.t) (max_questions : Z)
    (turns : list Turn) : Outcome (t * Random.t) :=
  if running self && (Z.of_nat (question_count self) <? max_questions)%Z
  then
    match turns with
    | [] => Raised
    | turn :: rest =>
        '(self, g) <-
          _present_puzzle self g (Line (typed turn)) (response_time turn) ;;
        (* Check if we should continue *)
        let self :=
          if (Z.of_nat (question_count self) <? max_questions)%Z
          then if continue turn then self else stop self
          else stop self in
        run_loop self g max_questions rest
    end
  else Returned (self, g).

(** [run]: the loop, the summary (which only prints) and the log. *)
Definition run (self : t) (g : Random.t) (max_questions : Z)
    (turns : list Turn) (timestamp : string) (files : Disk SessionLog)
    : Outcome (t * Random.t * Disk SessionLog) :=
  '(self, g) <- run_loop self g max_questions turns ;;
  (* Save session data *)
  files <- _save_session self timestamp files ;;
  Returned (self, g, files).

End SessionLogging.

(** ** [app.py]: the handler of the Check Answer button *)

Module App.

Import AdaptiveLearningSession.

(** The session dictionary has the keys of the command-line session; the
    handler is given the puzzle on display and the number entered. *)
Definition submit (session : t) (puzzle : Puzzle.t) (user_answer : Q)
    : Outcome t :=
  (* Record response time *)
  let response_time : Q := 2 in
  let is_correct := check_answer user_answer puzzle in
  (* Update tracker *)
  let tracker' :=
    PerformanceTracker.record_response (tracker session) puzzle user_answer
      is_correct response_time (current_difficulty session) in
  let responses' :=
    responses session
    ++ [ {| r_puzzle := puzzle;
            r_user_answer := user_answer;
            r_is_correct := is_correct;
            r_response_time := response_time |} ] in
  let session :=
    {| user_name := user_name session;
       current_difficulty := current_difficulty session;
       adaptation_mode := adaptation_mode session;
       tracker := tracker';
       adaptive_engine := adaptive_engine session;
       question_count := (question_count session + 1)%nat;
       responses := responses';
       difficulty_history := difficulty_history session;
       running := running session |} in
  (* Adapt difficulty if needed (after 2 questions) *)
  if (2 <=? question_count session)%nat
  then
    let metrics := PerformanceTracker.get_current_metrics (tracker session) in
    let action :=
      AdaptiveEngine.get_next_action (adaptive_engine session) metrics
        (current_difficulty session) in
    let old_difficulty := current_difficulty session in
    if Action_eqb action increase
       && negb (old_difficulty =? "Hard")%string
    then
      current_idx <-
        raise_if_missing (index_of String.eqb old_difficulty difficulty_order) ;;
      level <-
        raise_if_missing
          (item difficulty_order (Z.of_nat current_idx + 1)) ;;
      Returned (set_difficulty session level)
    else if Action_eqb action decrease
            && negb (old_difficulty =? "Easy")%string
    then
      current_idx <-
        raise_if_missing (index_of String.eqb old_difficulty difficulty_order) ;;
      level <-
        raise_if_missing
          (item difficulty_order (Z.of_nat current_idx - 1)) ;;
      Returned (set_difficulty session level)
    else Returned session
  else Returned session.

End App.

(** ** The definitions the properties of the rest are stated with *)

(** What a generated puzzle satisfies, given its configuration. *)
Definition well_formed (config : Config.t) (difficulty : string)
    (p : Puzzle.t) : Prop :=
  let a := Puzzle.operand1 p in
  let b := Puzzle.operand2 p in
  let in_range v := (Config.min config <= v <= Config.max config)%Z in
  Puzzle.difficulty p = difficulty
  /\ In (Puzzle.operation p) (Config.operations config)
  /\ Puzzle.question p
     = (str a ++ " " ++ Puzzle.operation p ++ " " ++ str b ++ " = ?")%string
  /\ in_range b
  /\ (Puzzle.operation p = "+"%string ->
      in_range a /\ Puzzle.answer p = (a + b)%Z)
  /\ (Puzzle.operation p = "-"%string ->
      in_range a /\ (b <= a)%Z /\ Puzzle.answer p = (a - b)%Z)
  /\ (Puzzle.operation p = "×"%string ->
      in_range a /\ Puzzle.answer p = (a * b)%Z)
  /\ (Puzzle.operation p = "÷"%string ->
      in_range (Puzzle.answer p) /\ a = (Puzzle.answer p * b)%Z).

(** A command-line session played over a list of turns: what [input()]
    gave and the time measured, turn by turn. *)
Fixpoint play (self : AdaptiveLearningSession.t) (g : Random.t)
    (turns : list (Input * Q))
    : Outcome (AdaptiveLearningSession.t * Random.t) :=
  match turns with
  | [] => Returned (self, g)
  | (typed, response_time) :: rest =>
      '(self, g) <-
        AdaptiveLearningSession._present_puzzle self g typed response_time ;;
      play self g rest
  end.

(** The turns in which a number was typed. *)
Definition answered (turns : list (Input * Q)) : list (Q * Q) :=
  flat_map (fun '(typed, time) =>
              match typed with
              | Line (Some answer) => [(answer, time)]
              | _ => []
              end) turns.

(** A web session played over the puzzles shown and the numbers entered. *)
Fixpoint app_play (session : AdaptiveLearningSession.t)
    (inputs : list (Puzzle.t * Q)) : Outcome AdaptiveLearningSession.t :=
  match inputs with
  | [] => Returned session
  | (puzzle, user_answer) :: rest =>
      session <- App.submit session puzzle user_answer ;;
      app_play session rest
  end.

(** The position of a level in the order Easy, Medium, Hard. *)
Definition rank (level : string) : option nat :=
  index_of String.eqb level difficulty_order.

(** Two levels one step apart. *)
Definition one_step (a b : string) : Prop :=
  match rank a, rank b with
  | Some i, Some j => i = S j \/ j = S i
  | _, _ => False
  end.

(** A history in which every entry is one step from the one before. *)
Fixpoint stepwise (history : list string) : Prop :=
  match history with
  | a :: (b :: _) as rest => one_step a b /\ stepwise rest
  | _ => True
  end.

(** The level an action leads to from a level. *)
Definition level_after (action : Action) (level : string) : string :=
  match action, rank level with
  | increase, Some i => nth (S i) difficulty_order level
  | decrease, Some (S i) => nth i difficulty_order level
  | _, _ => level
  end.

(** The action a session acts on: the engine's, from the second question
    on. *)
Definition recommended (self : AdaptiveLearningSession.t) : Action :=
  if (2 <=? AdaptiveLearningSession.question_count self)%nat
  then AdaptiveEngine.get_next_action
         (AdaptiveLearningSession.adaptive_engine self)
         (PerformanceTracker.get_current_metrics
            (AdaptiveLearningSession.tracker self))
         (AdaptiveLearningSession.current_difficulty self)
  else maintain.

(** What every state of a session started at [initial] satisfies. *)
Definition session_ok (initial : string) (self : AdaptiveLearningSession.t)
    : Prop :=
  let history := AdaptiveLearningSession.difficulty_history self in
  let current := AdaptiveLearningSession.current_difficulty self in
  let answers := AdaptiveLearningSession.responses self in
  In current difficulty_order
  /\ (exists earlier, history = earlier ++ [current])
  /\ hd_error history = Some initial
  /\ stepwise history
  /\ (length history <= S (length answers))%nat
  /\ (length history
      <= Nat.max 1 (AdaptiveLearningSession.question_count self))%nat
  /\ (length answers <= AdaptiveLearningSession.question_count self)%nat
  /\ exists events,
       AdaptiveLearningSession.tracker self
       = tracker_after (AdaptiveLearningSession.user_name self)
           (AdaptiveLearningSession.adaptation_mode self) events
       /\ map (fun e => (ev_user_answer e, ev_is_correct e,
                         ev_response_time e)) events
          = map (fun r => (r_user_answer r, r_is_correct r,
                           r_response_time r)) answers
       /\ Forall (fun e => In (ev_difficulty e) difficulty_order) events.

(** The responses given at one level, and the levels of a list of
    responses in the order in which they first occur. *)
Definition at_level (level : string) (rs : list Response) : list Response :=
  filter (fun r => (difficulty r =? level)%string) rs.

Definition levels_seen (rs : list Response) : list string :=
  fold_left
    (fun seen r =>
       if existsb (fun l => (l =? difficulty r)%string) seen then seen
       else seen ++ [difficulty r])
    rs [].

(** The statistics of a list of responses, as the breakdown reports
    them. *)
Definition stats_of (rs : list Response) : PerformanceTracker.LevelStats :=
  {| PerformanceTracker.level_accuracy :=
       Qnat (count is_correct rs) / Qnat (length rs) * 100;
     PerformanceTracker.level_count := length rs;
     PerformanceTracker.level_avg_time :=
       sum (map response_time rs) / Qnat (length rs) |}.

(** The running tally of a list of responses. *)
Definition tally_of (rs : list Response) : PerformanceTracker.Tally :=
  {| PerformanceTracker.tally_correct := count is_correct rs;
     PerformanceTracker.tally_total := length rs;
     PerformanceTracker.tally_total_time := sum (map response_time rs) |}.

(** The number of leading [true] flags. *)
Fixpoint leading_true (flags : list bool) : nat :=
  match flags with
  | true :: rest => S (leading_true rest)
  | _ => 0%nat
  end.

(** The number of passes of the loop of [run]: one more than the learner
    answers "y" in a row, and no more than [max_questions]. *)
Definition passes (max_questions : Z) (turns : list SessionLogging.Turn)
    : nat :=
  Nat.min (Z.to_nat max_questions)
          (S (leading_true (map SessionLogging.continue turns))).

(** What was typed and measured in a list of passes. *)
Definition turns_played (turns : list SessionLogging.Turn)
    : list (Input * Q) :=
  map (fun turn => (Line (SessionLogging.typed turn),
                    SessionLogging.response_time turn)) turns.





(** Two sessions alike for the trainer: the same correctness flags and the
    same response times, position by position. *)
Definition alike (s s' : Session) : Prop :=
  map is_correct (responses_of s) = map is_correct (responses_of s')
  /\ map response_time (responses_of s)
     = map response_time (responses_of s').

(** A log of one session of four responses, for a user at a level. *)
Definition sample_session_log (user level : string) : list Session :=
  let p :=
    {| Puzzle.question := "1 + 1 = ?";
       Puzzle.operand1 := 1;
       Puzzle.operand2 := 1;
       Puzzle.operation := "+";
       Puzzle.answer := 2;
       Puzzle.difficulty := level |} in
  let response (number : nat) (correct : bool) (time : Q) :=
    {| puzzle := p;
       user_answer := if correct then 2 else 3;
       correct_answer := 2;
       is_correct := correct;
       response_time := time;
       difficulty := level;
       question_number := number |} in
  [ {| timestamp := "2024-05-01T10:00:00";
       session_user_name := user;
       adaptation_mode := "rule_based";
       session_responses :=
         Some [ response 1%nat true 3; response 2%nat false 5;
                response 3%nat true 2; response 4%nat true 4 ] |} ].

(** * Properties *)

(** ** Comparisons *)

Lemma Qle_bool_reflect (x y : Q) : reflect (x <= y) (Qle_bool x y).
Proof.
  apply iff_reflect. symmetry. apply Qle_bool_iff.
Qed.

Lemma Qlt_bool_iff (x y : Q) : Qlt_bool x y = true <-> x < y.
Proof.
  unfold Qlt_bool. rewrite negb_true_iff.
  destruct (Qle_bool_reflect y x) as [H | H]; split; intro H'.
  - discriminate.
  - exfalso. apply (Qlt_not_le _ _ H' H).
  - apply Qnot_le_lt. exact H.
  - reflexivity.
Qed.

Lemma Qlt_bool_reflect (x y : Q) : reflect (x < y) (Qlt_bool x y).
Proof.
  apply iff_reflect. symmetry. apply Qlt_bool_iff.
Qed.

Lemma Action_eqb_reflect (a b : Action) : reflect (a = b) (Action_eqb a b).
Proof.
  destruct a, b; simpl; constructor; congruence.
Qed.

Lemma neq_level_reflect (s l : string) : reflect (s <> l) (negb (s =? l)%string).
Proof.
  destruct (String.eqb_spec s l); simpl; constructor; tauto.
Qed.

(** ** The Threshold Policy *)

Section ThresholdPolicy.

Import AdaptiveEngine.

Variables (m : Metrics.t) (lvl : string).

Lemma increase_conditions_iff :
  increase_conditions m = true <->
  80 <= Metrics.accuracy m /\ Metrics.avg_response_time m <= 5
  /\ (2 <= Metrics.consecutive_correct m)%nat.
Proof.
  unfold increase_conditions, min_accuracy, max_avg_time, min_consecutive.
  rewrite !andb_true_iff, !Qle_bool_iff, Nat.leb_le. tauto.
Qed.

Lemma decrease_conditions_iff :
  decrease_conditions m = true <->
  Metrics.accuracy m < 60 \/ 8 <= Metrics.avg_response_time m.
Proof.
  unfold decrease_conditions, max_accuracy, min_avg_time.
  rewrite orb_true_iff, Qlt_bool_iff, Qle_bool_iff. tauto.
Qed.

(** The two threshold tests cannot hold together. *)
Lemma increase_excludes_decrease :
  increase_conditions m = true -> decrease_conditions m = false.
Proof.
  intro Hi. apply increase_conditions_iff in Hi. destruct Hi as (Ha & Ht & _).
  apply not_true_is_false. intro Hd. apply decrease_conditions_iff in Hd.
  destruct Hd as [Hd | Hd].
  - apply (Qlt_not_le _ _ Hd). apply Qle_trans with (y := 80); [ | exact Ha].
    unfold Qle; simpl; lia.
  - assert (H85 : (8 : Q) <= 5) by (apply Qle_trans with (1 := Hd); exact Ht).
    revert H85. unfold Qle; simpl; lia.
Qed.

Lemma rule_based_cases :
  _get_action_rule_based m lvl =
    if increase_conditions m && negb (lvl =? "Hard")%string then increase
    else if decrease_conditions m && negb (lvl =? "Easy")%string then decrease
    else maintain.
Proof.
  unfold _get_action_rule_based.
  destruct (increase_conditions m), (decrease_conditions m),
    (lvl =? "Hard")%string, (lvl =? "Easy")%string; reflexivity.
Qed.

End ThresholdPolicy.

(** C1. For every snapshot and level the Threshold Policy returns
    [increase] exactly when accuracy >= 80, average response time <= 5,
    streak >= 2 and the level is not Hard; otherwise [decrease] exactly when
    (accuracy < 60 or average response time >= 8) and the level is not Easy;
    otherwise [maintain].  The snapshot with accuracy 85, average response
    time 3 and streak 3 at Easy yields [increase], whatever its other
    fields. *)
Theorem threshold_policy_decide :
  forall (m : Metrics.t) (lvl : string),
    let inc :=
      80 <= Metrics.accuracy m /\ Metrics.avg_response_time m <= 5
      /\ (2 <= Metrics.consecutive_correct m)%nat /\ lvl <> "Hard"%string in
    let dec :=
      (Metrics.accuracy m < 60 \/ 8 <= Metrics.avg_response_time m)
      /\ lvl <> "Easy"%string in
    (AdaptiveEngine._get_action_rule_based m lvl = increase <-> inc)
    /\ (AdaptiveEngine._get_action_rule_based m lvl = decrease
        <-> ~ inc /\ dec)
    /\ (AdaptiveEngine._get_action_rule_based m lvl = maintain
        <-> ~ inc /\ ~ dec)
    /\ (forall tq cc ic ms ra tr,
          AdaptiveEngine._get_action_rule_based
            {| Metrics.total_questions := tq;
               Metrics.correct_count := cc;
               Metrics.incorrect_count := ic;
               Metrics.accuracy := 85;
               Metrics.avg_response_time := 3;
               Metrics.consecutive_correct := 3;
               Metrics.max_streak := ms;
               Metrics.recent_accuracy := ra;
               Metrics.response_time_trend := tr |} "Easy" = increase).
Proof.
  intros m lvl inc dec.
  assert (Hinc : AdaptiveEngine.increase_conditions m
                 && negb (lvl =? "Hard")%string = true <-> inc).
  { unfold inc. rewrite andb_true_iff, increase_conditions_iff.
    destruct (neq_level_reflect lvl "Hard"); intuition congruence. }
  assert (Hdec : AdaptiveEngine.decrease_conditions m
                 && negb (lvl =? "Easy")%string = true <-> dec).
  { unfold dec. rewrite andb_true_iff, decrease_conditions_iff.
    destruct (neq_level_reflect lvl "Easy"); intuition congruence. }
  rewrite <- Hinc, <- Hdec, rule_based_cases. clear Hinc Hdec.
  split; [ | split; [ | split ] ]; [ | | | reflexivity ];
    destruct (AdaptiveEngine.increase_conditions m
              && negb (lvl =? "Hard")%string);
    destruct (AdaptiveEngine.decrease_conditions m
              && negb (lvl =? "Easy")%string);
    intuition congruence.
Qed.

(** The other two scenarios of the Threshold Policy. *)
Example threshold_scenario_decrease :
  forall tq cc ic ms ra tr,
    AdaptiveEngine._get_action_rule_based
      {| Metrics.total_questions := tq;
         Metrics.correct_count := cc;
         Metrics.incorrect_count := ic;
         Metrics.accuracy := 50;
         Metrics.avg_response_time := 9;
         Metrics.consecutive_correct := 0;
         Metrics.max_streak := ms;
         Metrics.recent_accuracy := ra;
         Metrics.response_time_trend := tr |} "Medium" = decrease.
Proof.
  intros. reflexivity.
Qed.

Example threshold_scenario_maintain :
  forall tq cc ic ms ra tr,
    AdaptiveEngine._get_action_rule_based
      {| Metrics.total_questions := tq;
         Metrics.correct_count := cc;
         Metrics.incorrect_count := ic;
         Metrics.accuracy := 70;
         Metrics.avg_response_time := 6;
         Metrics.consecutive_correct := 1;
         Metrics.max_streak := ms;
         Metrics.recent_accuracy := ra;
         Metrics.response_time_trend := tr |} "Medium" = maintain.
Proof.
  intros. reflexivity.
Qed.

(** ** The Probabilistic Policy *)

Section ProbabilisticPolicy.

Import AdaptiveEngine.

Variables (self : t) (m : Metrics.t) (lvl : string).

(** Below 50% accuracy and above Easy, the thresholds alone say
    [decrease]. *)
Lemma rule_based_low_accuracy :
  Metrics.accuracy m < 50 -> lvl <> "Easy"%string ->
  _get_action_rule_based m lvl = decrease.
Proof.
  intros Hacc Hlvl. rewrite rule_based_cases.
  assert (Hi : increase_conditions m = false).
  { apply not_true_is_false. intro Hi. apply increase_conditions_iff in Hi.
    destruct Hi as (Ha & _). apply (Qlt_not_le _ _ Hacc).
    apply Qle_trans with (y := 80); [ | exact Ha]. unfold Qle; simpl; lia. }
  assert (Hd : decrease_conditions m = true).
  { apply decrease_conditions_iff. left.
    apply Qlt_trans with (y := 50); [exact Hacc | ]. reflexivity. }
  rewrite Hi, Hd. simpl.
  destruct (neq_level_reflect lvl "Easy"); [reflexivity | tauto].
Qed.

Lemma ml_based_low_accuracy :
  Metrics.accuracy m < 50 -> lvl <> "Easy"%string ->
  _get_action_ml_based self m lvl = decrease.
Proof.
  intros Hacc Hlvl. unfold _get_action_ml_based.
  destruct (predict_proba self (features m)) as [p | ].
  - apply Qlt_bool_iff in Hacc. rewrite Hacc.
    destruct (neq_level_reflect lvl "Easy"); [reflexivity | tauto].
  - apply rule_based_low_accuracy; assumption.
Qed.

(** The model's branch, with each guard read as a proposition. *)
Lemma ml_based_cases (p : Q) :
  predict_proba self (features m) = Some p ->
  _get_action_ml_based self m lvl =
    if Qlt_bool (Metrics.accuracy m) 50 && negb (lvl =? "Easy")%string
    then decrease
    else if Qlt_bool (6 # 10) p && negb (lvl =? "Hard")%string then increase
    else if Qlt_bool p (4 # 10) && negb (lvl =? "Easy")%string then decrease
    else maintain.
Proof.
  intro Hp. unfold _get_action_ml_based. rewrite Hp. reflexivity.
Qed.

End ProbabilisticPolicy.

(** C2. With accuracy below 50 and a level other than Easy the
    Probabilistic Policy returns [decrease] whatever the engine holds: any
    mode, trained or not, no model, a model that raises, or a model that
    returns any probability. *)
Theorem safety_override_always_decreases :
  forall (self : AdaptiveEngine.t) (m : Metrics.t) (lvl : string),
    Metrics.accuracy m < 50 -> lvl <> "Easy"%string ->
    AdaptiveEngine._get_action_ml_based self m lvl = decrease
    /\ AdaptiveEngine.get_next_action self m lvl = decrease.
Proof.
  intros self m lvl Hacc Hlvl. split.
  - apply ml_based_low_accuracy; assumption.
  - unfold AdaptiveEngine.get_next_action.
    destruct (AdaptiveEngine.mode self =? "rule_based")%string;
      [ apply rule_based_low_accuracy; assumption | ].
    destruct ((AdaptiveEngine.mode self =? "ml_based")%string
              && AdaptiveEngine.is_trained self).
    + apply ml_based_low_accuracy; assumption.
    + apply rule_based_low_accuracy; assumption.
Qed.

Lemma safety_override_witness :
  AdaptiveEngine._get_action_ml_based
    optimistic_engine low_accuracy_snapshot "Hard" = decrease
  /\ AdaptiveEngine.get_next_action
       optimistic_engine low_accuracy_snapshot "Hard" = decrease.
Proof.
  apply (safety_override_always_decreases
           optimistic_engine low_accuracy_snapshot "Hard").
  - reflexivity.
  - discriminate.
Defined.

(** C4. When the policy is Ready, inference returns probability [p] and the
    accuracy-under-50 override does not apply, the action is [increase]
    exactly when p > 0.6 and the level is not Hard; otherwise [decrease]
    exactly when p < 0.4 and the level is not Easy; otherwise
    [maintain]. *)
Theorem probability_cut_points :
  forall (self : AdaptiveEngine.t) (m : Metrics.t) (lvl : string) (p : Q),
    AdaptiveEngine.mode self = "ml_based"%string ->
    AdaptiveEngine.is_trained self = true ->
    AdaptiveEngine.predict_proba self (AdaptiveEngine.features m) = Some p ->
    ~ (Metrics.accuracy m < 50 /\ lvl <> "Easy"%string) ->
    let inc := (6 # 10) < p /\ lvl <> "Hard"%string in
    let dec := p < (4 # 10) /\ lvl <> "Easy"%string in
    let action := AdaptiveEngine.get_next_action self m lvl in
    action = AdaptiveEngine._get_action_ml_based self m lvl
    /\ (action = increase <-> inc)
    /\ (action = decrease <-> ~ inc /\ dec)
    /\ (action = maintain <-> ~ inc /\ ~ dec).
Proof.
  intros self m lvl p Hmode Htrained Hp Hsafe inc dec action.
  assert (Haction : action = AdaptiveEngine._get_action_ml_based self m lvl).
  { unfold action, AdaptiveEngine.get_next_action.
    rewrite Hmode, Htrained. reflexivity. }
  split; [exact Haction | ]. rewrite Haction.
  rewrite (ml_based_cases self m lvl p Hp).
  assert (Hover : Qlt_bool (Metrics.accuracy m) 50
                  && negb (lvl =? "Easy")%string = false).
  { apply not_true_is_false. rewrite andb_true_iff, Qlt_bool_iff.
    destruct (neq_level_reflect lvl "Easy"); intuition congruence. }
  rewrite Hover.
  assert (Hinc : Qlt_bool (6 # 10) p && negb (lvl =? "Hard")%string = true
                 <-> inc).
  { unfold inc. rewrite andb_true_iff, Qlt_bool_iff.
    destruct (neq_level_reflect lvl "Hard"); intuition congruence. }
  assert (Hdec : Qlt_bool p (4 # 10) && negb (lvl =? "Easy")%string = true
                 <-> dec).
  { unfold dec. rewrite andb_true_iff, Qlt_bool_iff.
    destruct (neq_level_reflect lvl "Easy"); intuition congruence. }
  rewrite <- Hinc, <- Hdec. clear Hinc Hdec.
  split; [ | split ];
    destruct (Qlt_bool (6 # 10) p && negb (lvl =? "Hard")%string);
    destruct (Qlt_bool p (4 # 10) && negb (lvl =? "Easy")%string);
    intuition congruence.
Qed.

Lemma probability_cut_points_witness :
  let action :=
    AdaptiveEngine.get_next_action optimistic_engine middling_snapshot
      "Medium" in
  action = AdaptiveEngine._get_action_ml_based
             optimistic_engine middling_snapshot "Medium"
  /\ (action = increase
      <-> (6 # 10) < (95 # 100) /\ "Medium"%string <> "Hard"%string)
  /\ (action = decrease
      <-> ~ ((6 # 10) < (95 # 100) /\ "Medium"%string <> "Hard"%string)
          /\ ((95 # 100) < (4 # 10) /\ "Medium"%string <> "Easy"%string))
  /\ (action = maintain
      <-> ~ ((6 # 10) < (95 # 100) /\ "Medium"%string <> "Hard"%string)
          /\ ~ ((95 # 100) < (4 # 10) /\ "Medium"%string <> "Easy"%string)).
Proof.
  apply (probability_cut_points optimistic_engine middling_snapshot
           "Medium" (95 # 100)).
  - reflexivity.
  - reflexivity.
  - reflexivity.
  - intros [H _]. revert H. unfold Qlt; simpl; lia.
Defined.

(** ** The Hybrid Arbiter *)

(** C3. The arbiter returns the common action when the two agree.  When
    they differ it returns the ML action exactly when the classifier is
    trained, the rule action is [maintain] and 70 <= accuracy <= 85, and
    the rule action in every other case; at accuracy 69 and 86 it returns
    the rule action. *)
Theorem hybrid_arbiter_decide :
  forall (self : AdaptiveEngine.t) (m : Metrics.t) (lvl : string),
    let rule_action := AdaptiveEngine._get_action_rule_based m lvl in
    let ml_action :=
      if AdaptiveEngine.is_trained self
      then AdaptiveEngine._get_action_ml_based self m lvl
      else rule_action in
    let trusted :=
      AdaptiveEngine.is_trained self = true /\ rule_action = maintain
      /\ 70 <= Metrics.accuracy m /\ Metrics.accuracy m <= 85 in
    let action := HybridAdaptiveEngine.get_next_action self m lvl in
    (rule_action = ml_action -> action = rule_action)
    /\ (rule_action <> ml_action -> (action = ml_action <-> trusted))
    /\ (rule_action <> ml_action -> ~ trusted -> action = rule_action)
    /\ (Metrics.accuracy m == 69 \/ Metrics.accuracy m == 86 ->
        action = rule_action).
Proof.
  intros self m lvl rule_action ml_action trusted action.
  assert (Hband : Action_eqb rule_action maintain
                  && (Qle_bool 70 (Metrics.accuracy m)
                      && Qle_bool (Metrics.accuracy m) 85) = true
                  <-> rule_action = maintain
                      /\ 70 <= Metrics.accuracy m
                      /\ Metrics.accuracy m <= 85).
  { rewrite !andb_true_iff, !Qle_bool_iff.
    destruct (Action_eqb_reflect rule_action maintain); intuition congruence. }
  assert (Haction :
    action =
      if Action_eqb rule_action ml_action then rule_action
      else if AdaptiveEngine.is_trained self
      then if Action_eqb rule_action maintain
              && (Qle_bool 70 (Metrics.accuracy m)
                  && Qle_bool (Metrics.accuracy m) 85)
           then ml_action else rule_action
      else rule_action) by reflexivity.
  rewrite Haction. clear Haction.
  destruct (Action_eqb_reflect rule_action ml_action) as [Heq | Hne].
  - repeat split; intros; try reflexivity; tauto.
  - unfold trusted.
    destruct (AdaptiveEngine.is_trained self) eqn:Htrained.
    + destruct (Action_eqb rule_action maintain
                && (Qle_bool 70 (Metrics.accuracy m)
                    && Qle_bool (Metrics.accuracy m) 85)).
      * pose proof (proj1 Hband eq_refl) as Hb.
        repeat split; intros; try tauto.
        destruct Hb as (_ & Hlo & Hhi). exfalso.
        destruct H as [H | H]; rewrite H in Hlo, Hhi;
          [ revert Hlo | revert Hhi ]; unfold Qle; simpl; lia.
      * assert (Hnb : ~ (rule_action = maintain
                         /\ 70 <= Metrics.accuracy m
                         /\ Metrics.accuracy m <= 85)).
        { intro Hc. apply Hband in Hc. discriminate Hc. }
        repeat split; intros; try reflexivity; try tauto.
    + repeat split; intros; try reflexivity; try tauto;
        try (exfalso; tauto); intuition congruence.
Qed.

(** ** Boundary guards *)

Section BoundaryGuards.

Import AdaptiveEngine.

Variables (self : t) (m : Metrics.t).

Lemma rule_based_at_Hard :
  _get_action_rule_based m "Hard" =
    if decrease_conditions m then decrease else maintain.
Proof.
  rewrite rule_based_cases. simpl. rewrite andb_false_r, andb_true_r.
  reflexivity.
Qed.

Lemma rule_based_at_Easy :
  _get_action_rule_based m "Easy" =
    if increase_conditions m then increase else maintain.
Proof.
  rewrite rule_based_cases. simpl. rewrite andb_false_r, andb_true_r.
  reflexivity.
Qed.

Lemma rule_based_guards :
  _get_action_rule_based m "Hard" <> increase
  /\ _get_action_rule_based m "Easy" <> decrease.
Proof.
  rewrite rule_based_at_Hard, rule_based_at_Easy.
  destruct (decrease_conditions m), (increase_conditions m);
    split; discriminate.
Qed.

Lemma ml_based_guards :
  _get_action_ml_based self m "Hard" <> increase
  /\ _get_action_ml_based self m "Easy" <> decrease.
Proof.
  unfold _get_action_ml_based.
  destruct (predict_proba self (features m)) as [p | ].
  - simpl. rewrite !andb_false_r, !andb_true_r.
    destruct (Qlt_bool (Metrics.accuracy m) 50), (Qlt_bool (6 # 10) p),
      (Qlt_bool p (4 # 10)); split; discriminate.
  - apply rule_based_guards.
Qed.

Lemma get_next_action_guards :
  get_next_action self m "Hard" <> increase
  /\ get_next_action self m "Easy" <> decrease.
Proof.
  unfold get_next_action.
  destruct (mode self =? "rule_based")%string;
    [ apply rule_based_guards | ].
  destruct ((mode self =? "ml_based")%string && is_trained self);
    [ apply ml_based_guards | apply rule_based_guards ].
Qed.

Lemma hybrid_guards :
  HybridAdaptiveEngine.get_next_action self m "Hard" <> increase
  /\ HybridAdaptiveEngine.get_next_action self m "Easy" <> decrease.
Proof.
  unfold HybridAdaptiveEngine.get_next_action.
  destruct rule_based_guards as [HrH HrE].
  destruct ml_based_guards as [HmH HmE].
  split.
  - destruct (Action_eqb _ _); [exact HrH | ].
    destruct (is_trained self); [ | exact HrH].
    destruct (_ && _); assumption.
  - destruct (Action_eqb _ _); [exact HrE | ].
    destruct (is_trained self); [ | exact HrE].
    destruct (_ && _); assumption.
Qed.

End BoundaryGuards.

(** C5. Whatever the engine holds (untrained, trained with any output, a
    model that raises), none of the Threshold, Probabilistic and Hybrid
    policies returns [increase] at Hard or [decrease] at Easy.  The guard
    suppresses the action: at Hard a snapshot that meets the increase
    thresholds gets [maintain] from the Threshold Policy, at Easy one that
    meets the decrease thresholds gets [maintain]; the Probabilistic Policy
    with probability above 0.6 at Hard gets [maintain] unless the safety
    override applies, and with probability below 0.4 at Easy gets
    [maintain]. *)
Theorem boundary_guards_suppress :
  forall (self : AdaptiveEngine.t) (m : Metrics.t),
    (AdaptiveEngine._get_action_rule_based m "Hard" <> increase
     /\ AdaptiveEngine._get_action_ml_based self m "Hard" <> increase
     /\ AdaptiveEngine.get_next_action self m "Hard" <> increase
     /\ HybridAdaptiveEngine.get_next_action self m "Hard" <> increase)
    /\ (AdaptiveEngine._get_action_rule_based m "Easy" <> decrease
        /\ AdaptiveEngine._get_action_ml_based self m "Easy" <> decrease
        /\ AdaptiveEngine.get_next_action self m "Easy" <> decrease
        /\ HybridAdaptiveEngine.get_next_action self m "Easy" <> decrease)
    /\ (AdaptiveEngine.increase_conditions m = true ->
        AdaptiveEngine._get_action_rule_based m "Hard" = maintain)
    /\ (AdaptiveEngine.decrease_conditions m = true ->
        AdaptiveEngine._get_action_rule_based m "Easy" = maintain)
    /\ (forall p,
          AdaptiveEngine.predict_proba self (AdaptiveEngine.features m)
          = Some p ->
          ((6 # 10) < p -> 50 <= Metrics.accuracy m ->
           AdaptiveEngine._get_action_ml_based self m "Hard" = maintain)
          /\ (p < (4 # 10) ->
              AdaptiveEngine._get_action_ml_based self m "Easy" = maintain)).
Proof.
  intros self m.
  destruct (rule_based_guards m) as [HrH HrE].
  destruct (ml_based_guards self m) as [HmH HmE].
  destruct (get_next_action_guards self m) as [HgH HgE].
  destruct (hybrid_guards self m) as [HhH HhE].
  repeat split; try assumption.
  - intro Hi. rewrite rule_based_at_Hard.
    rewrite (increase_excludes_decrease m Hi). reflexivity.
  - intro Hd. rewrite rule_based_at_Easy.
    destruct (AdaptiveEngine.increase_conditions m) eqn:Hi; [ | reflexivity].
    rewrite (increase_excludes_decrease m Hi) in Hd. discriminate Hd.
  - intros Hhigh Hacc.
    rewrite (ml_based_cases self m "Hard" p H). simpl.
    rewrite !andb_false_r, !andb_true_r.
    destruct (Qlt_bool_reflect (Metrics.accuracy m) 50) as [Hlt | _].
    + exfalso. apply (Qlt_not_le _ _ Hlt Hacc).
    + destruct (Qlt_bool_reflect p (4 # 10)) as [Hlow | _]; [ | reflexivity].
      exfalso. assert (Hc : (6 # 10) < (4 # 10))
        by (apply Qlt_trans with (y := p); assumption).
      revert Hc. unfold Qlt; simpl; lia.
  - intros Hlow.
    rewrite (ml_based_cases self m "Easy" p H). simpl.
    rewrite !andb_false_r, !andb_true_r.
    destruct (Qlt_bool_reflect (6 # 10) p) as [Hhigh | _]; [ | reflexivity].
    exfalso. assert (Hc : (6 # 10) < (4 # 10))
      by (apply Qlt_trans with (y := p); assumption).
    revert Hc. unfold Qlt; simpl; lia.
Qed.

(** ** Lists *)

Lemma last_n_map {A B} (f : A -> B) (n : nat) (xs : list A) :
  last_n n (map f xs) = map f (last_n n xs).
Proof.
  unfold last_n. rewrite length_map. apply skipn_map.
Qed.

Lemma but_last_n_map {A B} (f : A -> B) (n : nat) (xs : list A) :
  but_last_n n (map f xs) = map f (but_last_n n xs).
Proof.
  unfold but_last_n. rewrite length_map. apply firstn_map.
Qed.

Lemma last_n_all {A} (n : nat) (xs : list A) :
  (length xs <= n)%nat -> last_n n xs = xs.
Proof.
  intro H. unfold last_n. replace (length xs - n)%nat with 0%nat by lia.
  reflexivity.
Qed.

Lemma last_n_length {A} (n : nat) (xs : list A) :
  length (last_n n xs) = Nat.min n (length xs).
Proof.
  unfold last_n. rewrite length_skipn. lia.
Qed.

Lemma match_nonempty {A B} (xs : list A) (a b : B) :
  (0 < length xs)%nat ->
  match xs with [] => a | _ :: _ => b end = b.
Proof.
  destruct xs; simpl; [lia | reflexivity].
Qed.

Lemma count_app {A} (p : A -> bool) (xs ys : list A) :
  count p (xs ++ ys) = (count p xs + count p ys)%nat.
Proof.
  unfold count. rewrite filter_app, length_app. reflexivity.
Qed.

(** Counting depends only on the values of the predicate. *)
Lemma count_map_eq {A B} (p : A -> bool) (q : B -> bool) :
  forall (xs : list A) (ys : list B),
    map p xs = map q ys -> count p xs = count q ys.
Proof.
  unfold count.
  induction xs as [ | x xs IH]; intros [ | y ys] H; try discriminate H.
  - reflexivity.
  - simpl in H. injection H as Hxy Hrest. simpl. rewrite Hxy.
    destruct (q y); simpl; rewrite (IH ys Hrest); reflexivity.
Qed.

Lemma map_eq_length {A B C} (f : A -> C) (g : B -> C) :
  forall (xs : list A) (ys : list B),
    map f xs = map g ys -> length xs = length ys.
Proof.
  intros xs ys H. rewrite <- (length_map f xs), H. apply length_map.
Qed.

Lemma map_eq_last_n {A B C} (f : A -> C) (g : B -> C) (n : nat) :
  forall (xs : list A) (ys : list B),
    map f xs = map g ys -> map f (last_n n xs) = map g (last_n n ys).
Proof.
  intros xs ys H. rewrite <- !last_n_map, H. reflexivity.
Qed.

(** ** The Metrics Aggregator *)

Lemma sum_snoc (xs : list Q) (x : Q) : sum (xs ++ [x]) = sum xs + x.
Proof.
  unfold sum. rewrite fold_left_app. reflexivity.
Qed.

Lemma count_complement {A} (p : A -> bool) (xs : list A) :
  (count p xs + count (fun x => negb (p x)) xs)%nat = length xs.
Proof.
  unfold count. induction xs as [ | x xs IH]; [reflexivity | ].
  simpl. destruct (p x); simpl; lia.
Qed.

Lemma count_until_incorrect_snoc (rs : list Response) (r : Response) :
  MLModelManager.count_until_incorrect (rev (rs ++ [r])) =
    if is_correct r
    then S (MLModelManager.count_until_incorrect (rev rs))
    else 0%nat.
Proof.
  rewrite rev_app_distr. reflexivity.
Qed.

(** The streak loop reads only the correctness flags. *)
Lemma count_until_incorrect_flags :
  forall rs rs' : list Response,
    map is_correct rs = map is_correct rs' ->
    MLModelManager.count_until_incorrect rs
    = MLModelManager.count_until_incorrect rs'.
Proof.
  induction rs as [ | r rs IH]; intros [ | r' rs'] H; try discriminate H.
  - reflexivity.
  - simpl in H. injection H as Hr Hrest. simpl. rewrite Hr.
    destruct (is_correct r'); [ | reflexivity].
    f_equal. apply IH. exact Hrest.
Qed.

Section Aggregator.

Import PerformanceTracker.

Lemma replay_snoc (self : t) (events : list AnswerEvent) (e : AnswerEvent) :
  replay self (events ++ [e]) = record_event (replay self events) e.
Proof.
  unfold replay. rewrite fold_left_app. reflexivity.
Qed.

(** The running state of a fresh tracker after an event log: the stored
    records carry the events' flags and times, and each counter is the
    function of the stored records that its name says. *)
Lemma tracker_after_state (u md : string) (events : list AnswerEvent) :
  let tr := tracker_after u md events in
  map is_correct (responses tr) = map ev_is_correct events
  /\ map response_time (responses tr) = map ev_response_time events
  /\ correct_count tr = count is_correct (responses tr)
  /\ incorrect_count tr = count (fun r => negb (is_correct r)) (responses tr)
  /\ consecutive_correct tr
     = MLModelManager.count_until_incorrect (rev (responses tr))
  /\ (consecutive_correct tr <= max_consecutive_correct tr)%nat
  /\ total_response_time tr = sum (map response_time (responses tr)).
Proof.
  unfold tracker_after.
  induction events as [ | e events IH] using rev_ind.
  - simpl. repeat split; reflexivity || lia.
  - rewrite replay_snoc.
    destruct IH as (Hc & Ht & Hcc & Hic & Hs & Hm & Htt).
    set (tr := replay (__init__ u md) events) in *.
    unfold record_event, record_response. simpl.
    rewrite !map_app, !count_app, count_until_incorrect_snoc.
    cbn [map is_correct response_time]. rewrite sum_snoc.
    rewrite Hc, Ht, <- Hcc, <- Hic, <- Hs, Htt, Ht.
    unfold count. cbn [filter is_correct].
    destruct (ev_is_correct e); simpl; repeat split; try reflexivity; lia.
Qed.

Lemma tracker_after_length (u md : string) (events : list AnswerEvent) :
  length (responses (tracker_after u md events)) = length events.
Proof.
  destruct (tracker_after_state u md events) as (Hc & _).
  apply (map_eq_length _ _ _ _ Hc).
Qed.

(** The stored records do not depend on who the tracker was created for. *)
Lemma tracker_after_responses (u md u' md' : string)
    (events : list AnswerEvent) :
  responses (tracker_after u md events)
  = responses (tracker_after u' md' events).
Proof.
  unfold tracker_after.
  induction events as [ | e events IH] using rev_ind; [reflexivity | ].
  rewrite !replay_snoc. unfold record_event, record_response. simpl.
  rewrite IH. reflexivity.
Qed.

End Aggregator.

Section Snapshot.

Import PerformanceTracker.

(** Two trackers fed the same events hold the same running state, whoever
    they were created for. *)
Lemma tracker_after_same_state (u md u' md' : string)
    (events : list AnswerEvent) :
  let tr := tracker_after u md events in
  let tr' := tracker_after u' md' events in
  responses tr = responses tr'
  /\ correct_count tr = correct_count tr'
  /\ incorrect_count tr = incorrect_count tr'
  /\ consecutive_correct tr = consecutive_correct tr'
  /\ max_consecutive_correct tr = max_consecutive_correct tr'
  /\ total_response_time tr = total_response_time tr'.
Proof.
  unfold tracker_after.
  induction events as [ | e events IH] using rev_ind.
  - simpl. repeat split; reflexivity.
  - rewrite !replay_snoc.
    destruct IH as (Hr & Hc & Hi & Hs & Hm & Ht).
    unfold record_event, record_response. simpl.
    rewrite Hr, Hc, Hi, Hs, Hm, Ht. repeat split; reflexivity.
Qed.

(** The snapshot reads the running state only. *)
Lemma get_current_metrics_state (tr tr' : t) :
  responses tr = responses tr' ->
  correct_count tr = correct_count tr' ->
  incorrect_count tr = incorrect_count tr' ->
  consecutive_correct tr = consecutive_correct tr' ->
  max_consecutive_correct tr = max_consecutive_correct tr' ->
  total_response_time tr = total_response_time tr' ->
  get_current_metrics tr = get_current_metrics tr'.
Proof.
  intros Hr Hc Hi Hs Hm Ht. unfold get_current_metrics.
  rewrite Hr, Hc, Hi, Hs, Hm, Ht. reflexivity.
Qed.

Lemma snapshot_tracker (u md : string) (events : list AnswerEvent) :
  get_current_metrics (tracker_after u md events) = snapshot events.
Proof.
  unfold snapshot.
  destruct (tracker_after_same_state u md "" "" events)
    as (Hr & Hc & Hi & Hs & Hm & Ht).
  apply get_current_metrics_state; assumption.
Qed.

End Snapshot.

(** C6. For every event log the snapshot satisfies
    correctCount + incorrectCount = totalAnswered and
    currentStreak <= maxStreak, and two trackers (created for any user and
    mode) fed the same events produce the same snapshot. *)
Theorem snapshot_invariants :
  forall (u md u' md' : string) (events : list AnswerEvent),
    let s :=
      PerformanceTracker.get_current_metrics (tracker_after u md events) in
    (Metrics.correct_count s + Metrics.incorrect_count s
     = Metrics.total_questions s)%nat
    /\ (Metrics.consecutive_correct s <= Metrics.max_streak s)%nat
    /\ PerformanceTracker.get_current_metrics (tracker_after u' md' events)
       = s.
Proof.
  intros u md u' md' events s.
  destruct (tracker_after_state u md events)
    as (_ & _ & Hcc & Hic & _ & Hm & _).
  split; [ | split ].
  - unfold s, PerformanceTracker.get_current_metrics.
    destruct (length _ =? 0)%nat; [reflexivity | ].
    simpl. rewrite Hcc, Hic. apply count_complement.
  - unfold s, PerformanceTracker.get_current_metrics.
    destruct (length _ =? 0)%nat; [simpl; lia | ].
    simpl. exact Hm.
  - unfold s. rewrite !snapshot_tracker. reflexivity.
Qed.

(** ** The latency trend *)

Lemma but_last_n_nil_iff {A} (n : nat) (xs : list A) :
  but_last_n n xs = [] <-> (length xs <= n)%nat.
Proof.
  unfold but_last_n. split; intro H.
  - apply (f_equal (@length A)) in H. rewrite length_firstn in H.
    simpl in H. lia.
  - replace (length xs - n)%nat with 0%nat by lia. reflexivity.
Qed.

(** The trend, read off the response times. *)
Lemma trend_of_times (rs : list Response) :
  let times := map response_time rs in
  PerformanceTracker.trend_of rs =
    if (length times <=? 3)%nat then stable
    else if Qlt_bool (mean (but_last_n 3 times) * (12 # 10))
                     (mean (last_n 3 times))
    then slowing
    else if Qlt_bool (mean (last_n 3 times))
                     (mean (but_last_n 3 times) * (8 # 10))
    then improving
    else stable.
Proof.
  intro times. unfold times, PerformanceTracker.trend_of, mean.
  rewrite last_n_map, but_last_n_map, !length_map.
  destruct (Nat.leb_spec 3 (length rs)) as [H3 | H3].
  - destruct (map response_time (but_last_n 3 rs)) as [ | t older] eqn:Holder.
    + apply (f_equal (@length Q)) in Holder. rewrite length_map in Holder.
      unfold but_last_n in Holder. rewrite length_firstn in Holder.
      simpl in Holder.
      destruct (Nat.leb_spec (length rs) 3); [reflexivity | lia].
    + assert (Hlen : (3 < length rs)%nat).
      { destruct (Nat.le_gt_cases (length rs) 3) as [Hle | Hgt];
          [ | exact Hgt].
        apply (but_last_n_nil_iff 3 rs) in Hle. rewrite Hle in Holder.
        discriminate Holder. }
      destruct (Nat.leb_spec (length rs) 3); [lia | reflexivity].
  - destruct (Nat.leb_spec (length rs) 3); [reflexivity | lia].
Qed.

Lemma In_but_last_n {A} (n : nat) (x : A) (xs : list A) :
  In x (but_last_n n xs) -> In x xs.
Proof.
  unfold but_last_n. intro H.
  rewrite <- (firstn_skipn (length xs - n) xs).
  apply in_or_app. left. exact H.
Qed.

(** Means of non-negative times are non-negative. *)
Lemma sum_nonneg (xs : list Q) :
  (forall x, In x xs -> 0 <= x) -> 0 <= sum xs.
Proof.
  unfold sum. assert (H : forall acc, 0 <= acc ->
    (forall x, In x xs -> 0 <= x) -> 0 <= fold_left Qplus xs acc).
  { induction xs as [ | x xs IH]; intros acc Hacc Hxs; [exact Hacc | ].
    simpl. apply IH.
    - assert (0 <= x) by (apply Hxs; left; reflexivity). lra.
    - intros x' Hx'. apply Hxs. right. exact Hx'. }
  apply H. lra.
Qed.

Lemma mean_nonneg (xs : list Q) :
  (forall x, In x xs -> 0 <= x) -> 0 <= mean xs.
Proof.
  intro Hxs. unfold mean, Qdiv. apply Qmult_le_0_compat.
  - apply sum_nonneg. exact Hxs.
  - apply Qinv_le_0_compat. unfold Qnat, Qle. simpl. lia.
Qed.


Section Rounding.

Import PrimFloat.


End Rounding.

(** ** The feature extractor *)

Section FeatureVector.

Variable prior : list Response.

Let tr := tracker_after "" "" (map event_of prior).

Lemma replayed_flags :
  map is_correct (PerformanceTracker.responses tr) = map is_correct prior.
Proof.
  destruct (tracker_after_state "" "" (map event_of prior)) as (Hc & _).
  fold tr in Hc. rewrite Hc, map_map. reflexivity.
Qed.

Lemma replayed_length :
  length (PerformanceTracker.responses tr) = length prior.
Proof.
  apply (map_eq_length _ _ _ _ replayed_flags).
Qed.

(** The trainer's feature row is the specification's feature vector. *)
Lemma features_of_prior_spec :
  MLModelManager.features_of_prior prior = spec_feature_vector prior.
Proof.
  destruct (tracker_after_state "" "" (map event_of prior))
    as (_ & _ & Hcc & _ & Hs & _).
  fold tr in Hcc, Hs.
  pose proof replayed_flags as Hflags. pose proof replayed_length as Hlen.
  unfold spec_feature_vector, snapshot, MLModelManager.features_of_prior.
  fold tr. unfold PerformanceTracker.get_current_metrics.
  rewrite Hlen.
  destruct prior as [ | r0 rest] eqn:Hprior; [reflexivity | ].
  rewrite <- Hprior in *.
  assert (Hpos : (0 < length prior)%nat) by (rewrite Hprior; simpl; lia).
  destruct (Nat.eqb_spec (length prior) 0) as [H0 | _]; [lia | ].
  destruct (Nat.ltb_spec 0 (length prior)) as [_ | H0]; [ | lia].
  cbn [Metrics.accuracy Metrics.consecutive_correct Metrics.recent_accuracy].
  assert (Hrecent :
    (if (3 <=? length prior)%nat
     then last_n 3 (PerformanceTracker.responses tr)
     else PerformanceTracker.responses tr)
    = last_n 3 (PerformanceTracker.responses tr)).
  { destruct (Nat.leb_spec 3 (length prior)); [reflexivity | ].
    symmetry. apply last_n_all. lia. }
  rewrite Hrecent.
  pose proof (map_eq_last_n _ _ 3 _ _ Hflags) as Hlast.
  pose proof (map_eq_length _ _ _ _ Hlast) as Hlastlen.
  assert (Hwindow : last_n (Nat.min 3 (length prior)) prior = last_n 3 prior).
  { unfold last_n. f_equal. lia. }
  rewrite Hwindow. unfold mean.
  assert (Hne : (0 < length (last_n 3 prior))%nat)
    by (rewrite last_n_length; lia).
  f_equal; [ | f_equal; [ | f_equal; [ | f_equal ] ] ].
  - rewrite Hcc, (count_map_eq _ _ _ _ Hflags). reflexivity.
  - destruct (map response_time (last_n 3 prior)) eqn:Htimes; [ | reflexivity].
    apply (f_equal (@length Q)) in Htimes. rewrite length_map in Htimes.
    simpl in Htimes. lia.
  - rewrite Hs. f_equal. apply count_until_incorrect_flags.
    rewrite !map_rev, Hflags. reflexivity.
  - destruct (Nat.ltb_spec 0 (length (last_n 3 prior))) as [_ | H0]; [ | lia].
    rewrite match_nonempty by lia.
    rewrite Hlastlen, (count_map_eq _ _ _ _ Hlast). reflexivity.
Qed.

End FeatureVector.

Lemma combine_app {A B} :
  forall (xs xs' : list A) (ys ys' : list B),
    length xs = length ys ->
    combine (xs ++ xs') (ys ++ ys') = combine xs ys ++ combine xs' ys'.
Proof.
  induction xs as [ | x xs IH]; intros xs' [ | y ys] ys' H;
    try discriminate H.
  - reflexivity.
  - simpl. f_equal. apply IH. simpl in H. lia.
Qed.

Section Extraction.

Variable responses : list Response.

(** The inner loop appends to [X] and [y] in step. *)
Lemma inner_loop_examples :
  forall (positions : list nat) (X : list (list Q)) (y : list Z),
    length X = length y ->
    let Xy' :=
      fold_left
        (fun '(X, y) i =>
           match nth_error responses i with
           | Some response_i =>
               (X ++ [MLModelManager.features_of_prior (firstn i responses)],
                y ++ [if is_correct response_i then 1%Z else 0%Z])
           | None => (X, y)
           end)
        positions (X, y) in
    length (fst Xy') = length (snd Xy')
    /\ examples_of Xy' = combine X y ++ examples_at responses positions.
Proof.
  induction positions as [ | i positions IH]; intros X y Hlen.
  - simpl. split; [exact Hlen | ]. unfold examples_of. simpl.
    rewrite app_nil_r. reflexivity.
  - cbn [fold_left]. unfold examples_at, spec_example_at. cbn [flat_map].
    destruct (nth_error responses i) as [e | ].
    + match goal with
      | |- context [fold_left ?f positions (?X', ?y')] =>
          destruct (IH X' y') as [IH1 IH2]
      end.
      { rewrite !length_app. simpl. lia. }
      split; [exact IH1 | ]. rewrite IH2.
      rewrite (combine_app X _ y _ Hlen). simpl.
      rewrite features_of_prior_spec, <- app_assoc. reflexivity.
    + destruct (IH X y Hlen) as [IH1 IH2]. split; [exact IH1 | ].
      rewrite IH2. reflexivity.
Qed.

(** Every position of the range lies inside the session: one example
    each. *)
Lemma examples_at_seq :
  forall (n a : nat),
    (a + n <= length responses)%nat ->
    map Some (examples_at responses (seq a n))
    = map (spec_example_at responses) (seq a n).
Proof.
  induction n as [ | n IH]; intros a Ha; [reflexivity | ].
  simpl. unfold examples_at in *. simpl.
  unfold spec_example_at at 1 3.
  destruct (nth_error responses a) as [e | ] eqn:He.
  - simpl. f_equal. apply IH. lia.
  - apply nth_error_None in He. lia.
Qed.

End Extraction.

Lemma outer_loop_examples :
  forall (data : list Session) (X : list (list Q)) (y : list Z),
    length X = length y ->
    let Xy' :=
      fold_left
        (fun Xy session =>
           let responses := responses_of session in
           if (length responses <? 3)%nat then Xy
           else MLModelManager.extract_session responses Xy)
        data (X, y) in
    length (fst Xy') = length (snd Xy')
    /\ examples_of Xy'
       = combine X y ++ flat_map (fun s => per_session (responses_of s)) data.
Proof.
  induction data as [ | session data IH]; intros X y Hlen.
  - simpl. split; [exact Hlen | ]. unfold examples_of. simpl.
    rewrite app_nil_r. reflexivity.
  - cbn [fold_left flat_map]. cbv zeta.
    assert (Hps : per_session (responses_of session) =
                  if (length (responses_of session) <? 3)%nat then []
                  else examples_at (responses_of session)
                         (seq 2 (length (responses_of session) - 2)))
      by reflexivity.
    rewrite Hps. clear Hps.
    destruct (length (responses_of session) <? 3)%nat.
    + destruct (IH X y Hlen) as [IH1 IH2]. split; [exact IH1 | ].
      etransitivity; [exact IH2 | reflexivity].
    + unfold MLModelManager.extract_session.
      destruct (inner_loop_examples (responses_of session)
                  (seq 2 (length (responses_of session) - 2)) X y Hlen)
        as [Hl He].
      match type of Hl with
      | length (fst ?Xy) = _ => destruct Xy as [X' y'] eqn:HXy
      end.
      simpl in Hl. unfold examples_of in He. simpl in He.
      destruct (IH X' y' Hl) as [IH1 IH2]. split; [exact IH1 | ].
      etransitivity; [exact IH2 | ].
      rewrite He, <- app_assoc. reflexivity.
Qed.

Lemma extract_features_examples (data : list Session) :
  examples_of (MLModelManager.extract_features data)
  = flat_map (fun s => per_session (responses_of s)) data.
Proof.
  unfold MLModelManager.extract_features.
  destruct (outer_loop_examples data [] [] eq_refl) as [_ H].
  exact H.
Qed.

Lemma session_examples_per_session (responses : list Response) :
  session_examples responses = per_session responses.
Proof.
  unfold session_examples. rewrite extract_features_examples.
  simpl. apply app_nil_r.
Qed.

Lemma per_session_positions (responses : list Response) :
  map Some (per_session responses)
  = map (spec_example_at responses) (seq 2 (length responses - 2)).
Proof.
  unfold per_session.
  destruct (Nat.ltb_spec (length responses) 3) as [Hlt | Hge].
  - replace (length responses - 2)%nat with 0%nat by lia. reflexivity.
  - apply examples_at_seq. lia.
Qed.

(** C9. The trainer's examples are the concatenation, session by session,
    of the examples of each session ([X] and [y] keep the same length); a
    session with fewer than 3 events contributes none; a session
    contributes exactly one example for each position i >= 2, in order,
    whose features are the specification's feature vector of the events
    before i (Aggregator accuracy, mean response time of the last
    [min 3 i] events, Aggregator streak and recent accuracy) and whose
    label is 1 if event i was correct and 0 otherwise. *)
Theorem trainer_examples :
  forall (data : list Session),
    examples_of (MLModelManager.extract_features data)
    = flat_map (fun s => session_examples (responses_of s)) data
    /\ length (fst (MLModelManager.extract_features data))
       = length (snd (MLModelManager.extract_features data))
    /\ (forall responses,
          (length responses < 3)%nat -> session_examples responses = [])
    /\ (forall responses,
          length (session_examples responses) = (length responses - 2)%nat)
    /\ (forall responses i event,
          (2 <= i)%nat -> nth_error responses i = Some event ->
          nth_error (session_examples responses) (i - 2)
          = Some (spec_feature_vector (firstn i responses),
                  spec_label event)).
Proof.
  intro data. split; [ | split; [ | split; [ | split ] ] ].
  - rewrite extract_features_examples. apply flat_map_ext.
    intro s. symmetry. apply session_examples_per_session.
  - unfold MLModelManager.extract_features.
    destruct (outer_loop_examples data [] [] eq_refl) as [H _]. exact H.
  - intros responses Hlt. rewrite session_examples_per_session.
    unfold per_session.
    destruct (Nat.ltb_spec (length responses) 3); [reflexivity | lia].
  - intro responses. rewrite session_examples_per_session.
    rewrite <- (length_map Some), per_session_positions, length_map.
    apply length_seq.
  - intros responses i event Hi He.
    rewrite session_examples_per_session.
    assert (Hlt : (i < length responses)%nat).
    { apply nth_error_Some. rewrite He. discriminate. }
    pose proof (per_session_positions responses) as Hpos.
    apply (f_equal (fun l => nth_error l (i - 2))) in Hpos.
    rewrite !nth_error_map in Hpos.
    rewrite (nth_error_nth' _ 0%nat) in Hpos by (rewrite length_seq; lia).
    rewrite seq_nth in Hpos by lia.
    replace (2 + (i - 2))%nat with i in Hpos by lia.
    cbn [option_map] in Hpos. unfold spec_example_at in Hpos.
    rewrite He in Hpos.
    destruct (nth_error (per_session responses) (i - 2)) as [ex | ];
      simpl in Hpos; [ | discriminate Hpos].
    injection Hpos as Hex. rewrite Hex. reflexivity.
Qed.

(** The tracker's own exporter is a different extractor: on the log
    wrong, right, right it emits the signed count 1 - 1 = 0 and the target
    0 at position 2, where the trainer emits the trailing streak 1 and the
    label 1. *)
Example export_for_ml_training_differs :
  map (fun d => (f_consecutive_correct (features d), target d))
      (PerformanceTracker.export_for_ml_training
         (tracker_after "" "" recovering_log))
  = [(0%Z, 0%Z)]
  /\ map (fun example => (nth 2 (fst example) 0, snd example))
         (session_examples
            (PerformanceTracker.responses
               (tracker_after "" "" recovering_log)))
     = [(Qnat 1, 1%Z)].
Proof.
  split; reflexivity.
Qed.

(** ** Inference against training *)

Lemma events_of_tracker (u md : string) (events : list AnswerEvent) :
  map event_of (PerformanceTracker.responses (tracker_after u md events))
  = events.
Proof.
  unfold tracker_after.
  induction events as [ | e events IH] using rev_ind; [reflexivity | ].
  rewrite replay_snoc.
  unfold PerformanceTracker.record_event, PerformanceTracker.record_response.
  simpl. rewrite map_app, IH. destruct e. reflexivity.
Qed.

(** The snapshot's average response time is the mean over the whole
    log. *)
Lemma avg_response_time_overall (events : list AnswerEvent) :
  Metrics.avg_response_time (snapshot events)
  = mean (map ev_response_time events).
Proof.
  unfold snapshot, PerformanceTracker.get_current_metrics, mean.
  rewrite tracker_after_length, length_map.
  destruct (tracker_after_state "" "" events) as (_ & Ht & _ & _ & _ & _ & Htt).
  destruct events as [ | e events]; [reflexivity | ].
  cbn [length Nat.eqb Metrics.avg_response_time].
  rewrite Htt, Ht. reflexivity.
Qed.

(** The row built at inference and the row built in training for the same
    log: the same accuracy, streak and recent accuracy; the mean response
    time over the whole log at inference, over the last [min 3 N] events in
    training. *)
Lemma inference_and_training_rows (events : list AnswerEvent) :
  let s := snapshot events in
  inference_features events
  = [ Metrics.accuracy s;
      mean (map ev_response_time events);
      Qnat (Metrics.consecutive_correct s);
      Metrics.recent_accuracy s ]
  /\ training_features events
     = [ Metrics.accuracy s;
         mean (map ev_response_time
                 (last_n (Nat.min 3 (length events)) events));
         Qnat (Metrics.consecutive_correct s);
         Metrics.recent_accuracy s ].
Proof.
  intro s. split.
  { unfold inference_features, AdaptiveEngine.features. fold s.
    unfold s at 2. rewrite avg_response_time_overall. reflexivity. }
  unfold training_features. rewrite features_of_prior_spec.
  unfold spec_feature_vector.
  rewrite events_of_tracker, tracker_after_length. fold s.
  destruct (tracker_after_state "" "" events) as (_ & Ht & _).
  rewrite <- last_n_map, Ht, last_n_map. reflexivity.
Qed.

(** C7 (fails on the code). On the log of four correct answers taking 10,
    1, 1 and 1 seconds, the second component of the row passed to the
    classifier is the overall mean 13/4, while the trainer's row for the
    same log has the recent-window mean 1; the other three components
    agree. *)
Theorem inference_row_differs_from_training :
  nth 1 (inference_features slow_start_log) 0 == 13 # 4
  /\ nth 1 (training_features slow_start_log) 0 == 1
  /\ ~ nth 1 (inference_features slow_start_log) 0
       == nth 1 (training_features slow_start_log) 0
  /\ nth 0 (inference_features slow_start_log) 0
     = nth 0 (training_features slow_start_log) 0
  /\ nth 2 (inference_features slow_start_log) 0
     = nth 2 (training_features slow_start_log) 0
  /\ nth 3 (inference_features slow_start_log) 0
     = nth 3 (training_features slow_start_log) 0.
Proof.
  destruct (inference_and_training_rows slow_start_log) as [Hi Ht].
  rewrite Hi, Ht. cbn [nth].
  repeat split; try reflexivity.
  vm_compute. discriminate.
Qed.

(** ** Training *)

Section TrainingOutcomes.

Context {Model : Type} (lib : Sklearn.Library Model).

Lemma train_empty (self : MLModelManager.t Model) (y : list Z) :
  MLModelManager.train lib self [] y = (self, Returned false).
Proof.
  reflexivity.
Qed.

(** [train] on a non-empty matrix, by what the library does. *)
Lemma train_nonempty (self : MLModelManager.t Model)
    (X : list (list Q)) (y : list Z) :
  X <> [] ->
  MLModelManager.train lib self X y =
    match Sklearn.train_test_split lib X y with
    | None => (self, Raised)
    | Some ((X_train, X_test), (y_train, y_test)) =>
        match Sklearn.fit lib (FloatArray X_train) y_train with
        | None =>
            ({| MLModelManager.model_path := MLModelManager.model_path self;
                MLModelManager.model := Some Unfitted;
                MLModelManager.is_trained := MLModelManager.is_trained self;
                MLModelManager.metrics := MLModelManager.metrics self |},
             Raised)
        | Some m =>
            ({| MLModelManager.model_path := MLModelManager.model_path self;
                MLModelManager.model := Some (Fitted m);
                MLModelManager.is_trained := true;
                MLModelManager.metrics :=
                  Some
                    {| train_accuracy :=
                         Sklearn.accuracy_score lib y_train
                           (Sklearn.predict lib m X_train);
                       test_accuracy :=
                         Sklearn.accuracy_score lib y_test
                           (Sklearn.predict lib m X_test);
                       precision :=
                         Sklearn.precision_score lib y_test
                           (Sklearn.predict lib m X_test);
                       recall :=
                         Sklearn.recall_score lib y_test
                           (Sklearn.predict lib m X_test);
                       f1 :=
                         Sklearn.f1_score lib y_test
                           (Sklearn.predict lib m X_test) |} |},
             Returned true)
        end
    end.
Proof.
  intro HX. unfold MLModelManager.train.
  destruct X as [ | row X]; [contradiction | ]. reflexivity.
Qed.

End TrainingOutcomes.

(** C8, as the code has it. On an empty example list both trainers return
    [False], fit nothing and leave the manager and the disk as they were.
    On a non-empty list [MLModelManager.train] returns [True] exactly when
    the library's split and fit return, and then holds the fitted model and
    a training-accuracy score; when the library raises, the call raises and
    the manager holds no fitted model that it did not hold before.  What
    [AdaptiveEngine.train_model] does on a non-empty list is left out: it
    hands the classifier an array of dictionary views. *)
Theorem training_outcomes :
  forall (Model : Type) (lib : Sklearn.Library Model),
    (forall self y,
       MLModelManager.train lib self [] y = (self, Returned false))
    /\ (forall disk save_path,
          Trainer.train_model lib disk [] save_path
          = {| Trainer.disk_after := disk;
               Trainer.printed_training_accuracy := None;
               Trainer.outcome := Returned false |})
    /\ (forall self X y,
          X <> [] ->
          let after := MLModelManager.train lib self X y in
          (snd after = Returned true
           <-> exists X_train X_test y_train y_test m,
                 Sklearn.train_test_split lib X y
                 = Some ((X_train, X_test), (y_train, y_test))
                 /\ Sklearn.fit lib (FloatArray X_train) y_train = Some m)
          /\ (snd after = Returned true ->
              MLModelManager.is_trained (fst after) = true
              /\ exists X_train X_test y_train y_test m scores,
                   Sklearn.train_test_split lib X y
                   = Some ((X_train, X_test), (y_train, y_test))
                   /\ Sklearn.fit lib (FloatArray X_train) y_train = Some m
                   /\ MLModelManager.model (fst after) = Some (Fitted m)
                   /\ MLModelManager.metrics (fst after) = Some scores
                   /\ train_accuracy scores
                      = Sklearn.accuracy_score lib y_train
                          (Sklearn.predict lib m X_train))
          /\ (snd after <> Returned true ->
              snd after = Raised
              /\ MLModelManager.is_trained (fst after)
                 = MLModelManager.is_trained self
              /\ MLModelManager.metrics (fst after)
                 = MLModelManager.metrics self
              /\ (MLModelManager.model (fst after) = MLModelManager.model self
                  \/ MLModelManager.model (fst after) = Some Unfitted))).
Proof.
  intros Model lib. split; [ | split ].
  - intros self y. apply train_empty.
  - intros disk save_path. reflexivity.
  - intros self X y HX after. unfold after.
    rewrite (train_nonempty lib self X y HX).
    destruct (Sklearn.train_test_split lib X y)
      as [[[X_train X_test] [y_train y_test]] | ].
    + destruct (Sklearn.fit lib (FloatArray X_train) y_train) as [m | ]
        eqn:Hfit.
      * split; [ | split ].
        -- split; [ | reflexivity]. intros _.
           exists X_train, X_test, y_train, y_test, m. split; [reflexivity | ].
           exact Hfit.
        -- intros _. split; [reflexivity | ].
           eexists X_train, X_test, y_train, y_test, m, _.
           repeat split; try reflexivity. exact Hfit.
        -- intro Hn. exfalso. apply Hn. reflexivity.
      * split; [ | split ].
        -- split; [discriminate | ].
           intros (Xt & Xe & yt & ye & m & Hs & Hf).
           injection Hs as -> -> -> ->. rewrite Hfit in Hf. discriminate Hf.
        -- discriminate.
        -- intros _. simpl. repeat split; try reflexivity. right. reflexivity.
    + split; [ | split ].
      * split; [discriminate | ].
        intros (Xt & Xe & yt & ye & m & Hs & _). discriminate Hs.
      * discriminate.
      * intros _. simpl. repeat split; try reflexivity. left. reflexivity.
Qed.

(** C8 as stated fails: with a library that checks its inputs as
    scikit-learn does, training on one example does not succeed.  The
    split would leave an empty training set, so [train] raises and the
    manager holds no model. *)
Lemma training_single_example_raises :
  single_example_X <> []
  /\ snd (MLModelManager.train CheckedLibrary.library
            (MLModelManager.__init__ "models/difficulty_predictor.pkl")
            single_example_X single_example_y)
     = Raised
  /\ MLModelManager.model
       (fst (MLModelManager.train CheckedLibrary.library
               (MLModelManager.__init__ "models/difficulty_predictor.pkl")
               single_example_X single_example_y))
     = None.
Proof.
  split; [discriminate | ]. split; reflexivity.
Qed.

(** * Properties of the rest of the code *)

(** ** Random draws *)

Lemma randbelow_lt (n : nat) (g : Random.t) :
  n <> 0%nat -> (fst (Random._randbelow n g) < n)%nat.
Proof.
  intro Hn. simpl. apply Nat.mod_upper_bound. exact Hn.
Qed.

Lemma choice_returns {A} (seq : list A) (g : Random.t) :
  seq <> [] ->
  exists x g', Random.choice seq g = Returned (x, g') /\ In x seq.
Proof.
  intro Hne. unfold Random.choice.
  destruct (Random._randbelow (length seq) g) as [i g'] eqn:Hr.
  assert (Hi : (i < length seq)%nat).
  { change i with (fst (i, g')). rewrite <- Hr. apply randbelow_lt.
    destruct seq; [contradiction | discriminate]. }
  destruct (nth_error seq i) as [x | ] eqn:Hx.
  - exists x, g'. split; [reflexivity | ]. apply nth_error_In with i. exact Hx.
  - apply nth_error_None in Hx. lia.
Qed.

Lemma randint_returns (a b : Z) (g : Random.t) :
  (a <= b)%Z ->
  exists v g', Random.randint a b g = Returned (v, g') /\ (a <= v <= b)%Z.
Proof.
  intro Hab. unfold Random.randint.
  destruct (Z.ltb_spec b a) as [Hlt | _]; [lia | ].
  destruct (Random._randbelow (Z.to_nat (b - a + 1)) g) as [k g'] eqn:Hr.
  assert (Hk : (k < Z.to_nat (b - a + 1))%nat).
  { change k with (fst (k, g')). rewrite <- Hr. apply randbelow_lt. lia. }
  exists (a + Z.of_nat k)%Z, g'. split; [reflexivity | lia].
Qed.

(** ** The puzzle generator *)

(** What the three configurations have in common. *)
Lemma DIFFICULTY_RANGES_valid (difficulty : string) (config : Config.t) :
  PuzzleGenerator.DIFFICULTY_RANGES difficulty = Some config ->
  (1 <= Config.min config <= Config.max config)%Z
  /\ Config.operations config <> []
  /\ (forall op, In op (Config.operations config) ->
                 In op PuzzleGenerator.OPERATIONS).
Proof.
  unfold PuzzleGenerator.DIFFICULTY_RANGES.
  destruct (difficulty =? "Easy")%string;
    [ | destruct (difficulty =? "Medium")%string;
        [ | destruct (difficulty =? "Hard")%string ] ];
    intro H; inversion H; subst; clear H; simpl;
    (split; [lia | split; [discriminate | ] ]);
    unfold PuzzleGenerator.OPERATIONS; simpl; tauto.
Qed.

Lemma DIFFICULTY_RANGES_known (difficulty : string) :
  PuzzleGenerator.DIFFICULTY_RANGES difficulty = None
  <-> difficulty <> "Easy"%string /\ difficulty <> "Medium"%string
      /\ difficulty <> "Hard"%string.
Proof.
  unfold PuzzleGenerator.DIFFICULTY_RANGES.
  destruct (String.eqb_spec difficulty "Easy");
    [ | destruct (String.eqb_spec difficulty "Medium");
        [ | destruct (String.eqb_spec difficulty "Hard") ] ];
    split; intro H; try discriminate H; try tauto.
Qed.

Lemma generate_puzzle_returns (difficulty : string) (config : Config.t)
    (g : Random.t) :
  PuzzleGenerator.DIFFICULTY_RANGES difficulty = Some config ->
  exists p g',
    PuzzleGenerator.generate_puzzle difficulty g = Returned (p, g')
    /\ well_formed config difficulty p.
Proof.
  intro Hc. destruct (DIFFICULTY_RANGES_valid _ _ Hc) as (Hr & Hne & Hops).
  unfold PuzzleGenerator.generate_puzzle. rewrite Hc.
  destruct (choice_returns (Config.operations config) g Hne)
    as (op & g1 & -> & Hop).
  cbn [and_then].
  destruct (randint_returns (Config.min config) (Config.max config) g1)
    as (a & g2 & -> & Ha); [lia | ].
  cbn [and_then].
  destruct (randint_returns (Config.min config) (Config.max config) g2)
    as (b & g3 & -> & Hb); [lia | ].
  cbn [and_then].
  destruct (randint_returns (Config.min config) (Config.max config) g3)
    as (c & g4 & Hc4 & Hcr); [lia | ].
  specialize (Hops op Hop). unfold PuzzleGenerator.OPERATIONS in Hops.
  simpl in Hops.
  destruct Hops as [<- | [<- | [<- | [<- | [] ] ] ] ].
  - eexists _, _. split; [reflexivity | ]. unfold well_formed. simpl.
    repeat split; try assumption; try lia; try discriminate; intros;
      try discriminate; try lia.
  - eexists _, _. split; [reflexivity | ]. unfold well_formed. simpl.
    repeat split; try assumption; try lia; try discriminate; intros;
      try discriminate; try lia.
  - eexists _, _. split; [reflexivity | ]. unfold well_formed. simpl.
    repeat split; try assumption; try lia; try discriminate; intros;
      try discriminate; try lia.
  - cbn [String.eqb Ascii.eqb Bool.eqb]. rewrite Hc4. cbn [and_then].
    eexists _, _. split; [reflexivity | ]. unfold well_formed. simpl.
    repeat split; try assumption; try lia; try discriminate; intros;
      try discriminate; try lia.
Qed.

Lemma generate_puzzle_inversion (difficulty : string) (g g' : Random.t)
    (p : Puzzle.t) :
  PuzzleGenerator.generate_puzzle difficulty g = Returned (p, g') ->
  exists config,
    PuzzleGenerator.DIFFICULTY_RANGES difficulty = Some config
    /\ well_formed config difficulty p.
Proof.
  intro Hgen.
  destruct (PuzzleGenerator.DIFFICULTY_RANGES difficulty) as [config | ]
    eqn:Hc.
  - exists config. split; [reflexivity | ].
    destruct (generate_puzzle_returns difficulty config g Hc)
      as (p0 & g0 & Hgen0 & Hwf).
    rewrite Hgen in Hgen0. injection Hgen0 as -> _. exact Hwf.
  - unfold PuzzleGenerator.generate_puzzle in Hgen. rewrite Hc in Hgen.
    discriminate Hgen.
Qed.

(** X1. [generate_puzzle] raises exactly on a difficulty that is none of
    Easy, Medium and Hard (the [KeyError] of the lookup); on the three
    levels it returns a puzzle, whatever the random draws. *)
Theorem generate_puzzle_raises_iff_unknown :
  forall (difficulty : string) (g : Random.t),
    (PuzzleGenerator.generate_puzzle difficulty g = Raised
     <-> difficulty <> "Easy"%string /\ difficulty <> "Medium"%string
         /\ difficulty <> "Hard"%string)
    /\ ((exists p g',
           PuzzleGenerator.generate_puzzle difficulty g = Returned (p, g'))
        <-> difficulty = "Easy"%string \/ difficulty = "Medium"%string
            \/ difficulty = "Hard"%string).
Proof.
  intros difficulty g.
  pose proof (DIFFICULTY_RANGES_known difficulty) as Hknown.
  destruct (PuzzleGenerator.DIFFICULTY_RANGES difficulty) as [config | ]
    eqn:Hc.
  - destruct (generate_puzzle_returns difficulty config g Hc)
      as (p & g' & Hgen & _).
    assert (Hlevel : difficulty = "Easy"%string
                     \/ difficulty = "Medium"%string
                     \/ difficulty = "Hard"%string).
    { destruct (String.eqb_spec difficulty "Easy"); [tauto | ].
      destruct (String.eqb_spec difficulty "Medium"); [tauto | ].
      destruct (String.eqb_spec difficulty "Hard"); [tauto | ].
      assert (Hn : Some config = None) by (apply Hknown; tauto).
      discriminate Hn. }
    split; split; intro H.
    + rewrite Hgen in H. discriminate H.
    + exfalso. destruct H as (H1 & H2 & H3).
      destruct Hlevel as [ | [ | ] ]; contradiction.
    + exact Hlevel.
    + exists p, g'. exact Hgen.
  - assert (Hgen : PuzzleGenerator.generate_puzzle difficulty g = Raised).
    { unfold PuzzleGenerator.generate_puzzle. rewrite Hc. reflexivity. }
    assert (Hunknown : difficulty <> "Easy"%string
                       /\ difficulty <> "Medium"%string
                       /\ difficulty <> "Hard"%string)
      by (apply Hknown; reflexivity).
    split; split; intro H.
    + exact Hunknown.
    + exact Hgen.
    + destruct H as (p & g' & H). rewrite Hgen in H. discriminate H.
    + exfalso. destruct Hunknown as (H1 & H2 & H3).
      destruct H as [ | [ | ] ]; contradiction.
Qed.

(** X2. The answer stored in a generated puzzle is the value of its
    question: the sum, the product, the difference of the larger and the
    smaller operand (never negative), or for a division the exact quotient
    of the dividend by a divisor that is not zero.  The question text shows
    the two operands and the operation. *)
Theorem generate_puzzle_answer_is_right :
  forall (difficulty : string) (g g' : Random.t) (p : Puzzle.t),
    PuzzleGenerator.generate_puzzle difficulty g = Returned (p, g') ->
    let a := Puzzle.operand1 p in
    let b := Puzzle.operand2 p in
    Puzzle.question p
    = (str a ++ " " ++ Puzzle.operation p ++ " " ++ str b ++ " = ?")%string
    /\ (0 <= Puzzle.answer p)%Z
    /\ ((Puzzle.operation p = "+"%string /\ Puzzle.answer p = (a + b)%Z)
        \/ (Puzzle.operation p = "-"%string /\ (b <= a)%Z
            /\ Puzzle.answer p = (a - b)%Z)
        \/ (Puzzle.operation p = "×"%string /\ Puzzle.answer p = (a * b)%Z)
        \/ (Puzzle.operation p = "÷"%string /\ b <> 0%Z
            /\ (a mod b = 0)%Z /\ Puzzle.answer p = (a / b)%Z)).
Proof.
  intros difficulty g g' p Hgen a b.
  destruct (generate_puzzle_inversion _ _ _ _ Hgen) as (config & Hc & Hwf).
  destruct (DIFFICULTY_RANGES_valid _ _ Hc) as (Hr & _ & Hops).
  destruct Hwf as (_ & Hop & Hq & Hb & Hadd & Hsub & Hmul & Hdiv).
  fold a b in Hq, Hb, Hadd, Hsub, Hmul, Hdiv.
  split; [exact Hq | ].
  specialize (Hops _ Hop). unfold PuzzleGenerator.OPERATIONS in Hops.
  simpl in Hops.
  destruct Hops as [Ho | [Ho | [Ho | [Ho | [] ] ] ] ]; symmetry in Ho.
  - destruct (Hadd Ho) as (Ha & Hans). split; [lia | ]. left. tauto.
  - destruct (Hsub Ho) as (Ha & Hle & Hans). split; [lia | ].
    right. left. tauto.
  - destruct (Hmul Ho) as (Ha & Hans). split; [nia | ].
    right. right. left. tauto.
  - destruct (Hdiv Ho) as (Hans & Ha). split; [lia | ].
    right. right. right. split; [exact Ho | ].
    assert (Hb0 : b <> 0%Z) by lia.
    split; [exact Hb0 | ]. rewrite Ha. split.
    + apply Z.mod_mul. exact Hb0.
    + symmetry. apply Z.div_mul. exact Hb0.
Qed.

Lemma generate_puzzle_answer_is_right_witness :
  let p :=
    {| Puzzle.question := "1 + 1 = ?";
       Puzzle.operand1 := 1;
       Puzzle.operand2 := 1;
       Puzzle.operation := "+";
       Puzzle.answer := 2;
       Puzzle.difficulty := "Easy" |} in
  Puzzle.question p
  = (str 1 ++ " " ++ Puzzle.operation p ++ " " ++ str 1 ++ " = ?")%string
  /\ (0 <= Puzzle.answer p)%Z
  /\ ((Puzzle.operation p = "+"%string /\ Puzzle.answer p = (1 + 1)%Z)
      \/ (Puzzle.operation p = "-"%string /\ (1 <= 1)%Z
          /\ Puzzle.answer p = (1 - 1)%Z)
      \/ (Puzzle.operation p = "×"%string /\ Puzzle.answer p = (1 * 1)%Z)
      \/ (Puzzle.operation p = "÷"%string /\ 1%Z <> 0%Z
          /\ (1 mod 1 = 0)%Z /\ Puzzle.answer p = (1 / 1)%Z)).
Proof.
  exact (generate_puzzle_answer_is_right "Easy"
           {| Random.source := fun _ => 0%nat; Random.drawn := 0 |}
           {| Random.source := fun _ => 0%nat; Random.drawn := 3 |}
           _ eq_refl).
Defined.

Lemma DIFFICULTY_RANGES_max (difficulty : string) (config : Config.t) :
  PuzzleGenerator.DIFFICULTY_RANGES difficulty = Some config ->
  (9 <= Config.max config)%Z.
Proof.
  unfold PuzzleGenerator.DIFFICULTY_RANGES.
  destruct (difficulty =? "Easy")%string;
    [ | destruct (difficulty =? "Medium")%string;
        [ | destruct (difficulty =? "Hard")%string ] ];
    intro H; inversion H; subst; simpl; lia.
Qed.

(** X3. Operand and answer ranges of a generated puzzle: the second
    operand lies in the level's range; the first does too unless the puzzle
    is a division, whose dividend is a product of two numbers of the range;
    the answer lies between 0 and the square of the range's upper end.  An
    Easy puzzle is never a division, has operands from 1 to 9 and an answer
    from 0 to 81. *)
Theorem generate_puzzle_ranges :
  forall (difficulty : string) (g g' : Random.t) (p : Puzzle.t),
    PuzzleGenerator.generate_puzzle difficulty g = Returned (p, g') ->
    let a := Puzzle.operand1 p in
    let b := Puzzle.operand2 p in
    (exists config,
       PuzzleGenerator.DIFFICULTY_RANGES difficulty = Some config
       /\ (Config.min config <= b <= Config.max config)%Z
       /\ (Puzzle.operation p <> "÷"%string ->
           (Config.min config <= a <= Config.max config)%Z)
       /\ (Puzzle.operation p = "÷"%string ->
           (Config.min config * Config.min config <= a
            <= Config.max config * Config.max config)%Z
           /\ (Config.min config <= Puzzle.answer p <= Config.max config)%Z)
       /\ (0 <= Puzzle.answer p <= Config.max config * Config.max config)%Z)
    /\ (difficulty = "Easy"%string ->
        Puzzle.operation p <> "÷"%string
        /\ (1 <= a <= 9)%Z /\ (1 <= b <= 9)%Z
        /\ (0 <= Puzzle.answer p <= 81)%Z).
Proof.
  intros difficulty g g' p Hgen a b.
  destruct (generate_puzzle_inversion _ _ _ _ Hgen) as (config & Hc & Hwf).
  destruct (DIFFICULTY_RANGES_valid _ _ Hc) as (Hr & _ & Hops).
  destruct Hwf as (_ & Hop & _ & Hb & Hadd & Hsub & Hmul & Hdiv).
  fold a b in Hb, Hadd, Hsub, Hmul, Hdiv.
  pose proof (Hops _ Hop) as Hcase.
  pose proof (DIFFICULTY_RANGES_max _ _ Hc) as Hmax.
  unfold PuzzleGenerator.OPERATIONS in Hcase. simpl in Hcase.
  assert (Hgeneral :
    (Puzzle.operation p <> "÷"%string ->
     (Config.min config <= a <= Config.max config)%Z)
    /\ (Puzzle.operation p = "÷"%string ->
        (Config.min config * Config.min config <= a
         <= Config.max config * Config.max config)%Z
        /\ (Config.min config <= Puzzle.answer p <= Config.max config)%Z)
    /\ (0 <= Puzzle.answer p <= Config.max config * Config.max config)%Z).
  { destruct Hcase as [Ho | [Ho | [Ho | [Ho | [] ] ] ] ]; symmetry in Ho.
    - destruct (Hadd Ho) as (Ha & Hans).
      repeat split; intros; try lia; try (rewrite Ho in *; discriminate);
        nia.
    - destruct (Hsub Ho) as (Ha & Hle & Hans).
      repeat split; intros; try lia; try (rewrite Ho in *; discriminate);
        nia.
    - destruct (Hmul Ho) as (Ha & Hans).
      repeat split; intros; try lia; try (rewrite Ho in *; discriminate);
        nia.
    - destruct (Hdiv Ho) as (Hans & Ha).
      repeat split; intros; try lia; try contradiction; nia. }
  split.
  - exists config. tauto.
  - intros ->. unfold PuzzleGenerator.DIFFICULTY_RANGES in Hc. simpl in Hc.
    injection Hc as <-. simpl in *.
    assert (Hnd : Puzzle.operation p <> "÷"%string).
    { destruct Hop as [<- | [<- | [<- | [] ] ] ]; discriminate. }
    destruct Hgeneral as (Ha & _ & Hans). specialize (Ha Hnd).
    repeat split; try assumption; lia.
Qed.

Lemma generate_puzzle_ranges_witness :
  (exists config,
     PuzzleGenerator.DIFFICULTY_RANGES "Easy" = Some config
     /\ (Config.min config <= 1 <= Config.max config)%Z
     /\ ("+"%string <> "÷"%string ->
         (Config.min config <= 1 <= Config.max config)%Z)
     /\ ("+"%string = "÷"%string ->
         (Config.min config * Config.min config <= 1
          <= Config.max config * Config.max config)%Z
         /\ (Config.min config <= 2 <= Config.max config)%Z)
     /\ (0 <= 2 <= Config.max config * Config.max config)%Z)
  /\ ("Easy"%string = "Easy"%string ->
      "+"%string <> "÷"%string
      /\ (1 <= 1 <= 9)%Z /\ (1 <= 1 <= 9)%Z /\ (0 <= 2 <= 81)%Z).
Proof.
  exact (generate_puzzle_ranges "Easy"
           {| Random.source := fun _ => 0%nat; Random.drawn := 0 |}
           {| Random.source := fun _ => 0%nat; Random.drawn := 3 |}
           _ eq_refl).
Defined.

Lemma generate_n_returns (difficulty : string) (config : Config.t) :
  PuzzleGenerator.DIFFICULTY_RANGES difficulty = Some config ->
  forall (n : nat) (g : Random.t),
    exists ps g',
      PuzzleGenerator.generate_n difficulty n g = Returned (ps, g')
      /\ length ps = n
      /\ Forall (well_formed config difficulty) ps.
Proof.
  intros Hc. induction n as [ | n IH]; intro g.
  - exists [], g. repeat split. constructor.
  - destruct (generate_puzzle_returns difficulty config g Hc)
      as (p & g1 & Hgen & Hwf).
    destruct (IH g1) as (ps & g2 & Hrest & Hlen & Hall).
    exists (p :: ps), g2. simpl. rewrite Hgen. cbn [and_then].
    rewrite Hrest. cbn [and_then]. repeat split.
    + simpl. rewrite Hlen. reflexivity.
    + constructor; assumption.
Qed.

(** X4. [generate_multiple] returns exactly [count] puzzles of the
    requested level when the level is known.  A count of zero or less
    gives the empty list and draws nothing, even for an unknown level; a
    positive count with an unknown level raises. *)
Theorem generate_multiple_count :
  forall (difficulty : string) (count : Z) (g : Random.t),
    ((count <= 0)%Z ->
     PuzzleGenerator.generate_multiple difficulty count g = Returned ([], g))
    /\ ((0 < count)%Z ->
        PuzzleGenerator.DIFFICULTY_RANGES difficulty = None ->
        PuzzleGenerator.generate_multiple difficulty count g = Raised)
    /\ (forall config,
          PuzzleGenerator.DIFFICULTY_RANGES difficulty = Some config ->
          exists ps g',
            PuzzleGenerator.generate_multiple difficulty count g
            = Returned (ps, g')
            /\ Z.of_nat (length ps) = Z.max 0 count
            /\ Forall (fun p => Puzzle.difficulty p = difficulty
                                /\ well_formed config difficulty p) ps).
Proof.
  intros difficulty count g. unfold PuzzleGenerator.generate_multiple.
  split; [ | split ].
  - intro Hle. replace (Z.to_nat count) with 0%nat by lia. reflexivity.
  - intros Hpos Hnone.
    destruct (Z.to_nat count) as [ | n] eqn:Hn; [lia | ].
    simpl. unfold PuzzleGenerator.generate_puzzle. rewrite Hnone.
    reflexivity.
  - intros config Hc.
    destruct (generate_n_returns difficulty config Hc (Z.to_nat count) g)
      as (ps & g' & Hgen & Hlen & Hall).
    exists ps, g'. split; [exact Hgen | ]. split; [lia | ].
    apply Forall_impl with (2 := Hall).
    intros p Hwf. split; [ | exact Hwf]. destruct Hwf as (Hd & _). exact Hd.
Qed.

(** ** Level transitions *)

Lemma level_cases (level : string) :
  In level difficulty_order ->
  level = "Easy"%string \/ level = "Medium"%string \/ level = "Hard"%string.
Proof.
  unfold difficulty_order. simpl. intuition.
Qed.

Lemma engine_guards_any_level (engine : AdaptiveEngine.t) (m : Metrics.t)
    (level : string) :
  (AdaptiveEngine.get_next_action engine m level = increase ->
   level <> "Hard"%string)
  /\ (AdaptiveEngine.get_next_action engine m level = decrease ->
      level <> "Easy"%string).
Proof.
  destruct (get_next_action_guards engine m) as [HH HE].
  split; intros Ha ->; [apply HH | apply HE]; exact Ha.
Qed.

Lemma stepwise_snoc (a b : string) :
  forall xs : list string,
    stepwise (xs ++ [a]) -> one_step a b -> stepwise (xs ++ [a; b]).
Proof.
  induction xs as [ | x xs IH]; intros Hs Hab.
  - simpl. tauto.
  - destruct xs as [ | y ys].
    + simpl in *. tauto.
    + change ((x :: y :: ys) ++ [a; b])
        with (x :: ((y :: ys) ++ [a; b])).
      change ((x :: y :: ys) ++ [a]) with (x :: ((y :: ys) ++ [a])) in Hs.
      simpl in Hs. destruct Hs as [Hxy Hrest].
      simpl. split; [exact Hxy | ].
      apply IH; assumption.
Qed.

Section Adaptation.

Import AdaptiveLearningSession.

Variable self : t.

Lemma adapt_returns :
  In (current_difficulty self) difficulty_order ->
  let level := level_after (recommended self) (current_difficulty self) in
  adapt self
  = Returned (match recommended self with
              | maintain => self
              | _ => set_difficulty self level
              end)
  /\ In level difficulty_order
  /\ (recommended self <> maintain ->
      one_step (current_difficulty self) level).
Proof.
  intros Hin level. unfold level, recommended, adapt.
  destruct (2 <=? question_count self)%nat;
    [ | simpl; repeat split; [exact Hin | congruence] ].
  destruct (engine_guards_any_level (adaptive_engine self)
              (PerformanceTracker.get_current_metrics (tracker self))
              (current_difficulty self)) as [Hinc Hdec].
  unfold _increase_difficulty, _decrease_difficulty.
  destruct (AdaptiveEngine.get_next_action _ _ _);
    destruct (level_cases _ Hin) as [He | [He | He] ];
    rewrite He in *; simpl;
    try (exfalso; apply Hinc; reflexivity);
    try (exfalso; apply Hdec; reflexivity);
    repeat split; try (intros; congruence);
    unfold difficulty_order, one_step; simpl; tauto.
Qed.

End Adaptation.

(** X5. The session carries out every recommendation of the engine.  Before
    the second question nothing is adapted.  From then on, at a level of
    Easy, Medium, Hard: [increase] moves exactly one level up and
    [decrease] exactly one level down, the new level is appended to the
    history, and [maintain] leaves the session as it is.  The session's own
    Hard and Easy guards never have to suppress a recommendation and the
    level lookups never raise. *)
Theorem session_follows_engine :
  forall self : AdaptiveLearningSession.t,
    let current := AdaptiveLearningSession.current_difficulty self in
    ((AdaptiveLearningSession.question_count self < 2)%nat ->
     AdaptiveLearningSession.adapt self = Returned self)
    /\ (In current difficulty_order ->
        exists self',
          AdaptiveLearningSession.adapt self = Returned self'
          /\ (recommended self = maintain -> self' = self)
          /\ (recommended self = increase ->
              (current = "Easy"%string
               /\ AdaptiveLearningSession.current_difficulty self'
                  = "Medium"%string
               \/ current = "Medium"%string
                  /\ AdaptiveLearningSession.current_difficulty self'
                     = "Hard"%string)
              /\ AdaptiveLearningSession.difficulty_history self'
                 = AdaptiveLearningSession.difficulty_history self
                   ++ [AdaptiveLearningSession.current_difficulty self'])
          /\ (recommended self = decrease ->
              (current = "Medium"%string
               /\ AdaptiveLearningSession.current_difficulty self'
                  = "Easy"%string
               \/ current = "Hard"%string
                  /\ AdaptiveLearningSession.current_difficulty self'
                     = "Medium"%string)
              /\ AdaptiveLearningSession.difficulty_history self'
                 = AdaptiveLearningSession.difficulty_history self
                   ++ [AdaptiveLearningSession.current_difficulty self'])).
Proof.
  intros self current. split.
  - intro Hlt. unfold AdaptiveLearningSession.adapt.
    destruct (Nat.leb_spec 2 (AdaptiveLearningSession.question_count self));
      [lia | reflexivity].
  - intro Hin. destruct (adapt_returns self Hin) as (Hadapt & _ & _).
    eexists. split; [exact Hadapt | ].
    pose proof (engine_guards_any_level
                  (AdaptiveLearningSession.adaptive_engine self)
                  (PerformanceTracker.get_current_metrics
                     (AdaptiveLearningSession.tracker self))
                  current) as [Hinc Hdec].
    assert (Hrec : forall a, recommended self = a -> a <> maintain ->
              AdaptiveEngine.get_next_action
                (AdaptiveLearningSession.adaptive_engine self)
                (PerformanceTracker.get_current_metrics
                   (AdaptiveLearningSession.tracker self)) current = a).
    { intros a Ha Hne. unfold recommended in Ha. fold current in Ha.
      destruct (2 <=? AdaptiveLearningSession.question_count self)%nat;
        [exact Ha | congruence]. }
    split; [ | split ].
    + intros ->. reflexivity.
    + intro Hr. rewrite Hr. simpl.
      specialize (Hinc (Hrec _ Hr ltac:(discriminate))).
      fold current.
      destruct (level_cases _ Hin) as [He | [He | He] ];
        rewrite He in *; simpl; try tauto; split; tauto || reflexivity.
    + intro Hr. rewrite Hr. simpl.
      specialize (Hdec (Hrec _ Hr ltac:(discriminate))).
      fold current.
      destruct (level_cases _ Hin) as [He | [He | He] ];
        rewrite He in *; simpl; try tauto; split; tauto || reflexivity.
Qed.

(** ** Sessions *)

Lemma known_level_config (level : string) :
  In level difficulty_order ->
  exists config, PuzzleGenerator.DIFFICULTY_RANGES level = Some config.
Proof.
  intro Hin. destruct (level_cases _ Hin) as [-> | [-> | ->] ];
    eexists; reflexivity.
Qed.

Lemma recommended_needs_two (self : AdaptiveLearningSession.t) :
  recommended self <> maintain ->
  (2 <= AdaptiveLearningSession.question_count self)%nat.
Proof.
  unfold recommended.
  destruct (Nat.leb_spec 2 (AdaptiveLearningSession.question_count self));
    [lia | congruence].
Qed.

Section Turn.

Import AdaptiveLearningSession.

Variables (initial : string) (self : t) (g : Random.t).

Hypothesis Hok : session_ok initial self.

(** A turn in which no number was typed: only the question count moves. *)
Lemma invalid_turn (response_time : Q) :
  exists puzzle g',
    PuzzleGenerator.generate_puzzle (current_difficulty self) g
    = Returned (puzzle, g')
    /\ _present_puzzle self g (Line None) response_time
       = Returned
           ({| user_name := user_name self;
               current_difficulty := current_difficulty self;
               adaptation_mode := adaptation_mode self;
               tracker := tracker self;
               adaptive_engine := adaptive_engine self;
               question_count := question_count self + 1;
               responses := responses self;
               difficulty_history := difficulty_history self;
               running := running self |}, g').
Proof.
  destruct Hok as (Hin & _).
  destruct (known_level_config _ Hin) as (config & Hc).
  destruct (generate_puzzle_returns _ config g Hc) as (p & g' & Hgen & _).
  exists p, g'. split; [exact Hgen | ].
  unfold _present_puzzle. rewrite Hgen. reflexivity.
Qed.

(** What a turn leaves behind. *)
Lemma turn_preserves (typed : option Q) (response_time : Q) :
  exists self' g',
    _present_puzzle self g (Line typed) response_time = Returned (self', g')
    /\ session_ok initial self'
    /\ question_count self' = S (question_count self)
    /\ user_name self' = user_name self
    /\ adaptation_mode self' = adaptation_mode self
    /\ adaptive_engine self' = adaptive_engine self
    /\ map (fun r => (r_user_answer r, r_response_time r)) (responses self')
       = map (fun r => (r_user_answer r, r_response_time r)) (responses self)
         ++ answered [(Line typed, response_time)].
Proof.
  destruct typed as [user_answer | ].
  - pose proof Hok as (Hin & (earlier & Hhist) & Hhd & Hstep & Hb1 & Hb2
                       & Hb3 & events & Htr & Hev & Hlv).
    destruct (known_level_config _ Hin) as (config & Hc).
    destruct (generate_puzzle_returns _ config g Hc) as (p & g' & Hgen & _).
    unfold _present_puzzle. rewrite Hgen. cbn [and_then].
    set (is_correct := check_answer user_answer p).
    set (s1 := {| user_name := user_name self;
                  current_difficulty := current_difficulty self;
                  adaptation_mode := adaptation_mode self;
                  tracker :=
                    PerformanceTracker.record_response (tracker self) p
                      user_answer is_correct response_time
                      (current_difficulty self);
                  adaptive_engine := adaptive_engine self;
                  question_count := question_count self + 1;
                  responses :=
                    responses self
                    ++ [ {| r_puzzle := p;
                            r_user_answer := user_answer;
                            r_is_correct := is_correct;
                            r_response_time := response_time |} ];
                  difficulty_history := difficulty_history self;
                  running := running self |}).
    assert (Hin1 : In (current_difficulty s1) difficulty_order) by exact Hin.
    destruct (adapt_returns s1 Hin1) as (Hadapt & Hlevel & Hone).
    rewrite Hadapt. cbn [and_then].
    set (e := {| ev_puzzle := p;
                 ev_user_answer := user_answer;
                 ev_is_correct := is_correct;
                 ev_response_time := response_time;
                 ev_difficulty := current_difficulty self |}).
    assert (Htr1 : tracker s1
                   = tracker_after (user_name self) (adaptation_mode self)
                       (events ++ [e])).
    { unfold tracker_after. rewrite replay_snoc.
      change (PerformanceTracker.replay
                (PerformanceTracker.__init__ (user_name self)
                   (adaptation_mode self)) events)
        with (tracker_after (user_name self) (adaptation_mode self) events).
      rewrite <- Htr. reflexivity. }
    assert (Hev1 :
      map (fun e => (ev_user_answer e, ev_is_correct e, ev_response_time e))
          (events ++ [e])
      = map (fun r => (r_user_answer r, r_is_correct r, r_response_time r))
            (responses s1)).
    { simpl. rewrite !map_app, Hev. reflexivity. }
    assert (Hlv1 : Forall (fun e => In (ev_difficulty e) difficulty_order)
                     (events ++ [e])).
    { apply Forall_app. split; [exact Hlv | ].
      constructor; [exact Hin | constructor]. }
    assert (Hlen1 : length (responses s1) = S (length (responses self))).
    { simpl. rewrite length_app. simpl. lia. }
    assert (Hanswers :
      map (fun r => (r_user_answer r, r_response_time r)) (responses s1)
      = map (fun r => (r_user_answer r, r_response_time r)) (responses self)
        ++ answered [(Line (Some user_answer), response_time)]).
    { simpl. rewrite map_app. reflexivity. }
    assert (Hmoved : recommended s1 <> maintain ->
              session_ok initial
                (set_difficulty s1
                   (level_after (recommended s1) (current_difficulty s1)))).
    { intro Hne. pose proof (recommended_needs_two s1 Hne) as Htwo.
      specialize (Hone Hne). unfold session_ok.
      cbn [set_difficulty current_difficulty difficulty_history responses
           question_count tracker user_name adaptation_mode].
      split; [exact Hlevel | ].
      split; [eexists; reflexivity | ].
      split; [ | split; [ | split; [ | split; [ | split ] ] ] ].
      - unfold s1. cbn [difficulty_history]. rewrite Hhist, <- app_assoc.
        rewrite Hhist in Hhd. destruct earlier; exact Hhd.
      - unfold s1 at 1. cbn [difficulty_history].
        rewrite Hhist, <- app_assoc. apply stepwise_snoc.
        + rewrite <- Hhist. exact Hstep.
        + exact Hone.
      - rewrite length_app, Hlen1. unfold s1. cbn [difficulty_history length].
        lia.
      - rewrite length_app. unfold s1 in *.
        cbn [difficulty_history length question_count] in *. lia.
      - rewrite Hlen1. unfold s1. cbn [question_count]. lia.
      - exists (events ++ [e]). repeat split; assumption. }
    assert (Hstayed : session_ok initial s1).
    { unfold session_ok. split; [exact Hin | ].
      split; [exists earlier; exact Hhist | ].
      split; [exact Hhd | ]. split; [exact Hstep | ].
      split; [ | split; [ | split ] ].
      - rewrite Hlen1. unfold s1. cbn [difficulty_history]. lia.
      - unfold s1. cbn [difficulty_history question_count]. lia.
      - rewrite Hlen1. unfold s1. cbn [question_count]. lia.
      - exists (events ++ [e]). repeat split; assumption. }
    assert (Hcount : question_count s1 = S (question_count self))
      by (unfold s1; cbn [question_count]; lia).
    destruct (recommended s1) eqn:Hrec.
    + eexists _, g'. split; [reflexivity | ].
      split; [apply Hmoved; discriminate | ].
      repeat split; try reflexivity; try exact Hcount; exact Hanswers.
    + exists s1, g'. split; [reflexivity | ].
      split; [exact Hstayed | ].
      repeat split; try reflexivity; try exact Hcount; exact Hanswers.
    + eexists _, g'. split; [reflexivity | ].
      split; [apply Hmoved; discriminate | ].
      repeat split; try reflexivity; try exact Hcount; exact Hanswers.
  - destruct (invalid_turn response_time) as (p & g' & _ & Hturn).
    eexists _, g'. split; [exact Hturn | ].
    destruct Hok as (Hin & Hhist & Hhd & Hstep & Hb1 & Hb2 & Hb3 & Hev).
    split.
    + unfold session_ok.
      cbn [current_difficulty difficulty_history responses question_count
           tracker user_name adaptation_mode].
      repeat split; try assumption; lia.
    + cbn [question_count user_name adaptation_mode adaptive_engine
           responses answered flat_map].
      rewrite app_nil_r. repeat split; try reflexivity. lia.
Qed.

End Turn.

Lemma end_of_input_cases (turns : list (Input * Q)) :
  In EndOfInput (map fst turns) \/ ~ In EndOfInput (map fst turns).
Proof.
  induction turns as [ | [ [ | typed] time] turns IH].
  - right. intros [].
  - left. left. reflexivity.
  - destruct IH as [Hyes | Hno]; [left; right; exact Hyes | ].
    right. intros [Hhere | Hlater]; [discriminate Hhere | exact (Hno Hlater)].
Qed.

(** The end of the input ends the session with its [EOFError]. *)
Lemma play_end_of_input :
  forall (turns : list (Input * Q)) (self : AdaptiveLearningSession.t)
         (g : Random.t),
    In EndOfInput (map fst turns) -> play self g turns = Raised.
Proof.
  induction turns as [ | [typed time] turns IH]; intros self g Hin;
    [contradiction | ].
  cbn [play].
  destruct (AdaptiveLearningSession._present_puzzle self g typed time)
    as [ [s1 g1] | ] eqn:Hturn; [ | reflexivity].
  cbn [and_then]. destruct Hin as [Hhere | Hlater].
  - simpl in Hhere. subst typed.
    unfold AdaptiveLearningSession._present_puzzle in Hturn.
    destruct (PuzzleGenerator.generate_puzzle _ g) as [ [p g0] | ];
      discriminate Hturn.
  - apply IH. exact Hlater.
Qed.

Lemma play_preserves (initial : string) :
  forall (turns : list (Input * Q)) (self : AdaptiveLearningSession.t)
         (g : Random.t),
    ~ In EndOfInput (map fst turns) ->
    session_ok initial self ->
    exists self' g',
      play self g turns = Returned (self', g')
      /\ session_ok initial self'
      /\ AdaptiveLearningSession.question_count self'
         = (AdaptiveLearningSession.question_count self + length turns)%nat
      /\ map (fun r => (r_user_answer r, r_response_time r))
             (AdaptiveLearningSession.responses self')
         = map (fun r => (r_user_answer r, r_response_time r))
               (AdaptiveLearningSession.responses self)
           ++ answered turns.
Proof.
  induction turns as [ | [typed time] turns IH]; intros self g Hlines Hok.
  - exists self, g. simpl. rewrite app_nil_r.
    split; [reflexivity | ]. split; [exact Hok | ].
    split; [lia | reflexivity].
  - destruct typed as [ | typed];
      [exfalso; apply Hlines; left; reflexivity | ].
    assert (Hrest : ~ In EndOfInput (map fst turns))
      by (intro Hin; apply Hlines; right; exact Hin).
    destruct (turn_preserves initial self g Hok typed time)
      as (s1 & g1 & Hturn & Hok1 & Hcount & _ & _ & _ & Hans).
    destruct (IH s1 g1 Hrest Hok1)
      as (s2 & g2 & Hplay & Hok2 & Hcount2 & Hans2).
    exists s2, g2. cbn [play]. rewrite Hturn. cbn [and_then].
    split; [exact Hplay | ]. split; [exact Hok2 | ]. split.
    + rewrite Hcount2, Hcount. simpl. lia.
    + rewrite Hans2, Hans. rewrite <- app_assoc. f_equal.
      unfold answered. simpl. rewrite app_nil_r. reflexivity.
Qed.

Lemma session_ok_init (engine : AdaptiveEngine.t)
    (user level mode : string) :
  In level difficulty_order ->
  session_ok level (AdaptiveLearningSession.__init__ engine user level mode).
Proof.
  intro Hin. unfold session_ok. simpl.
  repeat split; try assumption; try lia.
  - exists []. reflexivity.
  - exists []. repeat split. constructor.
Qed.

(** X6. A command-line session started at Easy, Medium or Hard raises
    exactly when the input ends at a prompt for an answer (the [EOFError]
    of [input]); whatever else is typed and drawn, it goes on.  After any
    number of turns the question count is the number of turns, while the
    session and the tracker hold one response for each turn in which a
    number was typed, in order; the current level is one of the three and
    is the last entry of the history, which starts at the initial level,
    moves one level at a time, and has at most one entry more than there
    are responses and no more entries than turns (one entry before the
    second turn). *)
Theorem session_invariants :
  forall (engine : AdaptiveEngine.t) (user level mode : string)
         (g : Random.t) (turns : list (Input * Q)),
    In level difficulty_order ->
    let self := AdaptiveLearningSession.__init__ engine user level mode in
    (play self g turns = Raised <-> In EndOfInput (map fst turns))
    /\ (~ In EndOfInput (map fst turns) ->
        exists self' g',
          play self g turns = Returned (self', g')
          /\ AdaptiveLearningSession.question_count self' = length turns
          /\ map (fun r => (r_user_answer r, r_response_time r))
                 (AdaptiveLearningSession.responses self')
             = answered turns
          /\ map (fun r => (user_answer r, is_correct r, response_time r))
                 (PerformanceTracker.responses
                    (AdaptiveLearningSession.tracker self'))
             = map (fun r =>
                      (r_user_answer r, r_is_correct r, r_response_time r))
                   (AdaptiveLearningSession.responses self')
          /\ Forall (fun r => In (difficulty r) difficulty_order)
               (PerformanceTracker.responses
                  (AdaptiveLearningSession.tracker self'))
          /\ In (AdaptiveLearningSession.current_difficulty self')
                difficulty_order
          /\ hd_error (AdaptiveLearningSession.difficulty_history self')
             = Some level
          /\ last (AdaptiveLearningSession.difficulty_history self') level
             = AdaptiveLearningSession.current_difficulty self'
          /\ stepwise (AdaptiveLearningSession.difficulty_history self')
          /\ (length (AdaptiveLearningSession.difficulty_history self')
              <= S (length (answered turns)))%nat
          /\ (length (AdaptiveLearningSession.difficulty_history self')
              <= Nat.max 1 (length turns))%nat).
Proof.
  intros engine user level mode g turns Hin self.
  assert (Hgoes :
    ~ In EndOfInput (map fst turns) ->
    exists s g',
      play self g turns = Returned (s, g')
      /\ session_ok level s
      /\ AdaptiveLearningSession.question_count s = length turns
      /\ map (fun r => (r_user_answer r, r_response_time r))
             (AdaptiveLearningSession.responses s)
         = answered turns).
  { intro Hlines.
    destruct (play_preserves level turns self g Hlines
                (session_ok_init engine user level mode Hin))
      as (s & g' & Hplay & Hok & Hcount & Hans).
    exists s, g'. split; [exact Hplay | ]. split; [exact Hok | ].
    split; [exact Hcount | exact Hans]. }
  split.
  - split; [ | apply play_end_of_input].
    intro Hraised.
    destruct (end_of_input_cases turns) as [Hyes | Hno]; [exact Hyes | ].
    destruct (Hgoes Hno) as (s & g' & Hplay & _).
    rewrite Hplay in Hraised. discriminate Hraised.
  - intro Hlines.
    destruct (Hgoes Hlines) as (s & g' & Hplay & Hok & Hcount & Hans).
    destruct Hok as (Hcur & (earlier & Hhist) & Hhd & Hstep & Hb1 & Hb2
                     & Hb3 & events & Htr & Hev & Hlv).
    exists s, g'. split; [exact Hplay | ]. split; [exact Hcount | ].
    split; [exact Hans | ].
    assert (Hevents :
      map event_of
        (PerformanceTracker.responses (AdaptiveLearningSession.tracker s))
      = events).
    { rewrite Htr. apply events_of_tracker. }
    split; [ | split; [ | split; [ | split; [ | split; [ | split ] ] ] ] ].
    + rewrite <- Hev, <- Hevents, map_map. reflexivity.
    + rewrite <- Hevents in Hlv. rewrite Forall_map in Hlv. exact Hlv.
    + exact Hcur.
    + exact Hhd.
    + rewrite Hhist. apply last_last.
    + exact Hstep.
    + split.
      * apply (f_equal (@length _)) in Hans. rewrite !length_map in Hans.
        rewrite <- Hans. exact Hb1.
      * rewrite <- Hcount. exact Hb2.
Qed.

Lemma session_invariants_witness :
  In "Easy"%string difficulty_order
  /\ (play (AdaptiveLearningSession.__init__
              {| AdaptiveEngine.mode := "rule_based";
                 AdaptiveEngine.model := None;
                 AdaptiveEngine.is_trained := false |}
              "Ada" "Easy" "rule_based")
           {| Random.source := fun _ => 0%nat; Random.drawn := 0 |}
           [(Line (Some 2), 3); (Line None, 1); (EndOfInput, 0)]
      = Raised
      <-> In EndOfInput
            (map fst [(Line (Some 2), 3); (Line None, 1); (EndOfInput, 0)])).
Proof.
  assert (Hin : In "Easy"%string difficulty_order) by (simpl; tauto).
  split; [exact Hin | ].
  exact (proj1
           (session_invariants
              {| AdaptiveEngine.mode := "rule_based";
                 AdaptiveEngine.model := None;
                 AdaptiveEngine.is_trained := false |}
              "Ada" "Easy" "rule_based"
              {| Random.source := fun _ => 0%nat; Random.drawn := 0 |}
              [(Line (Some 2), 3); (Line None, 1); (EndOfInput, 0)] Hin)).
Defined.

(** X7. Whatever state a session is in, a turn raises exactly when the
    current level is none of Easy, Medium and Hard (the generator's
    [KeyError]) or the input is at its end (the [EOFError] of [input]); at
    a known level and with a line to read it returns, whether or not the
    line is a number. *)
Theorem present_puzzle_raises_iff_unknown_level :
  forall (self : AdaptiveLearningSession.t) (g : Random.t)
         (typed : Input) (response_time : Q),
    AdaptiveLearningSession._present_puzzle self g typed response_time
    = Raised
    <-> ~ In (AdaptiveLearningSession.current_difficulty self)
             difficulty_order
        \/ typed = EndOfInput.
Proof.
  intros self g typed response_time. split.
  - intro Hraised.
    destruct typed as [ | typed]; [right; reflexivity | ].
    left. intro Hin.
    destruct (known_level_config _ Hin) as (config & Hc).
    destruct (generate_puzzle_returns _ config g Hc) as (p & g' & Hgen & _).
    unfold AdaptiveLearningSession._present_puzzle in Hraised.
    rewrite Hgen in Hraised. cbn [and_then] in Hraised.
    destruct typed as [user_answer | ]; [ | discriminate Hraised].
    match type of Hraised with
    | and_then (AdaptiveLearningSession.adapt ?s1) _ = _ =>
        destruct (adapt_returns s1 Hin) as (Hadapt & _);
        rewrite Hadapt in Hraised
    end.
    discriminate Hraised.
  - intros [Hnot | ->].
    + assert (Hnone : PuzzleGenerator.DIFFICULTY_RANGES
                        (AdaptiveLearningSession.current_difficulty self)
                      = None).
      { apply DIFFICULTY_RANGES_known. unfold difficulty_order in Hnot.
        simpl in Hnot.
        repeat split; intro He; apply Hnot; rewrite He; auto. }
      unfold AdaptiveLearningSession._present_puzzle,
        PuzzleGenerator.generate_puzzle.
      rewrite Hnone. reflexivity.
    + unfold AdaptiveLearningSession._present_puzzle.
      destruct (PuzzleGenerator.generate_puzzle _ g) as [ [p g0] | ];
        reflexivity.
Qed.

(** ** The web app *)

Lemma generated_level_known (level : string) (g g' : Random.t)
    (p : Puzzle.t) :
  PuzzleGenerator.generate_puzzle level g = Returned (p, g') ->
  In level difficulty_order.
Proof.
  intro Hgen.
  destruct (generate_puzzle_inversion _ _ _ _ Hgen) as (config & Hc & _).
  unfold PuzzleGenerator.DIFFICULTY_RANGES in Hc.
  unfold difficulty_order. simpl.
  destruct (String.eqb_spec level "Easy"); [auto | ].
  destruct (String.eqb_spec level "Medium"); [auto | ].
  destruct (String.eqb_spec level "Hard"); [auto | discriminate Hc].
Qed.

(** X8. The web app's handler is the command-line turn with the response
    time fixed at 2 seconds: on the puzzle the generator returns, both
    leave the same session (tracker, responses, count, level, history), and
    the one raises when the other does. *)
Theorem app_submit_is_cli_turn :
  forall (self : AdaptiveLearningSession.t) (g g' : Random.t)
         (puzzle : Puzzle.t) (user_answer : Q),
    PuzzleGenerator.generate_puzzle
      (AdaptiveLearningSession.current_difficulty self) g
    = Returned (puzzle, g') ->
    AdaptiveLearningSession._present_puzzle self g (Line (Some user_answer)) 2
    = (session <- App.submit self puzzle user_answer ;;
       Returned (session, g')).
Proof.
  intros self g g' puzzle user_answer Hgen.
  pose proof (generated_level_known _ _ _ _ Hgen) as Hin.
  unfold AdaptiveLearningSession._present_puzzle. rewrite Hgen.
  cbn [and_then]. unfold App.submit, AdaptiveLearningSession.adapt.
  cbn [AdaptiveLearningSession.question_count
       AdaptiveLearningSession.current_difficulty
       AdaptiveLearningSession.tracker
       AdaptiveLearningSession.adaptive_engine].
  destruct (2 <=? AdaptiveLearningSession.question_count self + 1)%nat;
    [ | reflexivity].
  destruct (engine_guards_any_level
              (AdaptiveLearningSession.adaptive_engine self)
              (PerformanceTracker.get_current_metrics
                 (PerformanceTracker.record_response
                    (AdaptiveLearningSession.tracker self) puzzle
                    user_answer (check_answer user_answer puzzle) 2
                    (AdaptiveLearningSession.current_difficulty self)))
              (AdaptiveLearningSession.current_difficulty self))
    as [Hinc Hdec].
  unfold AdaptiveLearningSession._increase_difficulty,
    AdaptiveLearningSession._decrease_difficulty.
  cbn [AdaptiveLearningSession.current_difficulty].
  destruct (AdaptiveEngine.get_next_action _ _ _);
    destruct (level_cases _ Hin) as [He | [He | He] ];
    rewrite He in *;
    try (exfalso; apply Hinc; reflexivity);
    try (exfalso; apply Hdec; reflexivity);
    reflexivity.
Qed.

Lemma app_submit_is_cli_turn_witness :
  let engine :=
    {| AdaptiveEngine.mode := "rule_based";
       AdaptiveEngine.model := None;
       AdaptiveEngine.is_trained := false |} in
  let self :=
    AdaptiveLearningSession.__init__ engine "Ada" "Easy" "rule_based" in
  let g := {| Random.source := fun _ => 0%nat; Random.drawn := 0 |} in
  let g' := {| Random.source := fun _ => 0%nat; Random.drawn := 3 |} in
  let puzzle :=
    {| Puzzle.question := "1 + 1 = ?";
       Puzzle.operand1 := 1;
       Puzzle.operand2 := 1;
       Puzzle.operation := "+";
       Puzzle.answer := 2;
       Puzzle.difficulty := "Easy" |} in
  AdaptiveLearningSession._present_puzzle self g (Line (Some 2)) 2
  = (session <- App.submit self puzzle 2 ;; Returned (session, g')).
Proof.
  exact (app_submit_is_cli_turn
           (AdaptiveLearningSession.__init__
              {| AdaptiveEngine.mode := "rule_based";
                 AdaptiveEngine.model := None;
                 AdaptiveEngine.is_trained := false |}
              "Ada" "Easy" "rule_based")
           {| Random.source := fun _ => 0%nat; Random.drawn := 0 |}
           {| Random.source := fun _ => 0%nat; Random.drawn := 3 |}
           _ 2 eq_refl).
Defined.

Lemma Qnat_S (n : nat) : Qnat (S n) == Qnat n + 1.
Proof.
  unfold Qnat. rewrite Nat2Z.inj_succ, <- Z.add_1_r, inject_Z_plus.
  reflexivity.
Qed.

Lemma sum_const (c : Q) (xs : list Q) :
  (forall x, In x xs -> x = c) -> sum xs == c * Qnat (length xs).
Proof.
  induction xs as [ | x xs IH] using rev_ind; intro Hall.
  - unfold sum, Qnat. simpl. ring.
  - rewrite sum_snoc, length_app. simpl length.
    rewrite Nat.add_1_r, Qnat_S, IH.
    + rewrite (Hall x) by (apply in_or_app; right; left; reflexivity). ring.
    + intros y Hy. apply Hall. apply in_or_app. left. exact Hy.
Qed.

Lemma mean_const (c : Q) (xs : list Q) :
  xs <> [] -> (forall x, In x xs -> x = c) -> mean xs == c.
Proof.
  intros Hne Hall. unfold mean. rewrite (sum_const c xs Hall).
  assert (Hpos : ~ Qnat (length xs) == 0).
  { destruct xs as [ | x xs]; [contradiction | ].
    unfold Qnat, Qeq. simpl. lia. }
  field. exact Hpos.
Qed.

Lemma trend_of_snapshot (events : list AnswerEvent) :
  let times := map ev_response_time events in
  Metrics.response_time_trend (snapshot events) =
    if (length events <=? 3)%nat then stable
    else if Qlt_bool (mean (but_last_n 3 times) * (12 # 10))
                     (mean (last_n 3 times))
    then slowing
    else if Qlt_bool (mean (last_n 3 times))
                     (mean (but_last_n 3 times) * (8 # 10))
    then improving
    else stable.
Proof.
  intro times. unfold snapshot, PerformanceTracker.get_current_metrics.
  rewrite tracker_after_length.
  destruct (tracker_after_state "" "" events) as (_ & Ht & _).
  destruct events as [ | e events]; [reflexivity | ].
  cbn [length Nat.eqb Metrics.response_time_trend].
  rewrite trend_of_times, Ht, length_map. reflexivity.
Qed.

Section AppSession.

Import AdaptiveLearningSession.

Lemma app_submit_tracker (session session' : t) (puzzle : Puzzle.t)
    (user_answer : Q) :
  App.submit session puzzle user_answer = Returned session' ->
  tracker session'
  = PerformanceTracker.record_response (tracker session) puzzle user_answer
      (check_answer user_answer puzzle) 2 (current_difficulty session)
  /\ user_name session' = user_name session
  /\ adaptation_mode session' = adaptation_mode session.
Proof.
  unfold App.submit.
  cbn [question_count current_difficulty tracker adaptive_engine].
  destruct (2 <=? question_count session + 1)%nat.
  - destruct (Action_eqb _ increase && _).
    + destruct (raise_if_missing (index_of _ _ _)) as [i | ];
        [ | discriminate]. cbn [and_then].
      destruct (raise_if_missing (item _ _)) as [level | ];
        [ | discriminate]. cbn [and_then].
      intro H. injection H as <-. repeat split.
    + destruct (Action_eqb _ decrease && _).
      * destruct (raise_if_missing (index_of _ _ _)) as [i | ];
          [ | discriminate]. cbn [and_then].
        destruct (raise_if_missing (item _ _)) as [level | ];
          [ | discriminate]. cbn [and_then].
        intro H. injection H as <-. repeat split.
      * intro H. injection H as <-. repeat split.
  - intro H. injection H as <-. repeat split.
Qed.

Lemma app_play_tracker :
  forall (inputs : list (Puzzle.t * Q)) (session session' : t)
         (events : list AnswerEvent),
    tracker session
    = tracker_after (user_name session) (adaptation_mode session) events ->
    app_play session inputs = Returned session' ->
    exists events',
      tracker session'
      = tracker_after (user_name session) (adaptation_mode session)
          (events ++ events')
      /\ length events' = length inputs
      /\ Forall (fun e => ev_response_time e = 2) events'.
Proof.
  induction inputs as [ | [puzzle user_answer] inputs IH];
    intros session session' events Htr Hplay.
  - simpl in Hplay. injection Hplay as <-. exists [].
    rewrite app_nil_r. repeat split; [exact Htr | constructor].
  - cbn [app_play] in Hplay.
    destruct (App.submit session puzzle user_answer) as [s1 | ] eqn:Hsub;
      [ | discriminate Hplay].
    cbn [and_then] in Hplay.
    destruct (app_submit_tracker _ _ _ _ Hsub) as (Ht1 & Hu & Hm).
    set (e := {| ev_puzzle := puzzle;
                 ev_user_answer := user_answer;
                 ev_is_correct := check_answer user_answer puzzle;
                 ev_response_time := 2;
                 ev_difficulty := current_difficulty session |}).
    assert (Htr1 : tracker s1
                   = tracker_after (user_name s1) (adaptation_mode s1)
                       (events ++ [e])).
    { rewrite Ht1, Hu, Hm, Htr. unfold tracker_after.
      rewrite replay_snoc. reflexivity. }
    destruct (IH s1 session' (events ++ [e]) Htr1 Hplay)
      as (events' & Htr' & Hlen & Hall).
    exists (e :: events'). rewrite Hu, Hm in Htr'.
    rewrite <- app_assoc in Htr'. split; [exact Htr' | ].
    split; [simpl; rewrite Hlen; reflexivity | ].
    constructor; [reflexivity | exact Hall].
Qed.

End AppSession.

(** X9. In the web app every response is recorded with a response time of
    2 seconds.  So after any answered question the snapshot's average
    response time is 2 and its trend is [stable], and the time thresholds
    of the Threshold Policy never decide: it recommends [increase] exactly
    when accuracy >= 80, streak >= 2 and the level is not Hard, and
    [decrease] exactly when accuracy < 60 and the level is not Easy. *)
Theorem app_time_thresholds_inert :
  forall (engine : AdaptiveEngine.t) (user level mode : string)
         (inputs : list (Puzzle.t * Q))
         (session' : AdaptiveLearningSession.t),
    app_play (AdaptiveLearningSession.__init__ engine user level mode) inputs
    = Returned session' ->
    inputs <> [] ->
    let m :=
      PerformanceTracker.get_current_metrics
        (AdaptiveLearningSession.tracker session') in
    Metrics.total_questions m = length inputs
    /\ Metrics.avg_response_time m == 2
    /\ Metrics.response_time_trend m = stable
    /\ (forall lvl,
          AdaptiveEngine._get_action_rule_based m lvl = increase
          <-> 80 <= Metrics.accuracy m
              /\ (2 <= Metrics.consecutive_correct m)%nat
              /\ lvl <> "Hard"%string)
    /\ (forall lvl,
          AdaptiveEngine._get_action_rule_based m lvl = decrease
          <-> Metrics.accuracy m < 60 /\ lvl <> "Easy"%string).
Proof.
  intros engine user level mode inputs session' Hplay Hne m.
  destruct (app_play_tracker inputs
              (AdaptiveLearningSession.__init__ engine user level mode)
              session' [] eq_refl Hplay)
    as (events & Htr & Hlen & Hall).
  simpl in Htr.
  assert (Hm : m = snapshot events).
  { unfold m. rewrite Htr. apply snapshot_tracker. }
  assert (Hevents : events <> []).
  { destruct events; [ | discriminate].
    destruct inputs; [contradiction | discriminate Hlen]. }
  assert (Htimes : forall x, In x (map ev_response_time events) -> x = 2).
  { intros x Hx. apply in_map_iff in Hx. destruct Hx as (e & <- & He).
    rewrite Forall_forall in Hall. apply Hall. exact He. }
  assert (Havg : Metrics.avg_response_time m == 2).
  { rewrite Hm, avg_response_time_overall. apply mean_const; [ | exact Htimes].
    destruct events; [contradiction | discriminate]. }
  split; [ | split; [exact Havg | split ] ].
  - rewrite Hm. unfold snapshot, PerformanceTracker.get_current_metrics.
    rewrite tracker_after_length.
    destruct events; [contradiction | ]. simpl in *. lia.
  - rewrite Hm, trend_of_snapshot.
    destruct (Nat.leb_spec (length events) 3) as [_ | Hgt]; [reflexivity | ].
    assert (Holder : mean (but_last_n 3 (map ev_response_time events)) == 2).
    { apply mean_const.
      - intro Hnil. apply but_last_n_nil_iff in Hnil.
        rewrite length_map in Hnil. lia.
      - intros x Hx. apply Htimes. apply In_but_last_n in Hx. exact Hx. }
    assert (Hrecent : mean (last_n 3 (map ev_response_time events)) == 2).
    { apply mean_const.
      - intro Hnil. apply (f_equal (@length Q)) in Hnil.
        rewrite last_n_length, length_map in Hnil. cbn [length] in Hnil.
        lia.
      - intros x Hx. apply Htimes. unfold last_n in Hx.
        rewrite <- (firstn_skipn
                      (length (map ev_response_time events) - 3)
                      (map ev_response_time events)).
        apply in_or_app. right. exact Hx. }
    destruct (Qlt_bool_reflect
                (mean (but_last_n 3 (map ev_response_time events))
                 * (12 # 10))
                (mean (last_n 3 (map ev_response_time events))))
      as [Hhigh | _]; [lra | ].
    destruct (Qlt_bool_reflect
                (mean (last_n 3 (map ev_response_time events)))
                (mean (but_last_n 3 (map ev_response_time events))
                 * (8 # 10)))
      as [Hlow | _]; [lra | reflexivity].
  - split; intro lvl; rewrite rule_based_cases.
    + assert (Hinc : AdaptiveEngine.increase_conditions m = true
                     <-> 80 <= Metrics.accuracy m
                         /\ (2 <= Metrics.consecutive_correct m)%nat).
      { rewrite increase_conditions_iff. split; [tauto | ].
        intros (Ha & Hs). repeat split; try assumption. lra. }
      destruct (neq_level_reflect lvl "Hard") as [Hl | Hl];
        destruct (AdaptiveEngine.increase_conditions m) eqn:Hi;
        cbn [andb].
      * split; [intros _ | reflexivity].
        destruct (proj1 Hinc eq_refl); tauto.
      * split.
        -- destruct (AdaptiveEngine.decrease_conditions m && _);
             discriminate.
        -- intros (Ha & Hs & _).
           assert (Hc : false = true) by (apply Hinc; tauto).
           discriminate Hc.
      * split.
        -- destruct (AdaptiveEngine.decrease_conditions m && _);
             discriminate.
        -- tauto.
      * split.
        -- destruct (AdaptiveEngine.decrease_conditions m && _);
             discriminate.
        -- tauto.
    + assert (Hdec : AdaptiveEngine.decrease_conditions m = true
                     <-> Metrics.accuracy m < 60).
      { rewrite decrease_conditions_iff. split; [ | tauto].
        intros [Ha | Ht]; [exact Ha | lra]. }
      assert (Hexcl : AdaptiveEngine.increase_conditions m = true ->
                      ~ Metrics.accuracy m < 60).
      { intros Hi Hlow. apply increase_conditions_iff in Hi. lra. }
      destruct (neq_level_reflect lvl "Easy") as [Hl | Hl];
        destruct (AdaptiveEngine.decrease_conditions m) eqn:Hd;
        destruct (AdaptiveEngine.increase_conditions m
                  && negb (lvl =? "Hard")%string) eqn:Hi;
        cbn [andb].
      * apply andb_true_iff in Hi. destruct Hi as [Hi _].
        split; [discriminate | ]. intros (Hlow & _).
        exfalso. exact (Hexcl Hi Hlow).
      * split; [intros _ | reflexivity]. split; [ | exact Hl].
        apply Hdec. reflexivity.
      * split; [discriminate | ]. intros (Hlow & _).
        assert (Hc : false = true) by (apply Hdec; exact Hlow).
        discriminate Hc.
      * split; [discriminate | ]. intros (Hlow & _).
        assert (Hc : false = true) by (apply Hdec; exact Hlow).
        discriminate Hc.
      * split; [discriminate | tauto].
      * split; [discriminate | tauto].
      * split; [discriminate | tauto].
      * split; [discriminate | tauto].
Qed.

Lemma app_time_thresholds_inert_witness :
  exists session',
    app_play
      (AdaptiveLearningSession.__init__ optimistic_engine "Ada" "Easy"
         "ml_based")
      [({| Puzzle.question := "1 + 1 = ?";
           Puzzle.operand1 := 1;
           Puzzle.operand2 := 1;
           Puzzle.operation := "+";
           Puzzle.answer := 2;
           Puzzle.difficulty := "Easy" |}, 2)]
    = Returned session'
    /\ Metrics.avg_response_time
         (PerformanceTracker.get_current_metrics
            (AdaptiveLearningSession.tracker session')) == 2.
Proof.
  destruct (app_play _ _) as [session' | ] eqn:Hplay.
  - exists session'. split; [reflexivity | ].
    exact (proj1 (proj2 (app_time_thresholds_inert _ _ _ _ _ _ Hplay
                           ltac:(discriminate)))).
  - exfalso. vm_compute in Hplay. discriminate Hplay.
Defined.

(** ** The correctness check *)

(** X10. A whole-number answer is marked correct exactly when it equals the
    puzzle's answer: the tolerance of 0.01 never accepts a wrong whole
    number and never rejects the right one. *)
Theorem whole_answer_correct_iff_equal :
  forall (typed : Z) (puzzle : Puzzle.t),
    check_answer (inject_Z typed) puzzle = true
    <-> typed = Puzzle.answer puzzle.
Proof.
  intros typed puzzle. unfold check_answer. rewrite Qlt_bool_iff.
  set (a := Puzzle.answer puzzle).
  assert (Hdiff : inject_Z typed - inject_Z a == inject_Z (typed - a)).
  { unfold Qminus. rewrite <- inject_Z_opp, <- inject_Z_plus. reflexivity. }
  rewrite Hdiff.
  assert (Habs : Qabs (inject_Z (typed - a)) = inject_Z (Z.abs (typed - a)))
    by reflexivity.
  rewrite Habs. unfold Qlt, inject_Z. simpl. lia.
Qed.

(** ** Building the engine *)

Section EngineInit.

Context {Model : Type} (predict_proba_of : Model -> Classifier).

Variables (disk : Disk (ModelFile Model)) (mode : string).

Let engine := AdaptiveEngineInit.__init__ predict_proba_of disk mode.

Lemma init_mode : AdaptiveEngine.mode engine = mode.
Proof.
  unfold engine, AdaptiveEngineInit.__init__.
  destruct (mode =? "ml_based")%string; [ | reflexivity].
  destruct (AdaptiveEngineInit._load_or_initialize_model _ _). reflexivity.
Qed.

(** Without a fitted model every prediction raises. *)
Lemma init_predicts_only_when_fitted (row : list Q) (p : Q) :
  AdaptiveEngine.predict_proba engine row = Some p ->
  mode = "ml_based"%string
  /\ exists m,
       disk AdaptiveEngineInit.model_path = Some (Pickled (Some (Fitted m)))
       /\ predict_proba_of m row = Some p.
Proof.
  unfold engine, AdaptiveEngineInit.__init__, AdaptiveEngine.predict_proba.
  destruct (String.eqb_spec mode "ml_based") as [Hm | Hm];
    [ | simpl; discriminate].
  unfold AdaptiveEngineInit._load_or_initialize_model.
  destruct (disk AdaptiveEngineInit.model_path) as [ [ | [ [ | m] | ] ] | ];
    simpl; try discriminate.
  intro Hp. split; [exact Hm | ]. exists m. split; [reflexivity | exact Hp].
Qed.

Lemma init_is_trained :
  AdaptiveEngine.is_trained engine = true
  <-> mode = "ml_based"%string
      /\ exists obj, disk AdaptiveEngineInit.model_path = Some (Pickled obj).
Proof.
  unfold engine, AdaptiveEngineInit.__init__.
  destruct (String.eqb_spec mode "ml_based") as [Hm | Hm].
  - unfold AdaptiveEngineInit._load_or_initialize_model.
    destruct (disk AdaptiveEngineInit.model_path) as [ [ | obj] | ]; simpl.
    + split; [discriminate | ]. intros (_ & obj & H). discriminate H.
    + split; [ | reflexivity]. intros _. split; [exact Hm | ].
      exists obj. reflexivity.
    + split; [discriminate | ]. intros (_ & obj & H). discriminate H.
  - simpl. split; [discriminate | ]. intros (H & _). contradiction.
Qed.

End EngineInit.

(** X11. An engine built by [AdaptiveEngine(mode)] is trained exactly when
    the mode is "ml_based" and the model file exists and unpickles.  It
    departs from the Threshold Policy only through a fitted model read from
    that file: with any other mode, no file, an unreadable file, or a file
    that holds no fitted model, [get_next_action] is the Threshold Policy
    for every snapshot and level, and so is the Hybrid Arbiter. *)
Theorem engine_without_fitted_model_is_threshold :
  forall (Model : Type) (predict_proba_of : Model -> Classifier)
         (disk : Disk (ModelFile Model)) (mode : string),
    let engine := AdaptiveEngineInit.__init__ predict_proba_of disk mode in
    let fitted :=
      mode = "ml_based"%string
      /\ exists m,
           disk AdaptiveEngineInit.model_path
           = Some (Pickled (Some (Fitted m))) in
    (AdaptiveEngine.is_trained engine = true
     <-> mode = "ml_based"%string
         /\ exists obj,
              disk AdaptiveEngineInit.model_path = Some (Pickled obj))
    /\ (forall m lvl,
          AdaptiveEngine.get_next_action engine m lvl
          <> AdaptiveEngine._get_action_rule_based m lvl -> fitted)
    /\ (forall m lvl,
          HybridAdaptiveEngine.get_next_action engine m lvl
          <> AdaptiveEngine._get_action_rule_based m lvl -> fitted).
Proof.
  intros Model predict_proba_of disk mode engine fitted.
  assert (Hml : forall m lvl,
            AdaptiveEngine._get_action_ml_based engine m lvl
            <> AdaptiveEngine._get_action_rule_based m lvl -> fitted).
  { intros m lvl Hne. unfold AdaptiveEngine._get_action_ml_based in Hne.
    destruct (AdaptiveEngine.predict_proba engine (AdaptiveEngine.features m))
      as [p | ] eqn:Hp; [ | contradiction].
    destruct (init_predicts_only_when_fitted predict_proba_of disk mode _ _ Hp)
      as (Hm & mdl & Hd & _).
    split; [exact Hm | ]. exists mdl. exact Hd. }
  split; [apply init_is_trained | ]. split.
  - intros m lvl Hne. unfold AdaptiveEngine.get_next_action in Hne.
    destruct (AdaptiveEngine.mode engine =? "rule_based")%string;
      [contradiction | ].
    destruct ((AdaptiveEngine.mode engine =? "ml_based")%string
              && AdaptiveEngine.is_trained engine);
      [ | contradiction].
    apply (Hml m lvl). exact Hne.
  - intros m lvl Hne. unfold HybridAdaptiveEngine.get_next_action in Hne.
    destruct (AdaptiveEngine.is_trained engine).
    + destruct (Action_eqb_reflect
                  (AdaptiveEngine._get_action_rule_based m lvl)
                  (AdaptiveEngine._get_action_ml_based engine m lvl))
        as [Heq | Hdiff]; [contradiction | ].
      apply (Hml m lvl). congruence.
    + destruct (Action_eqb _ _); contradiction.
Qed.

(** ** The difficulty breakdown *)

Lemma tally_of_snoc (rs : list Response) (r : Response) :
  tally_of (rs ++ [r]) = PerformanceTracker.tally_one (tally_of rs) r.
Proof.
  unfold tally_of, PerformanceTracker.tally_one.
  cbn [PerformanceTracker.tally_correct PerformanceTracker.tally_total
       PerformanceTracker.tally_total_time].
  rewrite count_app, length_app, map_app. cbn [map length].
  rewrite sum_snoc. unfold count at 2. cbn [filter].
  destruct (is_correct r); cbn [length]; f_equal; lia.
Qed.

Lemma levels_seen_snoc (rs : list Response) (r : Response) :
  levels_seen (rs ++ [r]) =
    if existsb (fun l => (l =? difficulty r)%string) (levels_seen rs)
    then levels_seen rs
    else levels_seen rs ++ [difficulty r].
Proof.
  unfold levels_seen. rewrite fold_left_app. reflexivity.
Qed.

Lemma existsb_level (level : string) (levels : list string) :
  existsb (fun l => (l =? level)%string) levels = true <-> In level levels.
Proof.
  rewrite existsb_exists. split.
  - intros (l & Hl & He). apply String.eqb_eq in He. subst. exact Hl.
  - intro H. exists level. split; [exact H | apply String.eqb_refl].
Qed.

Lemma levels_seen_In (rs : list Response) (level : string) :
  In level (levels_seen rs) <-> exists r, In r rs /\ difficulty r = level.
Proof.
  induction rs as [ | r rs IH] using rev_ind.
  - simpl. split; [contradiction | intros (r & [] & _)].
  - rewrite levels_seen_snoc.
    destruct (existsb _ (levels_seen rs)) eqn:Hex.
    + apply existsb_level in Hex. rewrite IH. split.
      * intros (r' & Hr' & He). exists r'. split; [ | exact He].
        apply in_or_app. left. exact Hr'.
      * intros (r' & Hr' & He). apply in_app_or in Hr'.
        destruct Hr' as [Hr' | [<- | [] ] ].
        -- exists r'. tauto.
        -- apply IH. rewrite <- He. exact Hex.
    + rewrite in_app_iff, IH. simpl. split.
      * intros [ (r' & Hr' & He) | [He | [] ] ].
        -- exists r'. split; [apply in_or_app; left; exact Hr' | exact He].
        -- exists r. split; [apply in_or_app; right; left; reflexivity | ].
           exact He.
      * intros (r' & Hr' & He). apply in_app_or in Hr'.
        destruct Hr' as [Hr' | [<- | [] ] ].
        -- left. exists r'. tauto.
        -- right. left. exact He.
Qed.

Lemma levels_seen_NoDup (rs : list Response) : NoDup (levels_seen rs).
Proof.
  induction rs as [ | r rs IH] using rev_ind; [constructor | ].
  rewrite levels_seen_snoc.
  destruct (existsb _ (levels_seen rs)) eqn:Hex; [exact IH | ].
  apply NoDup_app; [exact IH | repeat constructor; simpl; tauto | ].
  intros l Hl [<- | [] ].
  apply existsb_level in Hl. rewrite Hl in Hex. discriminate Hex.
Qed.

Lemma at_level_snoc (level : string) (rs : list Response) (r : Response) :
  at_level level (rs ++ [r]) =
    if (difficulty r =? level)%string
    then at_level level rs ++ [r] else at_level level rs.
Proof.
  unfold at_level. rewrite filter_app. simpl.
  destruct (difficulty r =? level)%string; [reflexivity | apply app_nil_r].
Qed.

Lemma at_level_unseen (level : string) (rs : list Response) :
  ~ In level (levels_seen rs) -> at_level level rs = [].
Proof.
  intro Hnot. unfold at_level.
  destruct (filter _ rs) as [ | r rest] eqn:Hf; [reflexivity | ].
  exfalso. apply Hnot. apply levels_seen_In.
  assert (Hin : In r (filter (fun r => (difficulty r =? level)%string) rs))
    by (rewrite Hf; left; reflexivity).
  apply filter_In in Hin. destruct Hin as [Hr He].
  exists r. split; [exact Hr | apply String.eqb_eq; exact He].
Qed.

Lemma at_level_seen (level : string) (rs : list Response) :
  In level (levels_seen rs) -> (0 < length (at_level level rs))%nat.
Proof.
  intro Hin. apply levels_seen_In in Hin. destruct Hin as (r & Hr & He).
  assert (Hf : In r (at_level level rs)).
  { unfold at_level. apply filter_In. split; [exact Hr | ].
    apply String.eqb_eq. exact He. }
  destruct (at_level level rs); [contradiction | simpl; lia].
Qed.

(** Updating the tally of a response's level, on a dictionary given by its
    keys. *)
Lemma tally_response_keys (r : Response)
    (f : string -> PerformanceTracker.Tally) :
  forall keys : list string,
    NoDup keys ->
    PerformanceTracker.tally_response r (map (fun k => (k, f k)) keys) =
      if existsb (fun l => (l =? difficulty r)%string) keys
      then map (fun k => (k, if (k =? difficulty r)%string
                             then PerformanceTracker.tally_one (f k) r
                             else f k)) keys
      else map (fun k => (k, f k)) keys
           ++ [(difficulty r,
                PerformanceTracker.tally_one
                  {| PerformanceTracker.tally_correct := 0;
                     PerformanceTracker.tally_total := 0;
                     PerformanceTracker.tally_total_time := 0 |} r)].
Proof.
  induction keys as [ | k keys IH]; intro Hnd; [reflexivity | ].
  inversion Hnd as [ | k' keys' Hk Hnd']; subst.
  simpl. destruct (String.eqb_spec k (difficulty r)) as [He | Hne].
  - simpl. f_equal. apply map_ext_in. intros k' Hk'.
    destruct (String.eqb_spec k' (difficulty r)) as [He' | _];
      [ | reflexivity].
    exfalso. apply Hk. rewrite He, <- He'. exact Hk'.
  - simpl. rewrite (IH Hnd').
    destruct (existsb _ keys); reflexivity.
Qed.

Lemma breakdown_tallies (rs : list Response) :
  fold_left
    (fun breakdown response =>
       PerformanceTracker.tally_response response breakdown) rs []
  = map (fun l => (l, tally_of (at_level l rs))) (levels_seen rs).
Proof.
  induction rs as [ | r rs IH] using rev_ind; [reflexivity | ].
  rewrite fold_left_app. cbn [fold_left]. rewrite IH.
  rewrite (tally_response_keys r (fun l => tally_of (at_level l rs))
             (levels_seen rs) (levels_seen_NoDup rs)).
  rewrite levels_seen_snoc.
  destruct (existsb _ (levels_seen rs)) eqn:Hex.
  - apply map_ext. intro l. f_equal. rewrite at_level_snoc.
    rewrite (String.eqb_sym l (difficulty r)).
    destruct (difficulty r =? l)%string; [ | reflexivity].
    symmetry. apply tally_of_snoc.
  - assert (Hnot : ~ In (difficulty r) (levels_seen rs)).
    { intro Hin. apply existsb_level in Hin. rewrite Hin in Hex.
      discriminate Hex. }
    rewrite map_app. f_equal.
    + apply map_ext_in. intros l Hl. f_equal. rewrite at_level_snoc.
      destruct (String.eqb_spec (difficulty r) l) as [He | _];
        [ | reflexivity].
      exfalso. apply Hnot. rewrite He. exact Hl.
    + simpl. f_equal. f_equal. rewrite at_level_snoc, String.eqb_refl.
      rewrite tally_of_snoc, (at_level_unseen _ _ Hnot). reflexivity.
Qed.

Lemma tally_response_total (r : Response) :
  forall breakdown : list (string * PerformanceTracker.Tally),
    list_sum (map (fun e => PerformanceTracker.tally_total (snd e))
                  (PerformanceTracker.tally_response r breakdown))
    = S (list_sum (map (fun e => PerformanceTracker.tally_total (snd e))
                       breakdown)).
Proof.
  induction breakdown as [ | [k stats] rest IH]; [reflexivity | ].
  simpl. destruct (k =? difficulty r)%string; simpl.
  - lia.
  - rewrite IH. lia.
Qed.

(** X12. [get_difficulty_breakdown] reports, for each level at which a
    question was answered and in the order in which the levels first
    occurred, the number of responses at that level, their accuracy in
    percent and their mean response time.  Every level is listed once, no
    listed count is zero, and the counts add up to the number of
    responses. *)
Theorem difficulty_breakdown_groups_by_level :
  forall self : PerformanceTracker.t,
    let rs := PerformanceTracker.responses self in
    let breakdown := PerformanceTracker.get_difficulty_breakdown self in
    breakdown = map (fun l => (l, stats_of (at_level l rs))) (levels_seen rs)
    /\ NoDup (map fst breakdown)
    /\ (forall l, In l (map fst breakdown)
                  <-> exists r, In r rs /\ difficulty r = l)
    /\ (forall l stats,
          In (l, stats) breakdown ->
          (0 < PerformanceTracker.level_count stats)%nat)
    /\ list_sum (map (fun e => PerformanceTracker.level_count (snd e))
                     breakdown)
       = length rs.
Proof.
  intros self rs breakdown.
  assert (Hb : breakdown
               = map (fun l => (l, stats_of (at_level l rs)))
                     (levels_seen rs)).
  { unfold breakdown, PerformanceTracker.get_difficulty_breakdown.
    fold rs. rewrite breakdown_tallies, map_map.
    apply map_ext_in. intros l Hl. cbn [tally_of
      PerformanceTracker.tally_total PerformanceTracker.tally_correct
      PerformanceTracker.tally_total_time].
    pose proof (at_level_seen l rs Hl) as Hpos.
    destruct (Nat.ltb_spec 0 (length (at_level l rs))); [ | lia].
    reflexivity. }
  assert (Hkeys : map fst breakdown = levels_seen rs).
  { rewrite Hb, map_map. simpl. apply map_id. }
  split; [exact Hb | ]. split; [ | split; [ | split ] ].
  - rewrite Hkeys. apply levels_seen_NoDup.
  - intro l. rewrite Hkeys. apply levels_seen_In.
  - intros l stats Hin. rewrite Hb in Hin. apply in_map_iff in Hin.
    destruct Hin as (l' & He & Hl'). injection He as <- <-.
    simpl. apply at_level_seen. exact Hl'.
  - unfold breakdown, PerformanceTracker.get_difficulty_breakdown.
    fold rs. rewrite map_map.
    transitivity
      (list_sum
         (map (fun e => PerformanceTracker.tally_total (snd e))
              (fold_left
                 (fun breakdown response =>
                    PerformanceTracker.tally_response response breakdown)
                 rs []))).
    + f_equal. apply map_ext. intros [k stats]. reflexivity.
    + clear. induction rs as [ | r rs IH] using rev_ind; [reflexivity | ].
      rewrite fold_left_app. cbn [fold_left].
      rewrite tally_response_total, IH, length_app. simpl. lia.
Qed.

(** ** The size and shape of the training set *)

Lemma combine_fst {A B} :
  forall (xs : list A) (ys : list B),
    length xs = length ys -> map fst (combine xs ys) = xs.
Proof.
  induction xs as [ | x xs IH]; intros [ | y ys] H; try discriminate H.
  - reflexivity.
  - simpl. f_equal. apply IH. simpl in H. lia.
Qed.

Lemma combine_snd {A B} :
  forall (xs : list A) (ys : list B),
    length xs = length ys -> map snd (combine xs ys) = ys.
Proof.
  induction xs as [ | x xs IH]; intros [ | y ys] H; try discriminate H.
  - reflexivity.
  - simpl. f_equal. apply IH. simpl in H. lia.
Qed.

Lemma per_session_length (responses : list Response) :
  length (per_session responses) = (length responses - 2)%nat.
Proof.
  rewrite <- (length_map Some), per_session_positions, length_map.
  apply length_seq.
Qed.

Lemma per_session_shape (responses : list Response) :
  Forall (fun example => length (fst example) = 4%nat
                         /\ (snd example = 0%Z \/ snd example = 1%Z))
         (per_session responses).
Proof.
  unfold per_session. destruct (length responses <? 3)%nat; [constructor | ].
  unfold examples_at. apply Forall_flat_map. apply Forall_forall.
  intros i _. unfold spec_example_at.
  destruct (nth_error responses i) as [event | ]; [ | constructor].
  constructor; [ | constructor]. split; [reflexivity | ].
  unfold spec_label. simpl. destruct (is_correct event); tauto.
Qed.

Lemma extract_features_lengths (data : list Session) :
  length (fst (MLModelManager.extract_features data))
  = length (snd (MLModelManager.extract_features data)).
Proof.
  unfold MLModelManager.extract_features.
  destruct (outer_loop_examples data [] [] eq_refl) as [H _]. exact H.
Qed.

Lemma extract_features_size (data : list Session) :
  length (fst (MLModelManager.extract_features data))
  = list_sum (map (fun s => (length (responses_of s) - 2)%nat) data).
Proof.
  pose proof (extract_features_lengths data) as Hlen.
  pose proof (extract_features_examples data) as Hex.
  unfold examples_of in Hex.
  rewrite <- (combine_fst _ _ Hlen) at 1. rewrite length_map, Hex.
  clear. induction data as [ | s data IH]; [reflexivity | ].
  simpl. rewrite length_app, per_session_length, IH. reflexivity.
Qed.

(** X13. The trainer extracts [len - 2] examples from a session of [len]
    responses (none from fewer than 3) and nothing else: the number of
    rows and of labels is the sum of these over the sessions, every row has
    4 features and every label is 0 or 1. *)
Theorem training_set_size_and_shape :
  forall data : list Session,
    let X := fst (MLModelManager.extract_features data) in
    let y := snd (MLModelManager.extract_features data) in
    length X
    = list_sum (map (fun s => (length (responses_of s) - 2)%nat) data)
    /\ length y = length X
    /\ Forall (fun row => length row = 4%nat) X
    /\ Forall (fun label => label = 0%Z \/ label = 1%Z) y.
Proof.
  intros data X y.
  pose proof (extract_features_lengths data) as Hlen. fold X y in Hlen.
  pose proof (extract_features_examples data) as Hex.
  unfold examples_of in Hex. fold X y in Hex.
  assert (Hshape :
    Forall (fun example => length (fst example) = 4%nat
                           /\ (snd example = 0%Z \/ snd example = 1%Z))
           (combine X y)).
  { rewrite Hex. apply Forall_flat_map. apply Forall_forall.
    intros s _. apply per_session_shape. }
  split; [ | split; [ | split ] ].
  - apply extract_features_size.
  - symmetry. exact Hlen.
  - rewrite <- (combine_fst X y Hlen). rewrite Forall_map.
    apply Forall_impl with (2 := Hshape). tauto.
  - rewrite <- (combine_snd X y Hlen). rewrite Forall_map.
    apply Forall_impl with (2 := Hshape). tauto.
Qed.

(** ** The training pipeline and the model file *)

Section Pipeline.

Context {Model : Type} (lib : Sklearn.Library Model).

Variables (self : MLModelManager.t Model) (logs : Disk LogFile)
          (models : Disk (ModelFile Model)) (data_path : string).

Let run := MLModelManagerFiles.full_pipeline lib self logs models data_path.

(** A successful [train] leaves a fitted model, the trained flag and the
    scores. *)
Lemma train_true_state (X : list (list Q)) (y : list Z)
    (self' : MLModelManager.t Model) :
  MLModelManager.train lib self X y = (self', Returned true) ->
  MLModelManager.is_trained self' = true
  /\ MLModelManager.model_path self' = MLModelManager.model_path self
  /\ (exists m, MLModelManager.model self' = Some (Fitted m))
  /\ exists scores, MLModelManager.metrics self' = Some scores.
Proof.
  unfold MLModelManager.train.
  destruct (length X =? 0)%nat; [discriminate | ].
  destruct (Sklearn.train_test_split lib X y)
    as [ [ [X_train X_test] [y_train y_test] ] | ]; [ | discriminate].
  destruct (Sklearn.fit lib (FloatArray X_train) y_train) as [m | ];
    [ | discriminate].
  intro H. injection H as <-. simpl.
  repeat split; eexists; reflexivity.
Qed.

Lemma pipeline_failure_keeps_disk :
  MLModelManagerFiles.outcome run <> Returned true ->
  MLModelManagerFiles.models_after run = models.
Proof.
  unfold run, MLModelManagerFiles.full_pipeline.
  destruct (MLModelManagerFiles.load_performance_data logs data_path)
    as [ [ | s data] | ]; try reflexivity.
  destruct (MLModelManager.extract_features (s :: data)) as [X y].
  destruct (length X <? 10)%nat; [reflexivity | ].
  destruct (MLModelManager.train lib self X y) as [self' [ [ | ] | ] ];
    try reflexivity.
  destruct (MLModelManager.metrics self'); [ | reflexivity].
  unfold MLModelManagerFiles.save.
  destruct (MLModelManager.is_trained self'); simpl; [ | reflexivity].
  intro Hn. exfalso. apply Hn. reflexivity.
Qed.

Lemma pipeline_success :
  MLModelManagerFiles.outcome run = Returned true ->
  exists data m,
    logs data_path = Some (Json data)
    /\ (10 <= length (fst (MLModelManager.extract_features data)))%nat
    /\ MLModelManager.train lib self
         (fst (MLModelManager.extract_features data))
         (snd (MLModelManager.extract_features data))
       = (MLModelManagerFiles.manager run, Returned true)
    /\ MLModelManager.model (MLModelManagerFiles.manager run)
       = Some (Fitted m)
    /\ MLModelManager.is_trained (MLModelManagerFiles.manager run) = true
    /\ MLModelManagerFiles.models_after run
       = write_file models (MLModelManager.model_path self)
           (Pickled (Some (Fitted m))).
Proof.
  unfold run, MLModelManagerFiles.full_pipeline,
    MLModelManagerFiles.load_performance_data.
  destruct (logs data_path) as [ [ | [ | s data] ] | ];
    try (simpl; discriminate).
  destruct (MLModelManager.extract_features (s :: data)) as [X y] eqn:HXy.
  destruct (Nat.ltb_spec (length X) 10) as [Hlt | Hge];
    [simpl; discriminate | ].
  destruct (MLModelManager.train lib self X y) as [self' [ [ | ] | ] ]
    eqn:Htrain; try (simpl; discriminate).
  destruct (train_true_state X y self' Htrain)
    as (Htrained & Hpath & (m & Hmodel) & (scores & Hscores)).
  rewrite Hscores. unfold MLModelManagerFiles.save. rewrite Htrained.
  simpl. intros _. exists (s :: data), m. rewrite HXy. simpl.
  rewrite Hpath, Hmodel. repeat split; assumption.
Qed.

End Pipeline.

(** X14. [full_pipeline] returns [True] only when the log file holds
    sessions that yield at least 10 examples and training succeeds; the
    manager is then trained and the model file holds its fitted model.  In
    every other case no model file is written.  A missing log file, an
    empty log and a log that yields fewer than 10 examples return [False]
    and leave the manager untouched; a log file that is not JSON raises. *)
Theorem full_pipeline_outcomes :
  forall (Model : Type) (lib : Sklearn.Library Model)
         (self : MLModelManager.t Model) (logs : Disk LogFile)
         (models : Disk (ModelFile Model)) (data_path : string),
    let run :=
      MLModelManagerFiles.full_pipeline lib self logs models data_path in
    let unchanged :=
      MLModelManagerFiles.manager run = self
      /\ MLModelManagerFiles.models_after run = models in
    (MLModelManagerFiles.outcome run = Returned true ->
     exists data m,
       logs data_path = Some (Json data)
       /\ (10 <= list_sum
                   (map (fun s => (length (responses_of s) - 2)%nat) data))%nat
       /\ MLModelManager.model (MLModelManagerFiles.manager run)
          = Some (Fitted m)
       /\ MLModelManager.is_trained (MLModelManagerFiles.manager run) = true
       /\ MLModelManagerFiles.models_after run
            (MLModelManager.model_path self)
          = Some (Pickled (Some (Fitted m)))
       /\ (forall path, path <> MLModelManager.model_path self ->
             MLModelManagerFiles.models_after run path = models path))
    /\ (MLModelManagerFiles.outcome run <> Returned true ->
        MLModelManagerFiles.models_after run = models)
    /\ (logs data_path = None ->
        MLModelManagerFiles.outcome run = Returned false /\ unchanged)
    /\ (logs data_path = Some InvalidJson ->
        MLModelManagerFiles.outcome run = Raised /\ unchanged)
    /\ (forall data,
          logs data_path = Some (Json data) ->
          (list_sum (map (fun s => (length (responses_of s) - 2)%nat) data)
           < 10)%nat ->
          MLModelManagerFiles.outcome run = Returned false /\ unchanged).
Proof.
  intros Model lib self logs models data_path run unchanged.
  split; [ | split; [ | split; [ | split ] ] ].
  - intro Hok.
    destruct (pipeline_success lib self logs models data_path Hok)
      as (data & m & Hlogs & Hten & _ & Hmodel & Htrained & Hdisk).
    exists data, m. fold run in Hmodel, Htrained, Hdisk.
    split; [exact Hlogs | ]. split.
    { rewrite <- extract_features_size. exact Hten. }
    split; [exact Hmodel | ]. split; [exact Htrained | ].
    rewrite Hdisk. unfold write_file. split.
    + rewrite String.eqb_refl. reflexivity.
    + intros path Hne. destruct (String.eqb_spec path
                                   (MLModelManager.model_path self));
        [contradiction | reflexivity].
  - apply pipeline_failure_keeps_disk.
  - intro Hnone. unfold unchanged, run, MLModelManagerFiles.full_pipeline,
      MLModelManagerFiles.load_performance_data.
    rewrite Hnone. repeat split.
  - intro Hbad. unfold unchanged, run, MLModelManagerFiles.full_pipeline,
      MLModelManagerFiles.load_performance_data.
    rewrite Hbad. repeat split.
  - intros data Hlogs Hfew.
    rewrite <- extract_features_size in Hfew.
    unfold unchanged, run, MLModelManagerFiles.full_pipeline,
      MLModelManagerFiles.load_performance_data.
    rewrite Hlogs. destruct data as [ | s data]; [repeat split | ].
    destruct (MLModelManager.extract_features (s :: data)) as [X y].
    simpl in Hfew.
    destruct (Nat.ltb_spec (length X) 10); [repeat split | lia].
Qed.

(** X15. [save] refuses an untrained manager and writes nothing; from a
    trained one it writes the model to [model_path] and touches no other
    file, and [load] in a fresh manager on the same path then holds that
    model and is trained.  [load] with no file returns [False] and changes
    nothing.  When the path is the engine's, an engine built afterwards in
    "ml_based" mode is trained and consults the saved model. *)
Theorem save_then_load :
  forall (Model : Type) (predict_proba_of : Model -> Classifier)
         (self : MLModelManager.t Model) (models : Disk (ModelFile Model)),
    let path := MLModelManager.model_path self in
    let saved := MLModelManagerFiles.save self models in
    (MLModelManager.is_trained self = false -> saved = (models, false))
    /\ (MLModelManager.is_trained self = true ->
        snd saved = true
        /\ (forall other, other <> path -> fst saved other = models other)
        /\ MLModelManagerFiles.load (MLModelManager.__init__ path)
             (fst saved)
           = Returned
               ({| MLModelManager.model_path := path;
                   MLModelManager.model := MLModelManager.model self;
                   MLModelManager.is_trained := true;
                   MLModelManager.metrics := None |}, true)
        /\ (path = AdaptiveEngineInit.model_path ->
            let engine :=
              AdaptiveEngineInit.__init__ predict_proba_of (fst saved)
                "ml_based" in
            AdaptiveEngine.is_trained engine = true
            /\ AdaptiveEngine.model engine
               = AdaptiveEngineInit.classifier_of predict_proba_of
                   (MLModelManager.model self)))
    /\ (models path = None ->
        MLModelManagerFiles.load self models = Returned (self, false)).
Proof.
  intros Model predict_proba_of self models path saved.
  unfold saved, MLModelManagerFiles.save. fold path.
  split; [ | split ].
  - intros ->. reflexivity.
  - intros ->. cbn [negb fst snd]. split; [reflexivity | ]. split.
    + intros other Hne. unfold write_file.
      destruct (String.eqb_spec other path); [contradiction | reflexivity].
    + split.
      * unfold MLModelManagerFiles.load, write_file. simpl.
        rewrite String.eqb_refl. reflexivity.
      * intros Hpath. unfold AdaptiveEngineInit.__init__,
          AdaptiveEngineInit._load_or_initialize_model, write_file.
        rewrite <- Hpath, !String.eqb_refl. simpl. split; reflexivity.
  - intro Hnone. unfold MLModelManagerFiles.load. fold path.
    rewrite Hnone. reflexivity.
Qed.

(** ** Ranges and streaks of the snapshot *)

Lemma snapshot_counters (events : list AnswerEvent) :
  let tr := tracker_after "" "" events in
  Metrics.total_questions (snapshot events) = length events
  /\ Metrics.correct_count (snapshot events)
     = PerformanceTracker.correct_count tr
  /\ Metrics.incorrect_count (snapshot events)
     = PerformanceTracker.incorrect_count tr
  /\ Metrics.consecutive_correct (snapshot events)
     = PerformanceTracker.consecutive_correct tr
  /\ Metrics.max_streak (snapshot events)
     = PerformanceTracker.max_consecutive_correct tr.
Proof.
  intro tr. unfold snapshot, PerformanceTracker.get_current_metrics.
  fold tr. unfold tr. rewrite tracker_after_length.
  destruct events as [ | e events]; [repeat split | ].
  cbn [length Nat.eqb]. repeat split.
Qed.

Lemma record_event_counters (tr : PerformanceTracker.t) (e : AnswerEvent) :
  let tr' := PerformanceTracker.record_event tr e in
  PerformanceTracker.consecutive_correct tr'
  = (if ev_is_correct e
     then S (PerformanceTracker.consecutive_correct tr) else 0%nat)
  /\ PerformanceTracker.max_consecutive_correct tr'
     = Nat.max (PerformanceTracker.max_consecutive_correct tr)
               (PerformanceTracker.consecutive_correct tr')
  /\ PerformanceTracker.correct_count tr'
     = (if ev_is_correct e
        then S (PerformanceTracker.correct_count tr)
        else PerformanceTracker.correct_count tr).
Proof.
  unfold PerformanceTracker.record_event, PerformanceTracker.record_response.
  simpl. destruct (ev_is_correct e); repeat split; lia.
Qed.

Lemma tracker_after_snoc (u md : string) (events : list AnswerEvent)
    (e : AnswerEvent) :
  tracker_after u md (events ++ [e])
  = PerformanceTracker.record_event (tracker_after u md events) e.
Proof.
  unfold tracker_after. apply replay_snoc.
Qed.

Lemma max_streak_le_correct (u md : string) (events : list AnswerEvent) :
  let tr := tracker_after u md events in
  (PerformanceTracker.consecutive_correct tr
   <= PerformanceTracker.max_consecutive_correct tr)%nat
  /\ (PerformanceTracker.max_consecutive_correct tr
      <= PerformanceTracker.correct_count tr)%nat
  /\ (PerformanceTracker.correct_count tr <= length events)%nat.
Proof.
  induction events as [ | e events IH] using rev_ind.
  - simpl. lia.
  - rewrite tracker_after_snoc. cbv zeta in *.
    destruct (record_event_counters (tracker_after u md events) e)
      as (Hs & Hm & Hc).
    rewrite Hm, Hs, Hc, length_app. simpl.
    destruct (ev_is_correct e); lia.
Qed.

Lemma percent_range (c n : nat) :
  (c <= n)%nat -> (0 < n)%nat ->
  0 <= Qnat c / Qnat n * 100 /\ Qnat c / Qnat n * 100 <= 100.
Proof.
  intros Hcn Hn.
  assert (Hn' : 0 < Qnat n) by (unfold Qnat, Qlt; simpl; lia).
  assert (Hc0 : 0 <= Qnat c) by (unfold Qnat, Qle; simpl; lia).
  assert (Hc1 : Qnat c <= Qnat n) by (unfold Qnat, Qle; simpl; lia).
  assert (Hlo : 0 <= Qnat c / Qnat n).
  { apply Qle_shift_div_l; [exact Hn' | ]. lra. }
  assert (Hhi : Qnat c / Qnat n <= 1).
  { apply Qle_shift_div_r; [exact Hn' | ]. lra. }
  split; lra.
Qed.

Lemma count_le_length {A} (p : A -> bool) (xs : list A) :
  (count p xs <= length xs)%nat.
Proof.
  unfold count. apply filter_length_le.
Qed.

(** X16. In the snapshot of any event log the accuracy and the recent
    accuracy lie between 0 and 100, the correct count is at most the number
    of questions, the best streak at most the correct count and the current
    streak at most the best streak; when no response time is negative the
    average response time is not negative either. *)
Theorem snapshot_ranges :
  forall (u md : string) (events : list AnswerEvent),
    let s :=
      PerformanceTracker.get_current_metrics (tracker_after u md events) in
    (0 <= Metrics.accuracy s /\ Metrics.accuracy s <= 100)
    /\ (0 <= Metrics.recent_accuracy s /\ Metrics.recent_accuracy s <= 100)
    /\ (Metrics.consecutive_correct s <= Metrics.max_streak s)%nat
    /\ (Metrics.max_streak s <= Metrics.correct_count s)%nat
    /\ (Metrics.correct_count s <= Metrics.total_questions s)%nat
    /\ ((forall e, In e events -> 0 <= ev_response_time e) ->
        0 <= Metrics.avg_response_time s).
Proof.
  intros u md events s.
  assert (Hs : s = snapshot events) by apply snapshot_tracker.
  destruct (snapshot_counters events) as (Ht & Hc & _ & Hk & Hm).
  destruct (max_streak_le_correct "" "" events) as (H1 & H2 & H3).
  split; [ | split; [ | split; [ | split; [ | split ] ] ] ].
  - rewrite Hs. unfold snapshot, PerformanceTracker.get_current_metrics.
    rewrite tracker_after_length.
    destruct events as [ | e events]; [simpl; lra | ].
    cbn [length Nat.eqb Metrics.accuracy].
    apply percent_range; [exact H3 | simpl; lia].
  - rewrite Hs. unfold snapshot, PerformanceTracker.get_current_metrics.
    rewrite tracker_after_length.
    destruct events as [ | e events]; [simpl; lra | ].
    cbn [length Nat.eqb Metrics.recent_accuracy].
    destruct (if (3 <=? _)%nat then _ else _) as [ | r rs];
      [lra | ].
    apply percent_range; [apply count_le_length | simpl; lia].
  - rewrite Hs, Hk, Hm. exact H1.
  - rewrite Hs, Hm, Hc. exact H2.
  - rewrite Hs, Hc, Ht. exact H3.
  - intro Hpos. rewrite Hs, avg_response_time_overall.
    apply mean_nonneg. intros x Hx. apply in_map_iff in Hx.
    destruct Hx as (e & <- & He). apply Hpos. exact He.
Qed.

Lemma leading_true_spec (flags : list bool) :
  let k := leading_true flags in
  (k <= length flags)%nat
  /\ Forall (fun b => b = true) (firstn k flags)
  /\ (forall b, nth_error flags k = Some b -> b = false).
Proof.
  induction flags as [ | [ | ] flags IH]; simpl.
  - split; [lia | ]. split; [constructor | ]. intros b H. discriminate H.
  - destruct IH as (Hle & Hall & Hnext).
    split; [lia | ]. split; [ | exact Hnext].
    constructor; [reflexivity | exact Hall].
  - split; [lia | ]. split; [constructor | ].
    intros b H. injection H as <-. reflexivity.
Qed.

Lemma streak_is_trailing_run (u md : string) (events : list AnswerEvent) :
  PerformanceTracker.consecutive_correct (tracker_after u md events)
  = leading_true (rev (map ev_is_correct events)).
Proof.
  induction events as [ | e events IH] using rev_ind; [reflexivity | ].
  rewrite tracker_after_snoc, map_app, rev_app_distr.
  destruct (record_event_counters (tracker_after u md events) e)
    as (Hs & _).
  rewrite Hs, IH. simpl. destruct (ev_is_correct e); reflexivity.
Qed.

Lemma best_streak_over_prefixes (events : list AnswerEvent) :
  let streak l :=
    PerformanceTracker.consecutive_correct (tracker_after "" "" l) in
  let best :=
    PerformanceTracker.max_consecutive_correct (tracker_after "" "" events) in
  (forall n, (streak (firstn n events) <= best)%nat)
  /\ exists n, (n <= length events)%nat /\ streak (firstn n events) = best.
Proof.
  induction events as [ | e events IH] using rev_ind.
  - simpl. split.
    + intro n. rewrite firstn_nil. simpl. lia.
    + exists 0%nat. split; [lia | reflexivity].
  - cbv zeta in *. destruct IH as (Hall & n0 & Hn0 & Hbest).
    rewrite tracker_after_snoc.
    destruct (record_event_counters (tracker_after "" "" events) e)
      as (_ & Hm & _).
    rewrite Hm. rewrite <- tracker_after_snoc. split.
    + intro n. destruct (Nat.le_gt_cases n (length events)) as [Hle | Hgt].
      * rewrite firstn_app.
        replace (n - length events)%nat with 0%nat by lia.
        simpl. rewrite app_nil_r. specialize (Hall n). lia.
      * rewrite firstn_all2 by (rewrite length_app; simpl; lia). lia.
    + destruct (Nat.le_gt_cases
                  (PerformanceTracker.consecutive_correct
                     (tracker_after "" "" (events ++ [e])))
                  (PerformanceTracker.max_consecutive_correct
                     (tracker_after "" "" events))) as [Hle | Hgt].
      * exists n0. split; [rewrite length_app; simpl; lia | ].
        rewrite firstn_app.
        replace (n0 - length events)%nat with 0%nat by lia.
        simpl. rewrite app_nil_r, Hbest. lia.
      * exists (length (events ++ [e])). split; [lia | ].
        rewrite firstn_all. lia.
Qed.

(** X17. The current streak is the number of correct answers since the
    last incorrect one: the last [k] events are all correct and the event
    before them, if there is one, is incorrect.  The best streak is the
    largest current streak reached after any prefix of the log. *)
Theorem streak_meaning :
  forall (u md : string) (events : list AnswerEvent),
    let s :=
      PerformanceTracker.get_current_metrics (tracker_after u md events) in
    let k := Metrics.consecutive_correct s in
    let streak_after n :=
      Metrics.consecutive_correct (snapshot (firstn n events)) in
    (k <= length events)%nat
    /\ Forall (fun e => ev_is_correct e = true) (last_n k events)
    /\ (forall e, nth_error (rev events) k = Some e ->
                  ev_is_correct e = false)
    /\ (forall n, (streak_after n <= Metrics.max_streak s)%nat)
    /\ (exists n, (n <= length events)%nat
                  /\ streak_after n = Metrics.max_streak s).
Proof.
  intros u md events s k streak_after.
  assert (Hs : s = snapshot events) by apply snapshot_tracker.
  destruct (snapshot_counters events) as (_ & _ & _ & Hk & Hm).
  assert (Hrun : k = leading_true (rev (map ev_is_correct events))).
  { unfold k. rewrite Hs, Hk. apply streak_is_trailing_run. }
  destruct (leading_true_spec (rev (map ev_is_correct events)))
    as (Hle & Hall & Hnext).
  rewrite <- Hrun in Hle, Hall, Hnext.
  rewrite length_rev, length_map in Hle.
  split; [exact Hle | ]. split; [ | split ].
  - rewrite <- map_rev, firstn_map, Forall_map in Hall.
    rewrite firstn_rev in Hall. apply Forall_rev in Hall.
    rewrite rev_involutive in Hall. exact Hall.
  - intros e He. apply Hnext. rewrite <- map_rev, nth_error_map, He.
    reflexivity.
  - assert (Hprefix : forall n,
      streak_after n
      = PerformanceTracker.consecutive_correct
          (tracker_after "" "" (firstn n events))).
    { intro n. unfold streak_after.
      destruct (snapshot_counters (firstn n events)) as (_ & _ & _ & H & _).
      exact H. }
    destruct (best_streak_over_prefixes events) as (Hall' & n & Hn & Hbest).
    rewrite Hs, Hm. split.
    + intro n'. rewrite Hprefix. apply Hall'.
    + exists n. split; [exact Hn | ]. rewrite Hprefix. exact Hbest.
Qed.

(** ** The tracker's exporter *)

Lemma nth_error_enumerate {A} :
  forall (xs : list A) (a k : nat),
    nth_error (combine (seq a (length xs)) xs) k
    = option_map (fun x => ((a + k)%nat, x)) (nth_error xs k).
Proof.
  induction xs as [ | x xs IH]; intros a k.
  - destruct k; reflexivity.
  - destruct k as [ | k]; simpl.
    + rewrite Nat.add_0_r. reflexivity.
    + rewrite IH. destruct (nth_error xs k); simpl; [ | reflexivity].
      do 2 f_equal. lia.
Qed.

Lemma export_loop_from_two (rs : list Response) :
  forall (items : list (nat * Response)) (acc : list ExportedExample),
    Forall (fun item => (2 <= fst item)%nat) items ->
    fold_left
      (fun training_data '(i, response) =>
         if (i <? 2)%nat then training_data
         else training_data
              ++ [PerformanceTracker.export_example rs i response])
      items acc
    = acc ++ map (fun item =>
                    PerformanceTracker.export_example rs (fst item)
                      (snd item)) items.
Proof.
  induction items as [ | [i r] items IH]; intros acc Hall.
  - simpl. rewrite app_nil_r. reflexivity.
  - inversion Hall as [ | item items' Hi Hrest]; subst. simpl in Hi.
    cbn [fold_left]. destruct (Nat.ltb_spec i 2) as [Hlt | _]; [lia | ].
    rewrite (IH _ Hrest), <- app_assoc. reflexivity.
Qed.

Lemma export_from_third (self : PerformanceTracker.t) :
  let rs := PerformanceTracker.responses self in
  PerformanceTracker.export_for_ml_training self
  = map (fun item =>
           PerformanceTracker.export_example rs (fst item) (snd item))
        (combine (seq 2 (length (skipn 2 rs))) (skipn 2 rs)).
Proof.
  intro rs. unfold PerformanceTracker.export_for_ml_training,
    PerformanceTracker.enumerate. fold rs.
  destruct rs as [ | r0 [ | r1 rest] ]; try reflexivity.
  cbn [length seq combine fold_left Nat.ltb Nat.leb skipn].
  rewrite export_loop_from_two; [reflexivity | ].
  apply Forall_forall. intros [i r] Hin. apply in_combine_l in Hin.
  apply in_seq in Hin. simpl. lia.
Qed.

(** The exporter's accuracy, response time and recent accuracy are the
    trainer's; its streak feature is the signed count. *)
Lemma export_example_features (rs : list Response) (i : nat)
    (r : Response) :
  let prior := firstn i rs in
  let e := PerformanceTracker.export_example rs i r in
  let row := MLModelManager.features_of_prior prior in
  f_accuracy (features e) = nth 0 row 0
  /\ f_response_time (features e) = nth 1 row 0
  /\ f_recent_accuracy (features e) = nth 3 row 0
  /\ f_consecutive_correct (features e)
     = (2 * Z.of_nat (count is_correct prior) - Z.of_nat (length prior))%Z.
Proof.
  intros prior e row. unfold e, row, PerformanceTracker.export_example,
    MLModelManager.features_of_prior. fold prior.
  cbn [features f_accuracy f_response_time f_recent_accuracy
       f_consecutive_correct nth].
  rewrite !length_map, !last_n_length.
  split; [reflexivity | ]. split; [ | split; [reflexivity | ] ].
  - destruct prior as [ | p prior'] eqn:Hp; [reflexivity | ].
    rewrite <- Hp.
    rewrite match_nonempty; [reflexivity | ].
    rewrite length_map, last_n_length, Hp. simpl. lia.
  - pose proof (count_complement is_correct prior) as Hc. lia.
Qed.

(** X18. [export_for_ml_training] emits one example for each response from
    the third on, in order, tagged with the level of that response.  Its
    accuracy, response-time and recent-accuracy features are those of the
    trainer's row for the responses before it; its streak feature is the
    number of correct minus the number of incorrect responses before it;
    its target is 1 exactly when the response is correct and the accuracy
    before it is above 80 percent, and 0 otherwise. *)
Theorem export_for_ml_training_examples :
  forall self : PerformanceTracker.t,
    let rs := PerformanceTracker.responses self in
    let exported := PerformanceTracker.export_for_ml_training self in
    length exported = (length rs - 2)%nat
    /\ forall (i : nat) (r : Response),
         (2 <= i)%nat -> nth_error rs i = Some r ->
         exists e,
           nth_error exported (i - 2) = Some e
           /\ current_difficulty e = difficulty r
           /\ (let prior := firstn i rs in
               let row := MLModelManager.features_of_prior prior in
               f_accuracy (features e) = nth 0 row 0
               /\ f_response_time (features e) = nth 1 row 0
               /\ f_recent_accuracy (features e) = nth 3 row 0
               /\ f_consecutive_correct (features e)
                  = (Z.of_nat (count is_correct prior)
                     - Z.of_nat (count (fun p => negb (is_correct p)) prior))%Z
               /\ (target e = 1%Z
                   <-> is_correct r = true /\ 80 < nth 0 row 0)
               /\ (target e = 0%Z \/ target e = 1%Z)).
Proof.
  intros self rs exported.
  assert (Hexp : exported
                 = map (fun item =>
                          PerformanceTracker.export_example rs (fst item)
                            (snd item))
                       (combine (seq 2 (length (skipn 2 rs))) (skipn 2 rs)))
    by apply export_from_third.
  split.
  - rewrite Hexp, length_map, length_combine, length_seq, length_skipn. lia.
  - intros i r Hi Hr.
    assert (Hlt : (i < length rs)%nat).
    { apply nth_error_Some. rewrite Hr. discriminate. }
    exists (PerformanceTracker.export_example rs i r). split.
    { rewrite Hexp, nth_error_map, nth_error_enumerate, nth_error_skipn.
      replace (2 + (i - 2))%nat with i by lia. rewrite Hr. reflexivity. }
    split; [reflexivity | ].
    intros prior row.
    destruct (export_example_features rs i r) as (Ha & Ht & Hra & Hk).
    fold prior row in Ha, Ht, Hra, Hk.
    split; [exact Ha | ]. split; [exact Ht | ]. split; [exact Hra | ].
    split; [reflexivity | ].
    assert (Hlen : length prior = i)
      by (unfold prior; rewrite length_firstn; lia).
    assert (Hrow0 : nth 0 row 0
                    = Qnat (count is_correct prior) / Qnat (length prior)
                      * 100).
    { unfold row, MLModelManager.features_of_prior. cbn [nth].
      destruct (Nat.ltb_spec 0 (length prior)); [reflexivity | lia]. }
    unfold PerformanceTracker.export_example. fold prior. cbn [target].
    rewrite Hrow0.
    set (ratio := Qnat (count is_correct prior) / Qnat (length prior)).
    destruct (is_correct r); cbn [andb].
    + destruct (Qlt_bool_reflect (8 # 10) ratio) as [Hhigh | Hlow].
      * split; [ | right; reflexivity].
        split; [intros _; split; [reflexivity | lra] | reflexivity].
      * split; [ | left; reflexivity].
        split; [discriminate | ]. intros (_ & H). exfalso. apply Hlow. lra.
    + split; [ | left; reflexivity].
      split; [discriminate | ]. intros (H & _). discriminate H.
Qed.

(** ** The session log *)
















(** ** The loop of [run] *)

Lemma adapt_keeps (self self' : AdaptiveLearningSession.t) :
  AdaptiveLearningSession.adapt self = Returned self' ->
  AdaptiveLearningSession.question_count self'
  = AdaptiveLearningSession.question_count self
  /\ AdaptiveLearningSession.running self'
     = AdaptiveLearningSession.running self
  /\ AdaptiveLearningSession.user_name self'
     = AdaptiveLearningSession.user_name self
  /\ AdaptiveLearningSession.adaptation_mode self'
     = AdaptiveLearningSession.adaptation_mode self.
Proof.
  unfold AdaptiveLearningSession.adapt. intro H.
  destruct (2 <=? AdaptiveLearningSession.question_count self)%nat;
    [ | injection H as <-; repeat split; reflexivity].
  destruct (Action_eqb _ increase && _).
  - destruct (AdaptiveLearningSession._increase_difficulty self);
      [ | discriminate H].
    injection H as <-. repeat split; reflexivity.
  - destruct (Action_eqb _ decrease && _).
    + destruct (AdaptiveLearningSession._decrease_difficulty self);
        [ | discriminate H].
      injection H as <-. repeat split; reflexivity.
    + injection H as <-. repeat split; reflexivity.
Qed.

Lemma present_puzzle_keeps (self self' : AdaptiveLearningSession.t)
    (g g' : Random.t) (typed : Input) (response_time : Q) :
  AdaptiveLearningSession._present_puzzle self g typed response_time
  = Returned (self', g') ->
  AdaptiveLearningSession.question_count self'
  = S (AdaptiveLearningSession.question_count self)
  /\ AdaptiveLearningSession.running self'
     = AdaptiveLearningSession.running self
  /\ AdaptiveLearningSession.user_name self'
     = AdaptiveLearningSession.user_name self
  /\ AdaptiveLearningSession.adaptation_mode self'
     = AdaptiveLearningSession.adaptation_mode self.
Proof.
  unfold AdaptiveLearningSession._present_puzzle. intro H.
  destruct (PuzzleGenerator.generate_puzzle _ g) as [ [puzzle g1] | ];
    [ | discriminate H].
  cbn [and_then] in H.
  destruct typed as [ | [user_answer | ] ]; [discriminate H | | ].
  - destruct (AdaptiveLearningSession.adapt _) as [s | ] eqn:Hadapt;
      [ | discriminate H].
    cbn [and_then] in H. injection H as <- <-.
    destruct (adapt_keeps _ _ Hadapt) as (Hcount & Hrun & Huser & Hmode).
    rewrite Hcount, Hrun, Huser, Hmode. cbn.
    split; [lia | repeat split; reflexivity].
  - injection H as <- <-. cbn. split; [lia | repeat split; reflexivity].
Qed.

Lemma play_count :
  forall (turns : list (Input * Q)) (self self' : AdaptiveLearningSession.t)
         (g g' : Random.t),
    play self g turns = Returned (self', g') ->
    AdaptiveLearningSession.question_count self'
    = (AdaptiveLearningSession.question_count self + length turns)%nat
    /\ AdaptiveLearningSession.running self'
       = AdaptiveLearningSession.running self
    /\ AdaptiveLearningSession.user_name self'
       = AdaptiveLearningSession.user_name self
    /\ AdaptiveLearningSession.adaptation_mode self'
       = AdaptiveLearningSession.adaptation_mode self.
Proof.
  induction turns as [ | [typed time] turns IH]; intros self self' g g' H.
  - injection H as <- <-. split; [simpl; lia | repeat split; reflexivity].
  - cbn [play] in H.
    destruct (AdaptiveLearningSession._present_puzzle self g typed time)
      as [ [s1 g1] | ] eqn:Hturn; [ | discriminate H].
    cbn [and_then] in H.
    destruct (present_puzzle_keeps _ _ _ _ _ _ Hturn)
      as (Hc1 & Hr1 & Hu1 & Hm1).
    destruct (IH _ _ _ _ H) as (Hc & Hr & Hu & Hm).
    rewrite Hc, Hc1, Hr, Hr1, Hu, Hu1, Hm, Hm1. cbn [length].
    split; [lia | repeat split; reflexivity].
Qed.

Lemma run_loop_stopped (self : AdaptiveLearningSession.t) (g : Random.t)
    (max_questions : Z) (turns : list SessionLogging.Turn) :
  AdaptiveLearningSession.running self = false ->
  SessionLogging.run_loop self g max_questions turns = Returned (self, g).
Proof.
  intro Hstop. destruct turns; cbn [SessionLogging.run_loop];
    rewrite Hstop; reflexivity.
Qed.

Lemma run_loop_full (self : AdaptiveLearningSession.t) (g : Random.t)
    (max_questions : Z) (turns : list SessionLogging.Turn) :
  (max_questions
   <= Z.of_nat (AdaptiveLearningSession.question_count self))%Z ->
  SessionLogging.run_loop self g max_questions turns = Returned (self, g).
Proof.
  intro Hfull.
  assert (Hlt : (Z.of_nat (AdaptiveLearningSession.question_count self)
                 <? max_questions)%Z = false) by (apply Z.ltb_ge; exact Hfull).
  destruct turns; cbn [SessionLogging.run_loop];
    rewrite Hlt, andb_false_r; reflexivity.
Qed.

(** The loop of [run] is the session played over the first passes. *)
Lemma run_loop_plays (max_questions : Z) :
  forall (turns : list SessionLogging.Turn)
         (self : AdaptiveLearningSession.t) (g : Random.t),
    AdaptiveLearningSession.running self = true ->
    let n :=
      Nat.min
        (Z.to_nat
           (max_questions
            - Z.of_nat (AdaptiveLearningSession.question_count self)))
        (S (leading_true (map SessionLogging.continue turns))) in
    SessionLogging.run_loop self g max_questions turns
    = if (n <=? length turns)%nat
      then
        '(s, g') <- play self g (firstn n (turns_played turns)) ;;
        Returned (if (n =? 0)%nat then s else SessionLogging.stop s, g')
      else Raised.
Proof.
  induction turns as [ | turn rest IH]; intros self g Hrun n.
  - destruct (Z.ltb_spec
                (Z.of_nat (AdaptiveLearningSession.question_count self))
                max_questions) as [Hlt | Hge].
    + assert (Hn : n = 1%nat) by (unfold n; simpl; lia).
      rewrite Hn. cbn [SessionLogging.run_loop length Nat.leb].
      rewrite Hrun. apply Z.ltb_lt in Hlt. rewrite Hlt. reflexivity.
    + rewrite (run_loop_full _ _ _ _ Hge).
      assert (Hn : n = 0%nat) by (unfold n; lia).
      rewrite Hn. reflexivity.
  - destruct (Z.ltb_spec
                (Z.of_nat (AdaptiveLearningSession.question_count self))
                max_questions) as [Hlt | Hge].
    2:{ rewrite (run_loop_full _ _ _ _ Hge).
        assert (Hn : n = 0%nat) by (unfold n; lia).
        rewrite Hn. reflexivity. }
    cbn [SessionLogging.run_loop]. rewrite Hrun.
    pose proof Hlt as Hltb. apply Z.ltb_lt in Hltb. rewrite Hltb.
    cbn [andb].
    destruct (AdaptiveLearningSession._present_puzzle self g
                (Line (SessionLogging.typed turn))
                (SessionLogging.response_time turn))
      as [ [s1 g1] | ] eqn:Hturn.
    2:{ cbn [and_then].
        assert (Hn : exists m, n = S m).
        { unfold n. exists (Nat.pred n). unfold n. lia. }
        destruct Hn as (m & Hn). rewrite Hn.
        cbn [turns_played map firstn play]. rewrite Hturn.
        cbn [and_then]. destruct (S m <=? length (turn :: rest))%nat;
          reflexivity. }
    cbn [and_then].
    destruct (present_puzzle_keeps _ _ _ _ _ _ Hturn) as (Hc1 & Hr1 & _).
    rewrite Hrun in Hr1.
    destruct (Z.ltb_spec
                (Z.of_nat (AdaptiveLearningSession.question_count s1))
                max_questions) as [Hlt1 | Hge1].
    + destruct (SessionLogging.continue turn) eqn:Hcont.
      * specialize (IH s1 g1 Hr1). cbv zeta in IH. rewrite IH.
        set (n1 := Nat.min
                     (Z.to_nat
                        (max_questions
                         - Z.of_nat
                             (AdaptiveLearningSession.question_count s1)))
                     (S (leading_true (map SessionLogging.continue rest)))).
        assert (Hn : n = S n1).
        { unfold n, n1. cbn [map leading_true]. rewrite Hcont.
          cbn [leading_true]. lia. }
        assert (Hpos : (n1 =? 0)%nat = false).
        { apply Nat.eqb_neq. unfold n1. lia. }
        rewrite Hn. cbn [length Nat.leb turns_played map firstn play].
        rewrite Hturn. cbn [and_then]. fold (turns_played rest).
        rewrite Hpos. reflexivity.
      * rewrite run_loop_stopped by reflexivity.
        assert (Hn : n = 1%nat).
        { unfold n. cbn [map leading_true]. rewrite Hcont. lia. }
        rewrite Hn. cbn [length Nat.leb turns_played map firstn play].
        rewrite Hturn. reflexivity.
    + rewrite run_loop_stopped by reflexivity.
      assert (Hn : n = 1%nat).
      { unfold n. cbn [map leading_true].
        destruct (SessionLogging.continue turn); cbn [leading_true]; lia. }
      rewrite Hn. cbn [length Nat.leb turns_played map firstn play].
      rewrite Hturn. reflexivity.
Qed.

Lemma Forall_firstn_le {A} (P : A -> Prop) (xs : list A) (i j : nat) :
  (i <= j)%nat -> Forall P (firstn j xs) -> Forall P (firstn i xs).
Proof.
  intros Hle Hall. replace i with (Nat.min i j) by lia.
  rewrite <- firstn_firstn. revert Hall. generalize (firstn j xs).
  intros l Hall. clear Hle. revert i.
  induction Hall as [ | x l Hx Hl IH]; intros [ | i]; simpl;
    constructor; [exact Hx | apply IH].
Qed.

(** Every pass of the loop of [run] had a line to read. *)
Lemma turns_played_lines (n : nat) :
  forall turns : list SessionLogging.Turn,
    ~ In EndOfInput (map fst (firstn n (turns_played turns))).
Proof.
  induction n as [ | n IH]; intros [ | turn turns]; simpl.
  - intros [].
  - intros [].
  - intros [].
  - intros [Hhere | Hlater]; [discriminate Hhere | exact (IH turns Hlater)].
Qed.

Lemma run_loop_init (engine : AdaptiveEngine.t) (user level mode : string)
    (g : Random.t) (max_questions : Z) (turns : list SessionLogging.Turn) :
  let self := AdaptiveLearningSession.__init__ engine user level mode in
  let n := passes max_questions turns in
  SessionLogging.run_loop self g max_questions turns
  = if (n <=? length turns)%nat
    then
      '(s, g') <- play self g (firstn n (turns_played turns)) ;;
      Returned (if (n =? 0)%nat then s else SessionLogging.stop s, g')
    else Raised.
Proof.
  intros self n.
  pose proof (run_loop_plays max_questions turns self g eq_refl) as H.
  cbv zeta in H. rewrite H. unfold n, passes.
  change (AdaptiveLearningSession.question_count self) with 0%nat.
  rewrite Z.sub_0_r. reflexivity.
Qed.

(** X20. The loop of [run], started on a new session, presents
    [min(max_questions, 1 + y)] puzzles, where [y] is the number of times
    the learner answers "y" in a row to the question whether to continue:
    its result is the session played over that many turns, marked as no
    longer running.  It raises when the input ends before that and, at a
    level of Easy, Medium, Hard, only then.  When it returns, the question
    count is that number, which never exceeds [max_questions]; the session
    is still marked as running only when [max_questions] is not positive;
    and a session that ended before [max_questions] ended because the
    learner declined after its last puzzle, having agreed after every
    earlier one. *)
Theorem run_loop_asks :
  forall (engine : AdaptiveEngine.t) (user level mode : string)
         (g : Random.t) (max_questions : Z)
         (turns : list SessionLogging.Turn),
    let self := AdaptiveLearningSession.__init__ engine user level mode in
    let n := passes max_questions turns in
    SessionLogging.run_loop self g max_questions turns
    = (if (n <=? length turns)%nat
       then
         '(s, g') <- play self g (firstn n (turns_played turns)) ;;
         Returned (if (n =? 0)%nat then s else SessionLogging.stop s, g')
       else Raised)
    /\ ((length turns < n)%nat ->
        SessionLogging.run_loop self g max_questions turns = Raised)
    /\ (In level difficulty_order ->
        SessionLogging.run_loop self g max_questions turns = Raised ->
        (length turns < n)%nat)
    /\ forall (s : AdaptiveLearningSession.t) (g' : Random.t),
         SessionLogging.run_loop self g max_questions turns
         = Returned (s, g') ->
         AdaptiveLearningSession.question_count s = n
         /\ (Z.of_nat n <= Z.max 0 max_questions)%Z
         /\ (n <= length turns)%nat
         /\ (AdaptiveLearningSession.running s = false
             <-> (0 < max_questions)%Z)
         /\ Forall (fun turn => SessionLogging.continue turn = true)
              (firstn (n - 1) turns)
         /\ forall turn : SessionLogging.Turn,
              (Z.of_nat n < max_questions)%Z ->
              nth_error turns (n - 1) = Some turn ->
              SessionLogging.continue turn = false.
Proof.
  intros engine user level mode g max_questions turns self n.
  pose proof (run_loop_init engine user level mode g max_questions turns)
    as Hloop.
  cbv zeta in Hloop. fold self n in Hloop.
  split; [exact Hloop | ]. rewrite Hloop.
  destruct (Nat.leb_spec n (length turns)) as [Hle | Hgt].
  2:{ split; [reflexivity | ]. split; [intros _ _; exact Hgt | ].
      intros s g' H. discriminate H. }
  split; [intro Hlt; lia | ]. split.
  - intros Hin Hraised.
    destruct (play_preserves level (firstn n (turns_played turns)) self g
                (turns_played_lines n turns)
                (session_ok_init engine user level mode Hin))
      as (s & g' & Hplay & _).
    rewrite Hplay in Hraised. discriminate Hraised.
  - intros s g' Hret.
    destruct (play self g (firstn n (turns_played turns)))
      as [ [s1 g1] | ] eqn:Hplay; [ | discriminate Hret].
    cbn [and_then] in Hret. injection Hret as <- <-.
    destruct (play_count _ _ _ _ _ Hplay) as (Hcount & Hrun & _).
    change (AdaptiveLearningSession.question_count self) with 0%nat
      in Hcount.
    change (AdaptiveLearningSession.running self) with true in Hrun.
    assert (Hlen : length (firstn n (turns_played turns)) = n).
    { rewrite length_firstn. unfold turns_played. rewrite length_map. lia. }
    rewrite Hlen in Hcount. simpl in Hcount.
    pose proof (leading_true_spec (map SessionLogging.continue turns))
      as (Hk & Hall & Hnext).
    cbv zeta in Hk, Hall, Hnext.
    assert (Hn : n = Nat.min (Z.to_nat max_questions)
                       (S (leading_true
                             (map SessionLogging.continue turns))))
      by reflexivity.
    split; [ | split; [lia | split; [exact Hle | split; [ | split ] ] ] ].
    + destruct (n =? 0)%nat; exact Hcount.
    + destruct (Nat.eqb_spec n 0) as [Hz | Hnz].
      * rewrite Hrun. split; [discriminate | ]. intro Hpos. lia.
      * split; [intros _; lia | reflexivity].
    + assert (Hflags :
        Forall (fun b => b = true)
          (firstn (n - 1) (map SessionLogging.continue turns))).
      { apply Forall_firstn_le with (2 := Hall). lia. }
      rewrite firstn_map in Hflags. rewrite Forall_map in Hflags.
      exact Hflags.
    + intros turn Hearly Hturn.
      assert (Hkn : (n - 1)%nat
                    = leading_true (map SessionLogging.continue turns))
        by lia.
      apply Hnext. rewrite <- Hkn. rewrite nth_error_map, Hturn.
      reflexivity.
Qed.

(** ** A whole run *)





(** ** The session summary *)

(** X22. The summary of a session agrees with itself on its whole numbers,
    after any sequence of recorded responses: its metrics are those of
    [get_current_metrics], its breakdown that of
    [get_difficulty_breakdown], and its history length, the number of
    questions, the sum of the correct and the incorrect count and the sum
    of the per-level counts are one and the same number, the number of
    responses recorded. *)
Theorem session_summary_consistent :
  forall (u md : string) (events : list AnswerEvent),
    let self := tracker_after u md events in
    let summary := PerformanceTracker.get_session_summary self in
    let m := PerformanceTracker.summary_metrics summary in
    let levels := map snd (PerformanceTracker.difficulty_breakdown summary) in
    m = PerformanceTracker.get_current_metrics self
    /\ PerformanceTracker.difficulty_breakdown summary
       = PerformanceTracker.get_difficulty_breakdown self
    /\ PerformanceTracker.response_history_length summary = length events
    /\ Metrics.total_questions m = length events
    /\ (Metrics.correct_count m + Metrics.incorrect_count m)%nat
       = length events
    /\ list_sum (map PerformanceTracker.level_count levels) = length events.
Proof.
  intros u md events self summary m levels.
  set (rs := PerformanceTracker.responses self).
  assert (Hlen : length rs = length events)
    by apply tracker_after_length.
  destruct (tracker_after_state u md events)
    as (_ & _ & Hcorrect & Hincorrect & _).
  cbv zeta in Hcorrect, Hincorrect. fold self rs in Hcorrect, Hincorrect.
  split; [reflexivity | ]. split; [reflexivity | ].
  split; [exact Hlen | ].
  assert (Hm : m = PerformanceTracker.get_current_metrics self)
    by reflexivity.
  split; [ | split ].
  - rewrite Hm. unfold PerformanceTracker.get_current_metrics. fold rs.
    rewrite Hlen. destruct (length events); reflexivity.
  - rewrite Hm. unfold PerformanceTracker.get_current_metrics. fold rs.
    pose proof (count_complement is_correct rs) as Hsum.
    rewrite <- Hcorrect, <- Hincorrect in Hsum.
    destruct (length rs =? 0)%nat eqn:Hzero.
    + apply Nat.eqb_eq in Hzero. simpl. lia.
    + cbn [Metrics.correct_count Metrics.incorrect_count]. lia.
  - unfold levels, summary, PerformanceTracker.get_session_summary,
      PerformanceTracker.get_difficulty_breakdown.
    cbn [PerformanceTracker.difficulty_breakdown]. fold rs.
    rewrite !map_map. rewrite <- Hlen.
    transitivity
      (list_sum
         (map (fun e => PerformanceTracker.tally_total (snd e))
              (fold_left
                 (fun breakdown response =>
                    PerformanceTracker.tally_response response breakdown)
                 rs []))).
    + f_equal. apply map_ext. intros [k stats]. reflexivity.
    + clear. induction rs as [ | r rs IH] using rev_ind; [reflexivity | ].
      rewrite fold_left_app. cbn [fold_left].
      rewrite tally_response_total, IH, length_app. simpl. lia.
Qed.

(** ** What the trainer reads *)

Lemma fold_left_ext_in {A B} (f h : A -> B -> A) :
  forall (xs : list B) (a : A),
    (forall a x, In x xs -> f a x = h a x) ->
    fold_left f xs a = fold_left h xs a.
Proof.
  induction xs as [ | x xs IH]; intros a Hfh; [reflexivity | ].
  simpl. rewrite (Hfh a x) by (left; reflexivity).
  apply IH. intros a' x' Hx'. apply Hfh. right. exact Hx'.
Qed.

Lemma features_of_prior_ext (prior prior' : list Response) :
  map is_correct prior = map is_correct prior' ->
  map response_time prior = map response_time prior' ->
  MLModelManager.features_of_prior prior
  = MLModelManager.features_of_prior prior'.
Proof.
  intros Hflags Htimes.
  assert (H1 : count is_correct prior = count is_correct prior')
    by exact (count_map_eq _ _ _ _ Hflags).
  assert (H2 : length prior = length prior')
    by exact (map_eq_length _ _ _ _ Hflags).
  assert (Hrecent : map is_correct (last_n 3 prior)
                    = map is_correct (last_n 3 prior')).
  { rewrite <- !last_n_map, Hflags. reflexivity. }
  assert (H3 : count is_correct (last_n 3 prior)
               = count is_correct (last_n 3 prior'))
    by exact (count_map_eq _ _ _ _ Hrecent).
  assert (H4 : length (last_n 3 prior) = length (last_n 3 prior'))
    by exact (map_eq_length _ _ _ _ Hrecent).
  assert (H5 : map response_time (last_n 3 prior)
               = map response_time (last_n 3 prior')).
  { rewrite <- !last_n_map, Htimes. reflexivity. }
  assert (H6 : MLModelManager.count_until_incorrect (rev prior)
               = MLModelManager.count_until_incorrect (rev prior')).
  { apply count_until_incorrect_flags. rewrite !map_rev, Hflags.
    reflexivity. }
  unfold MLModelManager.features_of_prior. cbv zeta.
  rewrite H1, H2, H3, H4, H5, H6. reflexivity.
Qed.

Lemma extract_session_ext (rs rs' : list Response)
    (Xy : list (list Q) * list Z) :
  map is_correct rs = map is_correct rs' ->
  map response_time rs = map response_time rs' ->
  MLModelManager.extract_session rs Xy
  = MLModelManager.extract_session rs' Xy.
Proof.
  intros Hflags Htimes. unfold MLModelManager.extract_session.
  rewrite (map_eq_length _ _ _ _ Hflags).
  apply fold_left_ext_in. intros [X y] i _.
  assert (Hi : option_map is_correct (nth_error rs i)
               = option_map is_correct (nth_error rs' i)).
  { rewrite <- !nth_error_map, Hflags. reflexivity. }
  assert (Hrow : MLModelManager.features_of_prior (firstn i rs)
                 = MLModelManager.features_of_prior (firstn i rs')).
  { apply features_of_prior_ext; rewrite <- !firstn_map;
      [rewrite Hflags | rewrite Htimes]; reflexivity. }
  destruct (nth_error rs i) as [r | ], (nth_error rs' i) as [r' | ];
    try discriminate Hi; [ | reflexivity].
  injection Hi as Hi. rewrite Hi, Hrow. reflexivity.
Qed.

(** X23. The training set depends on the logged sessions only through the
    correctness flags and the response times of their responses: two logs
    with as many sessions, whose sessions agree on these position by
    position, give the same rows and the same labels, whatever their users,
    time stamps, puzzles, answers and levels; a session without
    [responses] key counts as one with no responses. *)
Theorem extract_features_reads_flags_and_times :
  forall data data' : list Session,
    Forall2 alike data data' ->
    MLModelManager.extract_features data
    = MLModelManager.extract_features data'.
Proof.
  intros data data' Halike. unfold MLModelManager.extract_features.
  generalize (@nil (list Q), @nil Z).
  induction Halike as [ | s s' data data' [Hflags Htimes] Hrest IH];
    intro Xy; [reflexivity | ].
  cbn [fold_left]. cbv zeta.
  rewrite (map_eq_length _ _ _ _ Hflags).
  rewrite (extract_session_ext _ _ Xy Hflags Htimes).
  apply IH.
Qed.

Lemma extract_features_reads_flags_and_times_witness :
  Forall2 alike (sample_session_log "Ada" "Easy")
                (sample_session_log "Bob" "Hard")
  /\ MLModelManager.extract_features (sample_session_log "Ada" "Easy")
     = MLModelManager.extract_features (sample_session_log "Bob" "Hard").
Proof.
  assert (H : Forall2 alike (sample_session_log "Ada" "Easy")
                            (sample_session_log "Bob" "Hard")).
  { constructor; [split; reflexivity | constructor]. }
  split; [exact H | ].
  exact (extract_features_reads_flags_and_times _ _ H).
Defined.
